(** * Barcelona space compliance checker: shallow embedding and properties

    The development follows [tools/checker_barcelona_compliance.py] and the
    report renderer of [tools/checker_ifc_parser.py].

    - Python [str] is a list of Unicode code points ([Text.str]).
    - Python [float] is IEEE binary64, taken from [SpecFloat] with
      [prec = 53] and [emax = 1024] ([Float64]).
    - Code that can raise returns a [result]; [for] loops with an early
      [return] are written with [for_return].
    - The result rows are records; where a property is about what the
      renderer does to them, they are dicts of a store, reached through
      addresses ([Store]). *)

From Stdlib Require Import List String Ascii Bool ZArith NArith Lia.
From Stdlib Require Import SpecFloat.
From Stdlib Require DecimalPos.
Import ListNotations.

Set Implicit Arguments.

(* ================================================================== *)
(** * Text: code points, literals and the Unicode data that is used   *)
(* ================================================================== *)

Module Text.

Local Open Scope N_scope.

Definition char := N.
Definition str := list char.

(** An ASCII literal of the source as a list of code points. *)
Definition lit (s : string) : str := map N_of_ascii (list_ascii_of_string s).

Definition char_eqb (a b : char) : bool := N.eqb a b.

Fixpoint str_eqb (a b : str) : bool :=
  match a, b with
  | [], [] => true
  | x :: a', y :: b' => char_eqb x y && str_eqb a' b'
  | _, _ => false
  end.

(** [needle in haystack] of Python, on strings. *)
Fixpoint startswith (s prefix : str) {struct prefix} : bool :=
  match prefix, s with
  | [], _ => true
  | p :: prefix', c :: s' => char_eqb p c && startswith s' prefix'
  | _ :: _, [] => false
  end.

Fixpoint contains (needle haystack : str) : bool :=
  startswith haystack needle ||
  match haystack with
  | [] => false
  | _ :: rest => contains needle rest
  end.

(** [sep.join(parts)]. *)
Fixpoint join (sep : str) (parts : list str) : str :=
  match parts with
  | [] => []
  | [p] => p
  | p :: rest => p ++ sep ++ join sep rest
  end.

(** ** Unicode character data

    The tables below are the Unicode Character Database restricted to the
    blocks Basic Latin and Latin-1 Supplement (U+0000..U+00FF) and to what
    their decompositions reach.  A code point outside of these blocks is given
    no case mapping, no decomposition and combining class 0; statements that
    quantify over text are made for text inside the two blocks. *)

(** [str.isspace] on one code point, the set that [str.strip()] removes. *)
Definition py_isspace (c : char) : bool :=
  ((0x09 <=? c) && (c <=? 0x0D)) || ((0x1C <=? c) && (c <=? 0x20)) ||
  (c =? 0x85) || (c =? 0xA0) || (c =? 0x1680) ||
  ((0x2000 <=? c) && (c <=? 0x200A)) ||
  (c =? 0x2028) || (c =? 0x2029) || (c =? 0x202F) || (c =? 0x205F) ||
  (c =? 0x3000).

Fixpoint lstrip (s : str) : str :=
  match s with
  | [] => []
  | c :: rest => if py_isspace c then lstrip rest else s
  end.

Definition rstrip (s : str) : str := rev (lstrip (rev s)).

(** [s.strip()] *)
Definition strip (s : str) : str := rstrip (lstrip s).

(** [str.lower] on one code point: A..Z and the capital letters of Latin-1
    (U+00C0..U+00DE without the multiplication sign U+00D7). *)
Definition lower_char (c : char) : char :=
  if ((0x41 <=? c) && (c <=? 0x5A)) ||
     ((0xC0 <=? c) && (c <=? 0xDE) && negb (c =? 0xD7))
  then c + 0x20 else c.

Definition lower (s : str) : str := map lower_char s.

(** The combining mark that a Latin-1 letter carries: the letter's offset in
    its row of the block, as (base letter offset, mark). *)
Definition latin1_letter (off : N) : option (N * char) :=
  match off with
  | 0x00 => Some (0x00, 0x300) | 0x01 => Some (0x00, 0x301)
  | 0x02 => Some (0x00, 0x302) | 0x03 => Some (0x00, 0x303)
  | 0x04 => Some (0x00, 0x308) | 0x05 => Some (0x00, 0x30A)
  | 0x07 => Some (0x02, 0x327)
  | 0x08 => Some (0x04, 0x300) | 0x09 => Some (0x04, 0x301)
  | 0x0A => Some (0x04, 0x302) | 0x0B => Some (0x04, 0x308)
  | 0x0C => Some (0x08, 0x300) | 0x0D => Some (0x08, 0x301)
  | 0x0E => Some (0x08, 0x302) | 0x0F => Some (0x08, 0x308)
  | 0x11 => Some (0x0D, 0x303)
  | 0x12 => Some (0x0E, 0x300) | 0x13 => Some (0x0E, 0x301)
  | 0x14 => Some (0x0E, 0x302) | 0x15 => Some (0x0E, 0x303)
  | 0x16 => Some (0x0E, 0x308)
  | 0x19 => Some (0x14, 0x300) | 0x1A => Some (0x14, 0x301)
  | 0x1B => Some (0x14, 0x302) | 0x1C => Some (0x14, 0x308)
  | 0x1D => Some (0x18, 0x301)
  | _ => None
  end.

(** Full compatibility decomposition (NFKD) of one code point. *)
Definition decompose (c : char) : str :=
  match c with
  | 0xA0 => [0x20]
  | 0xA8 => [0x20; 0x308]
  | 0xAA => [0x61]
  | 0xAF => [0x20; 0x304]
  | 0xB2 => [0x32]
  | 0xB3 => [0x33]
  | 0xB4 => [0x20; 0x301]
  | 0xB5 => [0x3BC]
  | 0xB8 => [0x20; 0x327]
  | 0xB9 => [0x31]
  | 0xBA => [0x6F]
  | 0xBC => [0x31; 0x2044; 0x34]
  | 0xBD => [0x31; 0x2044; 0x32]
  | 0xBE => [0x33; 0x2044; 0x34]
  | 0xFF => [0x79; 0x308]
  | _ =>
      if (0xC0 <=? c) && (c <=? 0xDF) then
        match latin1_letter (c - 0xC0) with
        | Some (base, mark) => [0x41 + base; mark]
        | None => [c]
        end
      else if (0xE0 <=? c) && (c <=? 0xFE) then
        match latin1_letter (c - 0xE0) with
        | Some (base, mark) => [0x61 + base; mark]
        | None => [c]
        end
      else [c]
  end.

(** [unicodedata.combining]: the canonical combining class. *)
Definition combining (c : char) : N :=
  match c with
  | 0x300 | 0x301 | 0x302 | 0x303 | 0x304 | 0x308 | 0x30A => 230
  | 0x327 => 202
  | _ => 0
  end.

(** [unicodedata.normalize("NFKD", text)], without the canonical reordering:
    that step only permutes code points of non-zero combining class among
    themselves, and [_norm_text], its one caller, removes them all. *)
Definition nfkd (text : str) : str := flat_map decompose text.

End Text.
Import Text.

Local Open Scope string_scope.
Local Open Scope list_scope.
Local Open Scope N_scope.

(** [_norm_text]: the fields it is given are IFC labels, a [str] or [None],
    for which [str(value)] is the value itself. *)
Definition _norm_text (value : option str) : str :=
  match value with
  | None => lit ""
  | Some value =>
      let text := lower (strip value) in
      let text := nfkd text in
      filter (fun ch => combining ch =? 0) text
  end.

(* ================================================================== *)
(** * Python floats: IEEE binary64                                    *)
(* ================================================================== *)

Module Float64.

Local Open Scope Z_scope.

Definition prec : Z := 53.
Definition emax : Z := 1024.

Definition float := spec_float.

(** The double nearest to an integer (ties to even); infinite when the
    integer is beyond the range of doubles. *)
Definition of_Z (z : Z) : float := binary_normalize prec emax z 0 false.

(** The double nearest to [digits * 10 ^ exp10], with the sign [neg]: what a
    float literal of the source denotes and what [strtod] returns. *)
Definition of_decimal (neg : bool) (digits : N) (exp10 : Z) : float :=
  match digits with
  | N0 => S754_zero neg
  | Npos d =>
      if 0 <=? exp10
      then binary_round prec emax neg (d * Z.to_pos (10 ^ exp10)) 0
      else SFdiv prec emax (S754_finite neg d 0)
                 (S754_finite false (Z.to_pos (10 ^ (- exp10))) 0)
  end.

Definition ltb (x y : float) : bool := SFltb x y.
Definition mul (x y : float) : float := SFmul prec emax x y.

Definition is_finite (x : float) : bool :=
  match x with
  | S754_zero _ | S754_finite _ _ _ => true
  | S754_infinity _ | S754_nan => false
  end.

(** [a / b] on Python integers with [b <> 0]: the double nearest to the exact
    quotient.  (A quotient beyond the range of doubles raises in Python; the
    checker divides a count by a total that is at least as large.) *)
Definition int_truediv (a b : Z) : float :=
  match a, b with
  | Z0, _ => S754_zero (b <? 0)
  | _, Z0 => S754_nan
  | _, _ =>
      SFdiv prec emax (S754_finite (a <? 0) (Z.to_pos (Z.abs a)) 0)
                      (S754_finite (b <? 0) (Z.to_pos (Z.abs b)) 0)
  end.

(** [|m * 2^e| * 10^ndigits] rounded to an integer, ties to even: the digits
    that correctly rounded decimal output ([%.*f], [round]) shows. *)
Definition scaled_round (ndigits : nat) (m : positive) (e : Z) : Z :=
  let scale := 10 ^ Z.of_nat ndigits in
  match e with
  | Zneg p =>
      let num := Zpos m * scale in
      let den := 2 ^ Zpos p in
      let q := num / den in
      let r := num mod den in
      match 2 * r ?= den with
      | Lt => q
      | Gt => q + 1
      | Eq => if Z.even q then q else q + 1
      end
  | _ => Zpos m * 2 ^ e * scale
  end.

(** Decimal digits of a natural number. *)
Fixpoint uint_digits (u : Decimal.uint) : str :=
  match u with
  | Decimal.Nil => []
  | Decimal.D0 u => 0x30%N :: uint_digits u
  | Decimal.D1 u => 0x31%N :: uint_digits u
  | Decimal.D2 u => 0x32%N :: uint_digits u
  | Decimal.D3 u => 0x33%N :: uint_digits u
  | Decimal.D4 u => 0x34%N :: uint_digits u
  | Decimal.D5 u => 0x35%N :: uint_digits u
  | Decimal.D6 u => 0x36%N :: uint_digits u
  | Decimal.D7 u => 0x37%N :: uint_digits u
  | Decimal.D8 u => 0x38%N :: uint_digits u
  | Decimal.D9 u => 0x39%N :: uint_digits u
  end.

Definition str_of_N (n : N) : str := uint_digits (N.to_uint n).

(** [str(z)] on a Python integer. *)
Definition str_of_Z (z : Z) : str :=
  match z with
  | Zneg p => lit "-" ++ str_of_N (Npos p)
  | _ => str_of_N (Z.to_N z)
  end.

Definition zfill (width : nat) (s : str) : str :=
  repeat 0x30%N (width - List.length s) ++ s.

(** [n / 10^ndigits] written with [ndigits] decimals. *)
Definition fixed_digits (ndigits : nat) (n : Z) : str :=
  let scale := 10 ^ Z.of_nat ndigits in
  str_of_N (Z.to_N (n / scale)) ++
  match ndigits with
  | O => []
  | _ => lit "." ++ zfill ndigits (str_of_N (Z.to_N (n mod scale)))
  end.

(** [f"{x:.{ndigits}f}"] *)
Definition format_fixed (ndigits : nat) (x : float) : str :=
  match x with
  | S754_nan => lit "nan"
  | S754_infinity s => (if s then lit "-" else []) ++ lit "inf"
  | S754_zero s => (if s then lit "-" else []) ++ fixed_digits ndigits 0
  | S754_finite s m e =>
      (if s then lit "-" else []) ++ fixed_digits ndigits (scaled_round ndigits m e)
  end.

(** [round(x, ndigits)] for [0 <= ndigits] small: the decimal string with
    [ndigits] decimals, correctly rounded, read back as a double. *)
Definition py_round (x : float) (ndigits : nat) : float :=
  match x with
  | S754_finite s m e =>
      of_decimal s (Z.to_N (scaled_round ndigits m e)) (- Z.of_nat ndigits)
  | _ => x
  end.

End Float64.
Import Float64.

(* ================================================================== *)
(** * Exceptions and early return                                     *)
(* ================================================================== *)

Inductive exn := TypeError | ValueError | OverflowError | ZeroDivisionError.

Inductive result (A : Type) :=
| Ok (a : A)
| Raise (e : exn).
Arguments Ok {A} a.
Arguments Raise {A} e.

Definition bind {A B} (r : result A) (k : A -> result B) : result B :=
  match r with
  | Ok a => k a
  | Raise e => Raise e
  end.

Notation "x <- c1 ;; c2" := (bind c1 (fun x => c2))
  (at level 61, c1 at next level, right associativity).

Definition raises {A} (r : result A) : bool :=
  match r with Ok _ => false | Raise _ => true end.

(** [for x in l: body] inside a function, where the body either goes on to the
    next element ([Ok None]), leaves the function with [return r]
    ([Ok (Some r)]), or raises. *)
Fixpoint for_return {A R} (body : A -> result (option R)) (l : list A)
  : result (option R) :=
  match l with
  | [] => Ok None
  | x :: rest =>
      match body x with
      | Ok None => for_return body rest
      | Ok (Some r) => Ok (Some r)
      | Raise e => Raise e
      end
  end.

(* ================================================================== *)
(** * Python values and [float(value)]                                *)
(* ================================================================== *)

(** The values that reach [_to_float]: [None], the scalars, and objects
    without a numeric protocol: [VObject] has no attribute [wrappedValue],
    [VWrapper] has one, as the entity instances that wrap an IFC simple
    value do. *)
Inductive pyval :=
| VNone
| VBool (b : bool)
| VInt (z : Z)
| VFloat (f : float)
| VStr (s : str)
| VObject
| VWrapper (wrappedValue : pyval).

(** [float(s)] on a string: the grammar of the language reference, with the
    decimal digits and the whitespace of Unicode that [float] accepts. *)
Module FloatOfStr.

(** An ASCII digit. *)
Definition is_digit (c : char) : bool := (0x30 <=? c) && (c <=? 0x39).

Definition ascii_lower (c : char) : char :=
  if (0x41 <=? c) && (c <=? 0x5A) then c + 0x20 else c.

(** The code points of the digit zero of the decimal digits of Unicode
    (general category Nd, Unicode 14.0): each is followed by its digits one
    to nine.  [float] reads every one of them as a digit. *)
Definition decimal_zeros : list char :=
  [ 0x30; 0x660; 0x6F0; 0x7C0; 0x966; 0x9E6; 0xA66; 0xAE6; 0xB66; 0xBE6;
    0xC66; 0xCE6; 0xD66; 0xDE6; 0xE50; 0xED0; 0xF20; 0x1040; 0x1090; 0x17E0;
    0x1810; 0x1946; 0x19D0; 0x1A80; 0x1A90; 0x1B50; 0x1BB0; 0x1C40; 0x1C50;
    0xA620; 0xA8D0; 0xA900; 0xA9D0; 0xA9F0; 0xAA50; 0xABF0; 0xFF10; 0x104A0;
    0x10D30; 0x11066; 0x110F0; 0x11136; 0x111D0; 0x112F0; 0x11450; 0x114D0;
    0x11650; 0x116C0; 0x11730; 0x118E0; 0x11950; 0x11C50; 0x11D50; 0x11DA0;
    0x16A60; 0x16AC0; 0x16B50; 0x1D7CE; 0x1D7D8; 0x1D7E2; 0x1D7EC; 0x1D7F6;
    0x1E140; 0x1E2F0; 0x1E950; 0x1FBF0 ].

(** The value of a decimal digit. *)
Definition to_decimal (c : char) : option N :=
  match find (fun zero => (zero <=? c) && (c <=? zero + 9)) decimal_zeros with
  | Some zero => Some (c - zero)
  | None => None
  end.

(** The rest of a [digitpart] after its first digit: digits, each optionally
    preceded by one underscore.  [v] and [n] are the value and the number of
    the digits read so far. *)
Fixpoint digitpart_rest (s : str) (v : N) (n : nat) : N * nat * str :=
  match s with
  | c :: rest =>
      match to_decimal c with
      | Some d => digitpart_rest rest (10 * v + d) (S n)
      | None =>
          if c =? 0x5F then
            match rest with
            | c' :: rest' =>
                match to_decimal c' with
                | Some d => digitpart_rest rest' (10 * v + d) (S n)
                | None => (v, n, s)
                end
            | [] => (v, n, s)
            end
          else (v, n, s)
      end
  | [] => (v, n, s)
  end.

(** [digitpart ::= digit (["_"] digit)*] *)
Definition digitpart (s : str) : option (N * nat * str) :=
  match s with
  | c :: rest =>
      match to_decimal c with
      | Some d => Some (digitpart_rest rest d 1%nat)
      | None => None
      end
  | [] => None
  end.

(** [number ::= [digitpart] "." digitpart | digitpart ["."]]: the digits as
    one integer, the power of ten that scales it, and the rest. *)
Definition number (s : str) : option (N * Z * str) :=
  match digitpart s with
  | Some (iv, _, rest) =>
      match rest with
      | 0x2E :: rest' =>
          match digitpart rest' with
          | Some (fv, fn, rest'') =>
              Some (iv * 10 ^ N.of_nat fn + fv, (- Z.of_nat fn)%Z, rest'')
          | None => Some (iv, 0%Z, rest')
          end
      | _ => Some (iv, 0%Z, rest)
      end
  | None =>
      match s with
      | 0x2E :: rest' =>
          match digitpart rest' with
          | Some (fv, fn, rest'') => Some (fv, (- Z.of_nat fn)%Z, rest'')
          | None => None
          end
      | _ => None
      end
  end.

(** [exponent ::= ("e" | "E") [sign] digitpart] *)
Definition exponent (s : str) : option (Z * str) :=
  match s with
  | c :: rest =>
      if ascii_lower c =? 0x65 then
        let '(neg, rest) :=
          match rest with
          | 0x2B :: r => (false, r)
          | 0x2D :: r => (true, r)
          | _ => (false, rest)
          end in
        match digitpart rest with
        | Some (ev, _, rest') =>
            Some (if neg then (- Z.of_N ev)%Z else Z.of_N ev, rest')
        | None => None
        end
      else None
  | [] => None
  end.

(** The whitespace that [float] removes around the number: the whitespace of
    [str.strip] without the separators U+001C..U+001F. *)
Definition is_space (c : char) : bool :=
  py_isspace c && negb ((0x1C <=? c) && (c <=? 0x1F)).

Fixpoint skip_space (s : str) : str :=
  match s with
  | [] => []
  | c :: rest => if is_space c then skip_space rest else s
  end.

(** [floatvalue ::= [sign] (floatnumber | infinity | nan)], surrounded by
    whitespace; [None] is the [ValueError] of [float(s)]. *)
Definition parse (s : str) : option float :=
  let s := rev (skip_space (rev (skip_space s))) in
  let '(neg, s) :=
    match s with
    | 0x2B :: r => (false, r)
    | 0x2D :: r => (true, r)
    | _ => (false, s)
    end in
  let word := map ascii_lower s in
  if str_eqb word (lit "inf") || str_eqb word (lit "infinity")
  then Some (S754_infinity neg)
  else if str_eqb word (lit "nan") then Some S754_nan
  else
    match number s with
    | Some (digits, scale, rest) =>
        match rest with
        | [] => Some (of_decimal neg digits scale)
        | _ =>
            match exponent rest with
            | Some (e, []) => Some (of_decimal neg digits (scale + e))
            | _ => None
            end
        end
    | None => None
    end.

End FloatOfStr.

(** [float(value)] *)
Definition py_float (value : pyval) : result float :=
  match value with
  | VNone => Raise TypeError
  | VBool b => Ok (of_Z (if b then 1 else 0))
  | VInt z =>
      let f := of_Z z in
      if is_finite f then Ok f else Raise OverflowError
  | VFloat f => Ok f
  | VStr s =>
      match FloatOfStr.parse s with
      | Some f => Ok f
      | None => Raise ValueError
      end
  | VObject | VWrapper _ => Raise TypeError
  end.

(** [getattr(value, "wrappedValue", None)] *)
Definition getattr_wrappedValue (value : pyval) : pyval :=
  match value with
  | VWrapper wrapped => wrapped
  | _ => VNone
  end.

Definition is_None (value : pyval) : bool :=
  match value with VNone => true | _ => false end.

(** [try: return float(value) except (TypeError, ValueError): handler] *)
Definition try_float (value : pyval) (handler : result (option float))
  : result (option float) :=
  match py_float value with
  | Ok f => Ok (Some f)
  | Raise TypeError | Raise ValueError => handler
  | Raise e => Raise e
  end.

Definition _to_float (value : pyval) : result (option float) :=
  if is_None value then Ok None
  else
    try_float value
      (let wrapped := getattr_wrappedValue value in
       if negb (is_None wrapped)
       then try_float wrapped (Ok None)
       else Ok None).

(* ================================================================== *)
(** * The model graph, as the checker reads it                        *)
(* ================================================================== *)

Module Ifc.

Inductive quantity :=
| IfcQuantityArea (Name : option str) (AreaValue : pyval)
| IfcQuantityLength (Name : option str) (LengthValue : pyval)
| IfcQuantityOther (Name : option str).

Record property := { prop_Name : option str; NominalValue : pyval }.

Inductive property_definition :=
| IfcElementQuantity (Quantities : list quantity)
| IfcPropertySet (HasProperties : list property)
| IfcPropertyDefinitionOther.

Inductive relationship :=
| IfcRelDefinesByProperties (RelatingPropertyDefinition : option property_definition)
| IfcRelOther.

Record space := {
  Name : option str;
  LongName : option str;
  ObjectType : option str;
  GlobalId : option str;
  id : Z;
  IsDefinedBy : list relationship
}.

(** [model.by_type("IfcSpace")] is all that the checker asks of a file. *)
Record file := { by_type_IfcSpace : list space }.

End Ifc.
Import Ifc.

(* ================================================================== *)
(** * checker_barcelona_compliance                                    *)
(* ================================================================== *)

Record rule := { min_height : float; min_area : float }.

Definition SPACE_RULES : list (str * rule) :=
  [ (lit "Living Room", {| min_height := of_decimal false 26 (-1); min_area := of_decimal false 160 (-1) |});
    (lit "Bedroom",     {| min_height := of_decimal false 26 (-1); min_area := of_decimal false 90 (-1) |});
    (lit "Kitchen",     {| min_height := of_decimal false 26 (-1); min_area := of_decimal false 80 (-1) |});
    (lit "Bathroom",    {| min_height := of_decimal false 23 (-1); min_area := of_decimal false 40 (-1) |});
    (lit "Corridor",    {| min_height := of_decimal false 23 (-1); min_area := of_decimal false 15 (-1) |}) ].

Definition SPACE_KEYWORDS : list (str * list str) :=
  [ (lit "Living Room", map lit ["living"; "lounge"; "sala"; "salon"; "estar"; "menjador"]);
    (lit "Bedroom",     map lit ["bedroom"; "bed"; "dorm"; "habitacio"; "habitacio"; "dormitori"]);
    (lit "Kitchen",     map lit ["kitchen"; "cuina"; "cocina"]);
    (lit "Bathroom",    map lit ["bath"; "bathroom"; "toilet"; "wc"; "lavabo"; "aseo"; "bany"]);
    (lit "Corridor",    map lit ["corridor"; "hall"; "pasillo"; "passage"; "rebedor"; "distrib"]) ].

Definition QTO_AREA_NAMES : list str :=
  map lit ["netfloorarea"; "grossfloorarea"; "floorarea"].
Definition QTO_HEIGHT_NAMES : list str :=
  map lit ["height"; "clearheight"; "netheight"].

(** [x in names] on a set of strings. *)
Definition mem (x : str) (names : list str) : bool := existsb (str_eqb x) names.

(** [d.get(key)] on a dict written as its list of items. *)
Fixpoint dict_get {V} (d : list (str * V)) (key : str) : option V :=
  match d with
  | [] => None
  | (k, v) :: rest => if str_eqb k key then Some v else dict_get rest key
  end.

(** A [for] loop with an early [return] in code that cannot raise. *)
Fixpoint for_first {A R} (body : A -> option R) (l : list A) : option R :=
  match l with
  | [] => None
  | x :: rest =>
      match body x with
      | Some r => Some r
      | None => for_first body rest
      end
  end.

Definition haystack_of (space : space) : str :=
  join (lit " ")
    [ _norm_text (Name space);
      _norm_text (LongName space);
      _norm_text (ObjectType space) ].

Definition _get_space_type (space : space) : option str :=
  let haystack := haystack_of space in
  for_first (fun '(space_type, keywords) =>
    for_first (fun keyword =>
      if contains keyword haystack then Some space_type else None) keywords)
    SPACE_KEYWORDS.

Definition _iter_property_defs (space : space) : list property_definition :=
  flat_map (fun rel =>
    match rel with
    | IfcRelDefinesByProperties (Some prop_def) => [prop_def]
    | _ => []
    end) (IsDefinedBy space).

(** The two extractors differ in the kind of quantity they accept (with the
    attribute that holds its value), the set of names and the keyword. *)
Section Extract.

Variable pick : quantity -> option (option str * pyval).
Variable names : list str.
Variable keyword : str.

Definition quantity_step (q : quantity) : result (option (option float)) :=
  match pick q with
  | None => Ok None
  | Some (Name, Value) =>
      let qname := _norm_text Name in
      if mem qname names
      then r <- _to_float Value ;; Ok (Some r)
      else Ok None
  end.

Definition property_step (prop : property) : result (option (option float)) :=
  let pname := _norm_text (prop_Name prop) in
  if negb (contains keyword pname) then Ok None
  else
    let nominal := NominalValue prop in
    val <- _to_float nominal ;;
    match val with
    | Some _ => Ok (Some val)
    | None => Ok None
    end.

Definition extract (space : space) : result (option float) :=
  (* 1) Quantity takeoff preferred names *)
  r <- for_return (fun prop_def =>
         match prop_def with
         | IfcElementQuantity Quantities => for_return quantity_step Quantities
         | _ => Ok None
         end) (_iter_property_defs space) ;;
  match r with
  | Some returned => Ok returned
  | None =>
      (* 2) Property set fallback *)
      r <- for_return (fun prop_def =>
             match prop_def with
             | IfcPropertySet HasProperties => for_return property_step HasProperties
             | _ => Ok None
             end) (_iter_property_defs space) ;;
      match r with
      | Some returned => Ok returned
      | None => Ok None
      end
  end.

End Extract.

Definition area_quantity (q : quantity) : option (option str * pyval) :=
  match q with
  | IfcQuantityArea Name AreaValue => Some (Name, AreaValue)
  | _ => None
  end.

Definition length_quantity (q : quantity) : option (option str * pyval) :=
  match q with
  | IfcQuantityLength Name LengthValue => Some (Name, LengthValue)
  | _ => None
  end.

Definition _extract_area_m2 : space -> result (option float) :=
  extract area_quantity QTO_AREA_NAMES (lit "area").

Definition _extract_height_m : space -> result (option float) :=
  extract length_quantity QTO_HEIGHT_NAMES (lit "height").

Definition _format_decimal (value : option float) (digits : nat) : str :=
  match value with
  | None => lit "None"
  | Some value => format_fixed digits value
  end.

(** ** Result rows *)

(** The dict that a row's [log] serialises with [json.dumps]; the rows below
    keep the dict, the JSON text is not modelled. *)
Record space_log := {
  log_space : str;
  log_space_type : option str;
  log_area_m2 : option float;
  log_height_m : option float;
  log_min_area_m2 : option float;
  log_min_height_m : option float;
  log_status : str;
  log_reasons : list str
}.

Record summary_log := {
  total_spaces_input : Z;
  total_spaces_checked : Z;
  passed_count : Z;
  failed_count : Z;
  warnings_count : Z;
  compliance_rate_percent : float
}.

Inductive log_payload :=
| SpaceLog (structured_output : space_log)
| SummaryLog (summary : summary_log).

Record row := _result {
  element_id : option str;
  element_type : str;
  element_name : str;
  element_name_long : option str;
  check_status : str;
  actual_value : str;
  required_value : str;
  comment : option str;
  log : option log_payload
}.

(** Truth value of a [str | None]. *)
Definition nonempty (o : option str) : option str :=
  match o with
  | Some (_ :: _) => o
  | _ => None
  end.

(** [a or b] where [a] is a [str | None]. *)
Definition str_or (a : option str) (b : str) : str :=
  match nonempty a with
  | Some a => a
  | None => b
  end.

(** ** The verdict on one space: lines 208-239 of the source *)

Record verdict := {
  v_required_area : option float;
  v_required_height : option float;
  v_is_pass : bool;
  v_reasons : list str       (**r the list as it stands at line 232 *)
}.

Definition type_reasons (space_type : option str)
  : list str * option float * option float :=
  match nonempty space_type with
  | None => ([lit "Could not infer space type"], None, None)
  | Some space_type =>
      match dict_get SPACE_RULES space_type with
      | None => ([lit "Unrecognized space type: " ++ space_type], None, None)
      | Some rule => ([], Some (min_area rule), Some (min_height rule))
      end
  end.

Definition area_reasons (area required_area : option float) : list str :=
  match area with
  | None => [lit "Area not found."]
  | Some area =>
      match required_area with
      | Some required_area =>
          if ltb area required_area
          then [lit "Area " ++ format_fixed 3 area ++ lit " m2 < required "
                ++ format_fixed 3 required_area ++ lit " m2."]
          else []
      | None => []
      end
  end.

Definition height_reasons (height required_height : option float) : list str :=
  match height with
  | None => [lit "Height not found."]
  | Some height =>
      match required_height with
      | Some required_height =>
          if ltb height required_height
          then [lit "Height " ++ format_fixed 3 height ++ lit " m < required "
                ++ format_fixed 3 required_height ++ lit " m."]
          else []
      | None => []
      end
  end.

Definition judge (space_type : option str) (area height : option float) : verdict :=
  let reasons := [] in
  let '(appended, required_area, required_height) := type_reasons space_type in
  let reasons := reasons ++ appended in
  let reasons := reasons ++ area_reasons area required_area in
  let reasons := reasons ++ height_reasons height required_height in
  let is_pass := Nat.eqb (List.length reasons) 0 in
  {| v_required_area := required_area;
     v_required_height := required_height;
     v_is_pass := is_pass;
     v_reasons := reasons |}.

(** ** The loop over the spaces *)

Record counters := { results : list row; passed : Z; failed : Z }.

(** [warnings] is set to 0 at line 198 and never assigned again. *)
Definition warnings : Z := 0.

Definition space_row (space : space) (space_type : option str)
    (area height : option float) (v : verdict) : row :=
  let name := str_or (Name space) (lit "IfcSpace #" ++ str_of_Z (id space)) in
  let long_name := LongName space in
  let is_pass := v_is_pass v in
  let status := if is_pass then lit "pass" else lit "fail" in
  let reasons :=
    if is_pass then [lit "Meets minimum area and height requirements."]
    else v_reasons v in
  let structured_output :=
    {| log_space := name;
       log_space_type := space_type;
       log_area_m2 := area;
       log_height_m := height;
       log_min_area_m2 := v_required_area v;
       log_min_height_m := v_required_height v;
       log_status := if is_pass then lit "PASS" else lit "FAIL";
       log_reasons := reasons |} in
  _result
    (GlobalId space)
    (lit "IfcSpace")
    name
    (nonempty long_name)
    status
    (lit "space_type=" ++ str_or space_type (lit "unknown") ++ lit ", "
     ++ lit "area_m2=" ++ _format_decimal area 3 ++ lit ", "
     ++ lit "height_m=" ++ _format_decimal height 3)
    (lit "min_area_m2=" ++ _format_decimal (v_required_area v) 3 ++ lit ", "
     ++ lit "min_height_m=" ++ _format_decimal (v_required_height v) 3)
    (Some (join (lit "; ") reasons))
    (Some (SpaceLog structured_output)).

(** The body of [for space in spaces]. *)
Definition check_space (space : space) (st : counters) : result counters :=
  let space_type := _get_space_type space in
  area <- _extract_area_m2 space ;;
  height <- _extract_height_m space ;;
  let v := judge space_type area height in
  let record := space_row space space_type area height v in
  if v_is_pass v
  then Ok {| results := results st ++ [record];
             passed := (passed st + 1)%Z; failed := failed st |}
  else Ok {| results := results st ++ [record];
             passed := passed st; failed := (failed st + 1)%Z |}.

Fixpoint for_each {A S} (body : A -> S -> result S) (l : list A) (st : S)
  : result S :=
  match l with
  | [] => Ok st
  | x :: rest => st' <- body x st ;; for_each body rest st'
  end.

(** [a / b] on integers. *)
Definition py_truediv (a b : Z) : result float :=
  if (b =? 0)%Z then Raise ZeroDivisionError else Ok (int_truediv a b).

Definition summary_row (total_checked passed failed : Z)
    (compliance_rate : float) (summary : summary_log) : row :=
  _result
    None
    (lit "Summary")
    (lit "Barcelona Space Compliance Summary")
    None
    (if (failed =? 0)%Z then lit "pass" else lit "fail")
    (lit "checked=" ++ str_of_Z total_checked ++ lit ", passed=" ++ str_of_Z passed
     ++ lit ", failed=" ++ str_of_Z failed ++ lit ", "
     ++ lit "warnings=" ++ str_of_Z warnings ++ lit ", rate="
     ++ format_fixed 2 compliance_rate ++ lit "%")
    (lit "All checked spaces should meet minimum area and height by inferred space type")
    (Some (if (total_checked =? 0)%Z
           then lit "No IfcSpace elements found"
           else lit "Computed from provided Barcelona rules"))
    (Some (SummaryLog summary)).

Definition check_barcelona_space_compliance (model : file) : result (list row) :=
  let spaces := by_type_IfcSpace model in
  st <- for_each check_space spaces {| results := []; passed := 0; failed := 0 |} ;;
  let total_input := Z.of_nat (List.length spaces) in
  let total_checked := total_input in
  compliance_rate <-
    (if (0 <? total_checked)%Z
     then q <- py_truediv (passed st) total_checked ;;
          Ok (mul q (of_decimal false 1000 (-1)))
     else Ok (of_decimal false 0 (-1))) ;;
  let summary :=
    {| total_spaces_input := total_input;
       total_spaces_checked := total_checked;
       passed_count := passed st;
       failed_count := failed st;
       warnings_count := warnings;
       compliance_rate_percent := py_round compliance_rate 2 |} in
  Ok (results st ++
      [summary_row total_checked (passed st) (failed st) compliance_rate summary]).

(* ================================================================== *)
(** * checker_ifc_parser: the compliance section of the report        *)
(* ================================================================== *)

Module Render.

Definition _to_text (value : option str) : str :=
  match value with
  | None => lit ""
  | Some value => value
  end.

(** [text[:stop]]: a negative [stop] counts from the end. *)
Definition slice_to (text : str) (stop : Z) : str :=
  if (stop <? 0)%Z
  then firstn (Z.to_nat (Z.of_nat (List.length text) + stop)) text
  else firstn (Z.to_nat stop) text.

Definition _clip (value : option str) (width : Z) : str :=
  let text := _to_text value in
  if (Z.of_nat (List.length text) <=? width)%Z then text
  else slice_to text (width - 3) ++ lit "...".

(** [str.upper] on one code point of the two blocks: U+00DF becomes "SS",
    U+00B5 and U+00FF leave the blocks. *)
Definition upper_char (c : char) : str :=
  if ((0x61 <=? c) && (c <=? 0x7A)) ||
     ((0xE0 <=? c) && (c <=? 0xFE) && negb (c =? 0xF7))
  then [c - 0x20]
  else if c =? 0xDF then lit "SS"
  else if c =? 0xB5 then [0x39C]
  else if c =? 0xFF then [0x178]
  else [c].

Definition upper (s : str) : str := flat_map upper_char s.

(** [f"{s:<width}"] and [f"{s:>width}"] *)
Definition ljust (width : nat) (s : str) : str :=
  s ++ repeat 0x20 (width - List.length s).
Definition rjust (width : nat) (s : str) : str :=
  repeat 0x20 (width - List.length s) ++ s.

(** [d[key] = d.get(key, 0) + 1] *)
Fixpoint dict_incr (d : list (str * Z)) (key : str) : list (str * Z) :=
  match d with
  | [] => [(key, 1%Z)]
  | (k, v) :: rest =>
      if str_eqb k key then (k, (v + 1)%Z) :: rest else (k, v) :: dict_incr rest key
  end.

Definition status_key (r : row) : str :=
  match lower (_to_text (Some (check_status r))) with
  | [] => lit "unknown"
  | status => status
  end.

Definition rule_line : str := repeat 0x2D 100.

Definition space_line (idx : Z) (r : row) : str :=
  rjust 3 (str_of_Z idx) ++ lit " "
  ++ ljust 26 (_clip (Some (element_name r)) 26) ++ lit " "
  ++ ljust 8 (_clip (Some (upper (_to_text (Some (check_status r))))) 8) ++ lit " "
  ++ ljust 34 (_clip (Some (actual_value r)) 34) ++ lit " "
  ++ ljust 26 (_clip (Some (required_value r)) 26).

Fixpoint enumerate {A} (start : Z) (l : list A) : list (Z * A) :=
  match l with
  | [] => []
  | x :: rest => (start, x) :: enumerate (start + 1) rest
  end.

(** The function is handed the list object [results]; it is written here as a
    step from that object to the lines it returns and the object as it is left. *)
Definition _build_compliance_section (results : list row) : list str * list row :=
  let summary_rows :=
    filter (fun r => str_eqb (element_type r) (lit "Summary")) results in
  let space_rows :=
    filter (fun r => str_eqb (element_type r) (lit "IfcSpace")) results in
  let status_counts :=
    fold_left (fun counts r => dict_incr counts (status_key r)) space_rows [] in
  let lines :=
    [ lit "B) BARCELONA SPACE COMPLIANCE";
      rule_line;
      lit "Total space checks: " ++ str_of_Z (Z.of_nat (List.length space_rows));
      lit "";
      lit "1) COMPLIANCE STATUS COUNTS";
      rule_line;
      ljust 12 (lit "Status") ++ lit " " ++ rjust 8 (lit "Count");
      rule_line ] in
  let lines :=
    fold_left (fun lines status =>
      match dict_get status_counts status with
      | Some count =>
          lines ++ [ljust 12 (upper status) ++ lit " " ++ rjust 8 (str_of_Z count)]
      | None => lines
      end)
      (map lit ["pass"; "fail"; "warning"; "blocked"; "log"; "unknown"]) lines in
  let lines :=
    lines ++
    [ lit "";
      lit "2) SPACE-BY-SPACE RESULTS";
      rule_line;
      rjust 3 (lit "#") ++ lit " " ++ ljust 26 (lit "Space") ++ lit " "
      ++ ljust 8 (lit "Status") ++ lit " " ++ ljust 34 (lit "Measured") ++ lit " "
      ++ ljust 26 (lit "Required");
      rule_line ] in
  let lines :=
    match space_rows with
    | _ :: _ => lines ++ map (fun '(idx, r) => space_line idx r) (enumerate 1 space_rows)
    | [] => lines ++ [lit "No IfcSpace rows found."]
    end in
  let failed_or_warn :=
    filter (fun r => mem (lower (_to_text (Some (check_status r))))
                         (map lit ["fail"; "warning"; "blocked"])) space_rows in
  let lines := lines ++ [lit ""; lit "3) NON-COMPLIANT DETAILS"; rule_line] in
  let lines :=
    match failed_or_warn with
    | _ :: _ =>
        lines ++ flat_map (fun r =>
          (lit "- [" ++ upper (_to_text (Some (check_status r))) ++ lit "] "
           ++ _to_text (Some (element_name r)))
          :: match nonempty (comment r) with
             | Some _ => [lit "  reasons: " ++ _to_text (comment r)]
             | None => []
             end) failed_or_warn
    | [] => lines ++ [lit "All checked spaces are compliant."]
    end in
  let lines := lines ++ [lit ""; lit "4) COMPLIANCE SUMMARY ROWS"; rule_line] in
  let lines :=
    match summary_rows with
    | _ :: _ =>
        lines ++ flat_map (fun r =>
          (lit "- " ++ _to_text (Some (element_name r)) ++ lit ": "
           ++ _to_text (Some (actual_value r)))
          :: match nonempty (comment r) with
             | Some _ => [lit "  comment: " ++ _to_text (comment r)]
             | None => []
             end) summary_rows
    | [] => lines ++ [lit "No summary rows produced."]
    end in
  (lines ++ [lit ""], results).

End Render.

(* ================================================================== *)
(** * checker_ifc_parser: the store, and the compliance section on it *)
(* ================================================================== *)

(** The result rows are dicts: objects of a store, reached through their
    addresses.  The list [results] holds addresses, and so do the lists
    [summary_rows], [space_rows] and [failed_or_warn] that the section builds
    from it, which alias the same dicts.  A computation takes the store and
    returns its value with the store as it leaves it. *)

Module Store.

Import Render.

Definition address := nat.
Definition heap (R : Type) : Type := address -> R.

Definition M (R A : Type) : Type := heap R -> A * heap R.

Definition ret {R A} (a : A) : M R A := fun h => (a, h).

Definition bind {R A B} (c : M R A) (k : A -> M R B) : M R B :=
  fun h => let (a, h') := c h in k a h'.

Notation "x <~ c1 ;; c2" := (bind c1 (fun x => c2))
  (at level 61, c1 at next level, right associativity).

(** [row.get(key)] on the dict at [a]. *)
Definition get {R A} (a : address) (key : R -> A) : M R A :=
  fun h => (key (h a), h).

(** [row[key] = value] on the dict at [a], as the update of its record. *)
Definition setitem {R} (a : address) (update : R -> R) : M R unit :=
  fun h => (tt, fun b => if Nat.eqb b a then update (h b) else h b).

(** [for x in xs: acc = body(acc, x)] *)
Fixpoint for_loop {R A S} (xs : list A) (body : S -> A -> M R S) (acc : S) : M R S :=
  match xs with
  | [] => ret acc
  | x :: rest => acc' <~ body acc x ;; for_loop rest body acc'
  end.

(** [[x for x in xs if cond(x)]] *)
Fixpoint select {R A} (cond : A -> M R bool) (xs : list A) : M R (list A) :=
  match xs with
  | [] => ret []
  | x :: rest =>
      keep <~ cond x ;;
      kept <~ select cond rest ;;
      ret (if keep then x :: kept else kept)
  end.

(** Lines 304-388 of the source. *)
Definition _build_compliance_section (results : list address) : M row (list str) :=
  summary_rows <~
    select (fun a => t <~ get a element_type ;; ret (str_eqb t (lit "Summary")))
           results ;;
  space_rows <~
    select (fun a => t <~ get a element_type ;; ret (str_eqb t (lit "IfcSpace")))
           results ;;
  status_counts <~
    for_loop space_rows (fun counts a =>
      st <~ get a check_status ;;
      let status :=
        match lower (_to_text (Some st)) with
        | [] => lit "unknown"
        | status => status
        end in
      ret (dict_incr counts status)) [] ;;
  let lines :=
    [ lit "B) BARCELONA SPACE COMPLIANCE";
      rule_line;
      lit "Total space checks: " ++ str_of_Z (Z.of_nat (List.length space_rows));
      lit "";
      lit "1) COMPLIANCE STATUS COUNTS";
      rule_line;
      ljust 12 (lit "Status") ++ lit " " ++ rjust 8 (lit "Count");
      rule_line ] in
  let lines :=
    fold_left (fun lines status =>
      match dict_get status_counts status with
      | Some count =>
          lines ++ [ljust 12 (upper status) ++ lit " " ++ rjust 8 (str_of_Z count)]
      | None => lines
      end)
      (map lit ["pass"; "fail"; "warning"; "blocked"; "log"; "unknown"]) lines in
  let lines :=
    lines ++
    [ lit "";
      lit "2) SPACE-BY-SPACE RESULTS";
      rule_line;
      rjust 3 (lit "#") ++ lit " " ++ ljust 26 (lit "Space") ++ lit " "
      ++ ljust 8 (lit "Status") ++ lit " " ++ ljust 34 (lit "Measured") ++ lit " "
      ++ ljust 26 (lit "Required");
      rule_line ] in
  lines <~
    match space_rows with
    | _ :: _ =>
        for_loop (enumerate 1 space_rows) (fun lines '(idx, a) =>
          name <~ get a element_name ;;
          st <~ get a check_status ;;
          actual <~ get a actual_value ;;
          required <~ get a required_value ;;
          ret (lines ++
               [ rjust 3 (str_of_Z idx) ++ lit " "
                 ++ ljust 26 (_clip (Some name) 26) ++ lit " "
                 ++ ljust 8 (_clip (Some (upper (_to_text (Some st)))) 8) ++ lit " "
                 ++ ljust 34 (_clip (Some actual) 34) ++ lit " "
                 ++ ljust 26 (_clip (Some required) 26) ])) lines
    | [] => ret (lines ++ [lit "No IfcSpace rows found."])
    end ;;
  failed_or_warn <~
    select (fun a =>
      st <~ get a check_status ;;
      ret (mem (lower (_to_text (Some st))) (map lit ["fail"; "warning"; "blocked"])))
      space_rows ;;
  let lines := lines ++ [lit ""; lit "3) NON-COMPLIANT DETAILS"; rule_line] in
  lines <~
    match failed_or_warn with
    | _ :: _ =>
        for_loop failed_or_warn (fun lines a =>
          st <~ get a check_status ;;
          name <~ get a element_name ;;
          reasons <~ get a comment ;;
          ret (lines ++
               (lit "- [" ++ upper (_to_text (Some st)) ++ lit "] "
                ++ _to_text (Some name))
               :: match nonempty reasons with
                  | Some _ => [lit "  reasons: " ++ _to_text reasons]
                  | None => []
                  end)) lines
    | [] => ret (lines ++ [lit "All checked spaces are compliant."])
    end ;;
  let lines := lines ++ [lit ""; lit "4) COMPLIANCE SUMMARY ROWS"; rule_line] in
  lines <~
    match summary_rows with
    | _ :: _ =>
        for_loop summary_rows (fun lines a =>
          name <~ get a element_name ;;
          actual <~ get a actual_value ;;
          remark <~ get a comment ;;
          ret (lines ++
               (lit "- " ++ _to_text (Some name) ++ lit ": " ++ _to_text (Some actual))
               :: match nonempty remark with
                  | Some _ => [lit "  comment: " ++ _to_text remark]
                  | None => []
                  end)) lines
    | [] => ret (lines ++ [lit "No summary rows produced."])
    end ;;
  ret (lines ++ [lit ""]).

(** The widths that the two sections pass to [_clip]: lines 255 and 273-276,
    lines 354-357. *)
Definition display_widths : list Z := [30; 18; 34; 24; 17; 26; 8; 34; 26]%Z.

End Store.

(* ================================================================== *)
(** * Example data                                                    *)
(* ================================================================== *)

Module Examples.

Definition f_3_0 : float := of_decimal false 30 (-1).
Definition f_2_5 : float := of_decimal false 25 (-1).
Definition f_18_5 : float := of_decimal false 185 (-1).
Definition f_99_0 : float := of_decimal false 990 (-1).
Definition f_20_0 : float := of_decimal false 200 (-1).

Definition space_named (name : str) (defs : list property_definition) : space :=
  {| Name := Some name; LongName := None; ObjectType := None;
     GlobalId := Some (lit "2O2Fr$t4X7Zf8NOew3FLOH"); id := 101;
     IsDefinedBy := map (fun d => IfcRelDefinesByProperties (Some d)) defs |}.

Definition qto_net_floor_area : property_definition :=
  IfcElementQuantity [IfcQuantityArea (Some (lit "NetFloorArea")) (VFloat f_18_5)].

Definition pset_area_gross : property_definition :=
  IfcPropertySet [{| prop_Name := Some (lit "Area (gross)");
                     NominalValue := VWrapper (VFloat f_99_0) |}].

Definition space_both : space :=
  space_named (lit "Room") [pset_area_gross; qto_net_floor_area].
Definition space_pset_only : space :=
  space_named (lit "Room") [pset_area_gross].

Definition qto_height : property_definition :=
  IfcElementQuantity [IfcQuantityLength (Some (lit "Height")) (VFloat f_2_5)].
Definition pset_height : property_definition :=
  IfcPropertySet [{| prop_Name := Some (lit "Ceiling Height");
                     NominalValue := VWrapper (VFloat f_3_0) |}].
Definition space_both_height : space :=
  space_named (lit "Room") [pset_height; qto_height].
Definition space_pset_only_height : space :=
  space_named (lit "Room") [pset_height].

(** A bathroom of 3.0 m2 under a ceiling of 2.5 m. *)
Definition bathroom : space :=
  space_named (lit "Bathroom 1")
    [IfcElementQuantity
       [IfcQuantityArea (Some (lit "NetFloorArea")) (VFloat f_3_0);
        IfcQuantityLength (Some (lit "Height")) (VFloat f_2_5)]].

(** A bedroom of 18.5 m2 under a ceiling of 3.0 m. *)
Definition bedroom : space :=
  space_named (lit "Master Bedroom") [qto_net_floor_area; pset_height].

(** A quantity whose value is unset in the file ([$]), next to a second
    quantity and to a property set that both hold a readable area. *)
Definition space_unset_quantity : space :=
  space_named (lit "Room")
    [IfcElementQuantity
       [IfcQuantityArea (Some (lit "NetFloorArea")) VNone;
        IfcQuantityArea (Some (lit "GrossFloorArea")) (VFloat f_20_0)];
     pset_area_gross].

(** The same for the height. *)
Definition space_unset_height : space :=
  space_named (lit "Room")
    [IfcElementQuantity [IfcQuantityLength (Some (lit "Height")) VNone];
     pset_height].

(** Two properties named after the area: a label first, a number second. *)
Definition space_label_then_number : space :=
  space_named (lit "Room")
    [IfcPropertySet
       [{| prop_Name := Some (lit "Area remarks");
           NominalValue := VWrapper (VStr (lit "n/a")) |};
        {| prop_Name := Some (lit "Area");
           NominalValue := VWrapper (VFloat f_99_0) |}]].

Definition model_two : file := {| by_type_IfcSpace := [bathroom; bedroom] |}.
Definition model_empty : file := {| by_type_IfcSpace := [] |}.

Definition space_sala_bed_bath : space := space_named (lit "Sala bed bath") [].
Definition space_bed_bath : space := space_named (lit "Bedroom with bath") [].

(** U+0043 U+0061 U+0066 U+00E9 *)
Definition cafe_accent : str := [0x43; 0x61; 0x66; 0xE9].

End Examples.

(* ================================================================== *)
(** * Definitions used to state the properties                        *)
(* ================================================================== *)

(** ** Normaliser *)

(** What [_norm_text] makes of one code point of the stripped text. *)
Definition norm_char (c : char) : str :=
  filter (fun ch => combining ch =? 0) (decompose (lower_char c)).

(** The spacing diacritics of Latin-1: diaeresis, macron, acute accent and
    cedilla.  Each decomposes into a space followed by a combining mark. *)
Definition spacing_diacritic (c : char) : bool :=
  (c =? 0xA8) || (c =? 0xAF) || (c =? 0xB4) || (c =? 0xB8).

(** Text of the blocks Basic Latin and Latin-1 Supplement. *)
Definition latin1 (s : str) : bool := forallb (fun c => c <? 0x100) s.

Definition latin1_field (o : option str) : bool :=
  match o with
  | None => true
  | Some s => latin1 s
  end.

(** No whitespace at the start. *)
Definition starts_clean (s : str) : bool :=
  match s with
  | [] => true
  | c :: _ => negb (py_isspace c)
  end.

(** A spacing diacritic at the start. *)
Definition starts_with_diacritic (s : str) : bool :=
  match s with
  | [] => false
  | c :: _ => spacing_diacritic c
  end.

(** The input is absent, or its text without the surrounding whitespace
    neither begins nor ends with a spacing diacritic. *)
Definition edges_plain (x : option str) : bool :=
  match x with
  | None => true
  | Some s =>
      negb (starts_with_diacritic (strip s)) &&
      negb (starts_with_diacritic (rev (strip s)))
  end.

(** What the idempotence proof needs of one code point of the two blocks:
    the code points it is normalised to are left alone by the normaliser;
    a spacing diacritic becomes one space; and any other code point that is
    not whitespace becomes a text that is not empty and has no whitespace at
    either end. *)
Definition norm_char_stable (c : char) : bool :=
  forallb (fun d => str_eqb (norm_char d) [d]) (norm_char c) &&
  (if spacing_diacritic c then str_eqb (norm_char c) [0x20]
   else py_isspace c ||
        (negb (Nat.eqb (List.length (norm_char c)) 0) &&
         starts_clean (norm_char c) && starts_clean (rev (norm_char c)))).

(** ** Classifier, in the words of the specification *)

Definition ROOM_ORDER : list str :=
  map lit ["Living Room"; "Bedroom"; "Kitchen"; "Bathroom"; "Corridor"].

Definition keywords_of (room_type : str) : list str :=
  match dict_get SPACE_KEYWORDS room_type with
  | Some keywords => keywords
  | None => []
  end.

(** Some keyword of the room type is a substring of the haystack. *)
Definition type_matches (haystack room_type : str) : bool :=
  existsb (fun keyword => contains keyword haystack) (keywords_of room_type).

(** The first room type of the fixed order that has a matching keyword. *)
Definition classify_spec (haystack : str) : option str :=
  find (type_matches haystack) ROOM_ORDER.

(** ** Extractors *)

(** Integers that [float] converts: the ones whose nearest double is finite.
    The integers of an IFC file reach Python as C integers, which all are
    ([small_int_converts]). *)
Definition int_converts (z : Z) : bool := is_finite (of_Z z).

Fixpoint value_ok (v : pyval) : bool :=
  match v with
  | VInt z => int_converts z
  | VWrapper w => value_ok w
  | _ => true
  end.

Definition quantity_ok (q : quantity) : bool :=
  match q with
  | IfcQuantityArea _ v | IfcQuantityLength _ v => value_ok v
  | IfcQuantityOther _ => true
  end.

Definition property_definition_ok (d : property_definition) : bool :=
  match d with
  | IfcElementQuantity qs => forallb quantity_ok qs
  | IfcPropertySet ps => forallb (fun p => value_ok (NominalValue p)) ps
  | IfcPropertyDefinitionOther => true
  end.

Definition space_ok (s : space) : bool :=
  forallb property_definition_ok (_iter_property_defs s).

Definition model_ok (m : file) : bool := forallb space_ok (by_type_IfcSpace m).

Section Candidates.

Variable pick : quantity -> option (option str * pyval).
Variable names : list str.
Variable keyword : str.

(** The values of the quantities of the wanted kind whose normalised name is
    in [names], in the order of the traversal. *)
Definition quantity_candidates (s : space) : list pyval :=
  flat_map (fun prop_def =>
    match prop_def with
    | IfcElementQuantity qs =>
        flat_map (fun q =>
          match pick q with
          | Some (name, v) => if mem (_norm_text name) names then [v] else []
          | None => []
          end) qs
    | _ => []
    end) (_iter_property_defs s).

(** The nominal values of the properties whose normalised name contains
    [keyword], in the order of the traversal. *)
Definition property_candidates (s : space) : list pyval :=
  flat_map (fun prop_def =>
    match prop_def with
    | IfcPropertySet ps =>
        flat_map (fun p =>
          if contains keyword (_norm_text (prop_Name p))
          then [NominalValue p] else []) ps
    | _ => []
    end) (_iter_property_defs s).

End Candidates.

(** What the first loop does with a candidate: it returns its conversion. *)
Definition return_converted (v : pyval) : result (option (option float)) :=
  r <- _to_float v ;; Ok (Some r).

(** What the second loop does with a candidate: it returns its conversion
    when there is one and goes on otherwise. *)
Definition return_if_converted (v : pyval) : result (option (option float)) :=
  val <- _to_float v ;;
  match val with
  | Some _ => Ok (Some val)
  | None => Ok None
  end.

Definition area_quantities := quantity_candidates area_quantity QTO_AREA_NAMES.
Definition area_properties := property_candidates (lit "area").
Definition height_quantities := quantity_candidates length_quantity QTO_HEIGHT_NAMES.
Definition height_properties := property_candidates (lit "height").

(** ** Evaluator, in the words of the specification *)

(** The four reasons in their fixed order, each present or not. *)
Definition spec_reasons (space_type : option str) (area height : option float)
  : list str :=
  let rule :=
    match space_type with
    | Some t => dict_get SPACE_RULES t
    | None => None
    end in
  let could_not_infer :=
    match nonempty space_type with
    | None => [lit "Could not infer space type"]
    | Some _ => []
    end in
  let unrecognized :=
    match nonempty space_type, rule with
    | Some t, None => [lit "Unrecognized space type: " ++ t]
    | _, _ => []
    end in
  let area_reason :=
    match area, rule with
    | None, _ => [lit "Area not found."]
    | Some a, Some r =>
        if ltb a (min_area r)
        then [lit "Area " ++ format_fixed 3 a ++ lit " m2 < required "
              ++ format_fixed 3 (min_area r) ++ lit " m2."]
        else []
    | Some _, None => []
    end in
  let height_reason :=
    match height, rule with
    | None, _ => [lit "Height not found."]
    | Some h, Some r =>
        if ltb h (min_height r)
        then [lit "Height " ++ format_fixed 3 h ++ lit " m < required "
              ++ format_fixed 3 (min_height r) ++ lit " m."]
        else []
    | Some _, None => []
    end in
  could_not_infer ++ unrecognized ++ area_reason ++ height_reason.

(** The record of one space: what the loop body appends for it. *)
Definition space_record (s : space) : result row :=
  let space_type := _get_space_type s in
  area <- _extract_area_m2 s ;;
  height <- _extract_height_m s ;;
  Ok (space_row s space_type area height (judge space_type area height)).

Definition is_status (status : string) (r : row) : bool :=
  str_eqb (check_status r) (lit status).

Definition count_status (status : string) (rows : list row) : Z :=
  Z.of_nat (List.length (filter (is_status status) rows)).

(** ** The rate, in the words of the specification *)

(** The rate of the summary: lines 279 and 287 of the source. *)
Definition rate_of (passed checked : Z) : float :=
  py_round (mul (int_truediv passed checked) (of_decimal false 1000 (-1))) 2.

(** [k] hundredths are [passed / checked * 100] rounded to two decimal
    places: [k / 100] lies between 0 and 100 and within half a hundredth of
    the exact quotient [100 * passed / checked]. *)
Definition rounded_percentage (passed checked k : Z) : Prop :=
  (0 <= k <= 10000 /\ 2 * Z.abs (k * checked - 10000 * passed) <= checked)%Z.

Definition float_eqb (x y : float) : bool :=
  match x, y with
  | S754_zero a, S754_zero b => Bool.eqb a b
  | S754_infinity a, S754_infinity b => Bool.eqb a b
  | S754_nan, S754_nan => true
  | S754_finite a m e, S754_finite b m' e' =>
      Bool.eqb a b && Pos.eqb m m' && Z.eqb e e'
  | _, _ => false
  end.

(** The hundredths that a float which is not negative shows with two decimals. *)
Definition hundredths (x : float) : option Z :=
  match x with
  | S754_zero false => Some 0%Z
  | S754_finite false m e => Some (scaled_round 2 m e)
  | _ => None
  end.

(** The rate is the double of a number of hundredths that is the rounded
    percentage. *)
Definition rate_check (checked passed : Z) : bool :=
  match hundredths (rate_of passed checked) with
  | Some k =>
      float_eqb (rate_of passed checked) (of_decimal false (Z.to_N k) (-2))
      && (0 <=? k)%Z && (k <=? 10000)%Z
      && (2 * Z.abs (k * checked - 10000 * passed) <=? checked)%Z
  | None => false
  end.

(** The number of spaces up to which every rate is compared with the rounded
    percentage, one pair of counts after the other. *)
Definition compared_spaces : nat := 100.

(* ================================================================== *)
(** * checker_ifc_parser: the parse pass and its section of the report *)
(* ================================================================== *)

Module Parser.

Import Render.

Definition DEFAULT_ENTITY_TYPES : list str :=
  map lit [ "IfcProject"; "IfcSite"; "IfcBuilding"; "IfcBuildingStorey";
            "IfcSpace"; "IfcWall"; "IfcSlab"; "IfcDoor"; "IfcWindow";
            "IfcColumn"; "IfcBeam" ].

(** What [entity_types] can be: [None], a [str], an iterable (its items given
    by their [str(item)]), or any other object. *)
Inductive entity_types_arg :=
| TypesNone
| TypesStr (s : str)
| TypesIterable (items : list str)
| TypesOther.

(** [s.split(sep)] for a separator of one character. *)
Fixpoint split (sep : char) (s : str) : list str :=
  match s with
  | [] => [[]]
  | c :: rest =>
      if char_eqb c sep then [] :: split sep rest
      else
        match split sep rest with
        | chunk :: chunks => (c :: chunk) :: chunks
        | [] => [[c]]
        end
  end.

Definition is_empty (s : str) : bool :=
  match s with [] => true | _ :: _ => false end.

(** [[x.strip() for x in chunks if x.strip()]] *)
Definition stripped_nonempty (chunks : list str) : list str :=
  filter (fun chunk => negb (is_empty chunk)) (map strip chunks).

(** [parsed or list(DEFAULT_ENTITY_TYPES)] *)
Definition or_default (parsed : list str) : list str :=
  match parsed with
  | [] => DEFAULT_ENTITY_TYPES
  | _ :: _ => parsed
  end.

Definition _normalize_entity_types (entity_types : entity_types_arg) : list str :=
  match entity_types with
  | TypesNone => DEFAULT_ENTITY_TYPES
  | TypesStr s => or_default (stripped_nonempty (split 0x2C s))
  | TypesIterable items => or_default (stripped_nonempty items)
  | TypesOther => DEFAULT_ENTITY_TYPES
  end.

(** ** The model, as the parse pass reads it *)

Record element := {
  e_GlobalId : option str;
  e_Name : option str;
  e_LongName : option str;
  e_id : option Z           (**r [None]: the element has no [id] *)
}.

(** [model.by_type(entity_type)]: the elements, or the exception it raises,
    given by its [str(exc)]. *)
Inductive by_type_result :=
| Elements (elements : list element)
| ByTypeError (exc : str).

Record ifc_model := {
  schema : option str;      (**r the schema, after the call if it is callable *)
  by_type : str -> by_type_result
}.

(** The rows of this file: the [log] is a text or [None]. *)
Record row := _result {
  element_id : option str;
  element_type : str;
  element_name : str;
  element_name_long : option str;
  check_status : str;
  actual_value : str;
  required_value : str;
  comment : option str;
  log : option str
}.

Definition schema_row (model : ifc_model) : row :=
  _result None (lit "Summary") (lit "Model Schema") None (lit "log")
    (str_or (Some (_to_text (schema model))) (lit "unknown"))
    (lit "Readable IFC schema")
    (Some (lit "Parsed model schema successfully"))
    None.

Definition blocked_row (entity_type exc : str) : row :=
  _result None (lit "Summary") (entity_type ++ lit " Parse") None (lit "blocked")
    (lit "0")
    (lit "Parsable entity type")
    (Some (lit "Could not parse " ++ entity_type))
    (Some (_to_text (Some exc))).

Definition count_row (entity_type : str) (count : Z) : row :=
  _result None (lit "Summary") (entity_type ++ lit " Count") None
    (if (0 <? count)%Z then lit "pass" else lit "warning")
    (str_of_Z count)
    (lit ">= 1 recommended")
    (if (0 <? count)%Z then None
     else Some (lit "No " ++ entity_type ++ lit " elements found"))
    None.

Definition express_id_text (e : element) : str :=
  str_or (Some (_to_text (option_map str_of_Z (e_id e)))) (lit "unknown").

Definition sample_row (entity_type : str) (e : element) : row :=
  let global_id := e_GlobalId e in
  let name := e_Name e in
  let long_name := e_LongName e in
  _result
    (match nonempty global_id with
     | Some _ => Some (_to_text global_id)
     | None => None
     end)
    entity_type
    (str_or (Some (_to_text name)) (entity_type ++ lit " #" ++ express_id_text e))
    (match nonempty long_name with
     | Some _ => Some (_to_text long_name)
     | None => None
     end)
    (lit "log")
    (lit "Parsed " ++ entity_type ++ lit " (express_id=" ++ express_id_text e ++ lit ")")
    (lit "Parsable IFC entity")
    None
    None.

Definition overall_row (total_count : Z) (n_types : nat) : row :=
  _result None (lit "Summary") (lit "Overall Parse") None
    (if (0 <? total_count)%Z then lit "pass" else lit "warning")
    (str_of_Z total_count ++ lit " parsed entities across "
     ++ str_of_Z (Z.of_nat n_types) ++ lit " types")
    (lit "> 0 parsed entities")
    (Some (if (0 <? total_count)%Z
           then lit "Model parsed successfully"
           else lit "Model readable but no entities found for configured types"))
    None.

(** The body of [for entity_type in entity_type_list], on the pair of
    [results] and [total_count].  [sample_limit] is at least 1 here, so that
    [elements[:sample_limit]] is a prefix. *)
Definition parse_type (model : ifc_model) (sample_limit : Z)
    (st : list row * Z) (entity_type : str) : list row * Z :=
  let '(results, total_count) := st in
  match by_type model entity_type with
  | ByTypeError exc => (results ++ [blocked_row entity_type exc], total_count)
  | Elements elements =>
      let count := Z.of_nat (List.length elements) in
      let total_count := (total_count + count)%Z in
      let results := results ++ [count_row entity_type count] in
      let results :=
        results ++ map (sample_row entity_type)
                       (firstn (Z.to_nat sample_limit) elements) in
      (results, total_count)
  end.

Definition check_ifc_parse (model : ifc_model) (entity_types : entity_types_arg)
    (sample_limit : Z) : list row :=
  let results := [] in
  let entity_type_list := _normalize_entity_types entity_types in
  let sample_limit := Z.max 1 sample_limit in
  let results := results ++ [schema_row model] in
  let '(results, total_count) :=
    fold_left (parse_type model sample_limit) entity_type_list (results, 0%Z) in
  results ++ [overall_row total_count (List.length entity_type_list)].

(** ** [_build_parse_section] *)

(** [s.endswith(suffix)] *)
Definition endswith (s suffix : str) : bool := startswith (rev s) (rev suffix).

Definition status_key (r : row) : str :=
  match lower (_to_text (Some (check_status r))) with
  | [] => lit "unknown"
  | status => status
  end.

(** The local list [entity_count_rows]. *)
Definition entity_count_rows (summary_rows : list row) : list (str * str * str) :=
  flat_map (fun r =>
    let name := _to_text (Some (element_name r)) in
    if negb (endswith name (lit " Count")) then []
    else
      let entity_type := slice_to name (- Z.of_nat (List.length (lit " Count"))) in
      [(entity_type,
        _to_text (Some (actual_value r)),
        upper (_to_text (Some (check_status r))))]) summary_rows.

Definition detail_line (idx : Z) (r : row) : str :=
  rjust 3 (str_of_Z idx) ++ lit " "
  ++ ljust 18 (_clip (Some (element_type r)) 18) ++ lit " "
  ++ ljust 34 (_clip (Some (element_name r)) 34) ++ lit " "
  ++ ljust 24 (_clip (Some (str_or (element_id r) (lit "-"))) 24) ++ lit " "
  ++ ljust 17 (_clip (Some (check_status r)) 17).

(** The lines that section 4 gives to one row. *)
Definition noteworthy_lines (r : row) : list str :=
  (lit "- [" ++ upper (_to_text (Some (check_status r))) ++ lit "] "
   ++ _to_text (Some (element_type r)) ++ lit " | "
   ++ _to_text (Some (element_name r)))
  :: (match nonempty (comment r) with
      | Some _ => [lit "  comment: " ++ _to_text (comment r)]
      | None => []
      end)
  ++ (match nonempty (log r) with
      | Some _ => [lit "  log    : " ++ _to_text (log r)]
      | None => []
      end).

Definition _build_parse_section (results : list row) : list str :=
  let summary_rows :=
    filter (fun r => str_eqb (element_type r) (lit "Summary")) results in
  let detail_rows :=
    filter (fun r => negb (str_eqb (element_type r) (lit "Summary"))) results in
  let status_counts :=
    fold_left (fun counts r => dict_incr counts (status_key r)) results [] in
  let entity_count_rows := entity_count_rows summary_rows in
  let lines :=
    [ lit "A) IFC PARSE SUMMARY";
      rule_line;
      lit "Total parse rows: " ++ str_of_Z (Z.of_nat (List.length results))
      ++ lit " (summary=" ++ str_of_Z (Z.of_nat (List.length summary_rows))
      ++ lit ", details=" ++ str_of_Z (Z.of_nat (List.length detail_rows)) ++ lit ")";
      lit "";
      lit "1) STATUS DISTRIBUTION";
      rule_line;
      ljust 12 (lit "Status") ++ lit " " ++ rjust 8 (lit "Count");
      rule_line ] in
  let lines :=
    fold_left (fun lines status =>
      match dict_get status_counts status with
      | Some count =>
          lines ++ [ljust 12 (upper status) ++ lit " " ++ rjust 8 (str_of_Z count)]
      | None => lines
      end)
      (map lit ["pass"; "warning"; "fail"; "blocked"; "log"; "unknown"]) lines in
  let lines :=
    lines ++
    [ lit "";
      lit "2) ENTITY COUNTS";
      rule_line;
      ljust 30 (lit "Entity Type") ++ lit " " ++ rjust 8 (lit "Count") ++ lit " "
      ++ rjust 12 (lit "Status");
      rule_line ] in
  let lines :=
    match entity_count_rows with
    | _ :: _ =>
        lines ++ map (fun '(entity_type, count, status) =>
          ljust 30 (_clip (Some entity_type) 30) ++ lit " " ++ rjust 8 count
          ++ lit " " ++ rjust 12 status) entity_count_rows
    | [] => lines ++ [lit "No entity count rows were generated."]
    end in
  let lines :=
    lines ++
    [ lit "";
      lit "3) SAMPLED ELEMENTS";
      rule_line;
      rjust 3 (lit "#") ++ lit " " ++ ljust 18 (lit "Type") ++ lit " "
      ++ ljust 34 (lit "Name") ++ lit " " ++ ljust 24 (lit "GlobalId") ++ lit " "
      ++ ljust 17 (lit "Note");
      rule_line ] in
  let lines :=
    match detail_rows with
    | _ :: _ => lines ++ map (fun '(idx, r) => detail_line idx r) (enumerate 1 detail_rows)
    | [] => lines ++ [lit "No element-level sample rows found."]
    end in
  let noteworthy :=
    filter (fun r => mem (lower (_to_text (Some (check_status r))))
                         (map lit ["warning"; "fail"; "blocked"])) results in
  let lines :=
    lines ++ [lit ""; lit "4) PARSE WARNINGS / FAILURES / BLOCKED"; rule_line] in
  let lines :=
    match noteworthy with
    | _ :: _ => lines ++ flat_map noteworthy_lines noteworthy
    | [] => lines ++ [lit "No warnings, failures, or blocked items."]
    end in
  lines ++ [lit ""].

End Parser.

(** ** [_build_parse_section] on the store: lines 196-301 of the source *)

Module ParseStore.

Import Render Parser Store.

Definition _build_parse_section (results : list address) : M row (list str) :=
  summary_rows <~
    select (fun a => t <~ get a element_type ;; ret (str_eqb t (lit "Summary")))
           results ;;
  detail_rows <~
    select (fun a =>
      t <~ get a element_type ;; ret (negb (str_eqb t (lit "Summary"))))
      results ;;
  status_counts <~
    for_loop results (fun counts a =>
      st <~ get a check_status ;;
      let status :=
        match lower (_to_text (Some st)) with
        | [] => lit "unknown"
        | status => status
        end in
      ret (dict_incr counts status)) [] ;;
  entity_count_rows <~
    for_loop summary_rows (fun rows a =>
      name <~ get a element_name ;;
      let name := _to_text (Some name) in
      if negb (endswith name (lit " Count")) then ret rows
      else
        let entity_type := slice_to name (- Z.of_nat (List.length (lit " Count"))) in
        actual <~ get a actual_value ;;
        st <~ get a check_status ;;
        ret (rows ++ [(entity_type, _to_text (Some actual), upper (_to_text (Some st)))]))
      [] ;;
  let lines :=
    [ lit "A) IFC PARSE SUMMARY";
      rule_line;
      lit "Total parse rows: " ++ str_of_Z (Z.of_nat (List.length results))
      ++ lit " (summary=" ++ str_of_Z (Z.of_nat (List.length summary_rows))
      ++ lit ", details=" ++ str_of_Z (Z.of_nat (List.length detail_rows)) ++ lit ")";
      lit "";
      lit "1) STATUS DISTRIBUTION";
      rule_line;
      ljust 12 (lit "Status") ++ lit " " ++ rjust 8 (lit "Count");
      rule_line ] in
  let lines :=
    fold_left (fun lines status =>
      match dict_get status_counts status with
      | Some count =>
          lines ++ [ljust 12 (upper status) ++ lit " " ++ rjust 8 (str_of_Z count)]
      | None => lines
      end)
      (map lit ["pass"; "warning"; "fail"; "blocked"; "log"; "unknown"]) lines in
  let lines :=
    lines ++
    [ lit "";
      lit "2) ENTITY COUNTS";
      rule_line;
      ljust 30 (lit "Entity Type") ++ lit " " ++ rjust 8 (lit "Count") ++ lit " "
      ++ rjust 12 (lit "Status");
      rule_line ] in
  let lines :=
    match entity_count_rows with
    | _ :: _ =>
        lines ++ map (fun '(entity_type, count, status) =>
          ljust 30 (_clip (Some entity_type) 30) ++ lit " " ++ rjust 8 count
          ++ lit " " ++ rjust 12 status) entity_count_rows
    | [] => lines ++ [lit "No entity count rows were generated."]
    end in
  let lines :=
    lines ++
    [ lit "";
      lit "3) SAMPLED ELEMENTS";
      rule_line;
      rjust 3 (lit "#") ++ lit " " ++ ljust 18 (lit "Type") ++ lit " "
      ++ ljust 34 (lit "Name") ++ lit " " ++ ljust 24 (lit "GlobalId") ++ lit " "
      ++ ljust 17 (lit "Note");
      rule_line ] in
  lines <~
    match detail_rows with
    | _ :: _ =>
        for_loop (enumerate 1 detail_rows) (fun lines '(idx, a) =>
          t <~ get a element_type ;;
          name <~ get a element_name ;;
          global_id <~ get a element_id ;;
          st <~ get a check_status ;;
          ret (lines ++
               [ rjust 3 (str_of_Z idx) ++ lit " "
                 ++ ljust 18 (_clip (Some t) 18) ++ lit " "
                 ++ ljust 34 (_clip (Some name) 34) ++ lit " "
                 ++ ljust 24 (_clip (Some (str_or global_id (lit "-"))) 24) ++ lit " "
                 ++ ljust 17 (_clip (Some st) 17) ])) lines
    | [] => ret (lines ++ [lit "No element-level sample rows found."])
    end ;;
  noteworthy <~
    select (fun a =>
      st <~ get a check_status ;;
      ret (mem (lower (_to_text (Some st))) (map lit ["warning"; "fail"; "blocked"])))
      results ;;
  let lines :=
    lines ++ [lit ""; lit "4) PARSE WARNINGS / FAILURES / BLOCKED"; rule_line] in
  lines <~
    match noteworthy with
    | _ :: _ =>
        for_loop noteworthy (fun lines a =>
          st <~ get a check_status ;;
          t <~ get a element_type ;;
          name <~ get a element_name ;;
          remark <~ get a comment ;;
          trace <~ get a log ;;
          ret (lines ++
               (lit "- [" ++ upper (_to_text (Some st)) ++ lit "] "
                ++ _to_text (Some t) ++ lit " | " ++ _to_text (Some name))
               :: (match nonempty remark with
                   | Some _ => [lit "  comment: " ++ _to_text remark]
                   | None => []
                   end)
               ++ (match nonempty trace with
                   | Some _ => [lit "  log    : " ++ _to_text trace]
                   | None => []
                   end))) lines
    | [] => ret (lines ++ [lit "No warnings, failures, or blocked items."])
    end ;;
  ret (lines ++ [lit ""]).

End ParseStore.

(* ================================================================== *)
(** * calculator_tool                                                 *)
(* ================================================================== *)

Module Calculator.

(** The dict that [calculate] returns: [{"error": msg}] or [{"result": x}]. *)
Inductive answer :=
| Error (msg : str)
| Result (value : float).

(** [y != 0] on a float. *)
Definition nonzero (y : float) : bool := negb (SFeqb y (S754_zero false)).

(** The dict [operations]; a lambda returns a float or [None]. *)
Definition operations : list (str * (float -> float -> option float)) :=
  [ (lit "add",      fun x y => Some (SFadd prec emax x y));
    (lit "subtract", fun x y => Some (SFsub prec emax x y));
    (lit "multiply", fun x y => Some (SFmul prec emax x y));
    (lit "divide",   fun x y => if nonzero y then Some (SFdiv prec emax x y) else None) ].

Definition calculate (operation : str) (a b : float) : answer :=
  match dict_get operations operation with
  | None => Error (lit "Unknown operation: " ++ operation)
  | Some f =>
      match f a b with
      | None => Error (lit "Division by zero")
      | Some result => Result result
      end
  end.

End Calculator.

(* ================================================================== *)
(** * gemini_tool_example: the retry loop                             *)
(* ================================================================== *)

Module Retry.

(** What one call of [client.models.generate_content] does. *)
Inductive outcome (R : Type) :=
| Response (r : R)
| ServerError (code : Z)
| OtherException.
Arguments Response {R} r.
Arguments ServerError {R} code.
Arguments OtherException {R}.

(** How [_generate_with_retry] ends. *)
Inductive ending (R : Type) :=
| Returns (r : R)
| RaisesServerError (code : Z)
| RaisesOther
| RaisesRuntimeError.
Arguments Returns {R} r.
Arguments RaisesServerError {R} code.
Arguments RaisesOther {R}.
Arguments RaisesRuntimeError {R}.

(** The state of the loop: the calls made so far and the delays slept, in
    order. *)
Record trace := { calls : nat; slept : list Z }.

Section Loop.

Variable R : Type.
(** The outcome of the call with the given index (0 for the first). *)
Variable respond : nat -> outcome R.
Variable attempts : Z.

(** [for attempt in range(attempt, attempts + 1)], with [remaining] the
    number of iterations left. *)
Fixpoint retry_from (remaining : nat) (attempt delay_seconds : Z) (t : trace)
  : ending R * trace :=
  match remaining with
  | O => (RaisesRuntimeError, t)
  | S remaining' =>
      let answer := respond (calls t) in
      let t := {| calls := S (calls t); slept := slept t |} in
      match answer with
      | Response r => (Returns r, t)
      | OtherException => (RaisesOther, t)
      | ServerError code =>
          let is_transient := (code =? 503)%Z in
          if negb is_transient || (attempt =? attempts)%Z
          then (RaisesServerError code, t)
          else
            let t := {| calls := calls t; slept := slept t ++ [delay_seconds] |} in
            retry_from remaining' (attempt + 1)%Z (delay_seconds * 2)%Z t
      end
  end.

Definition _generate_with_retry : ending R * trace :=
  retry_from (Z.to_nat attempts) 1%Z 1%Z {| calls := 0; slept := [] |}.

End Loop.

End Retry.

(* ================================================================== *)
(** * Definitions used to state the further properties                *)
(* ================================================================== *)

(** A name as [_normalize_entity_types] returns it: not empty and without
    whitespace at either end. *)
Definition clean_name (e : str) : bool :=
  negb (Parser.is_empty e) && str_eqb (strip e) e.

Definition comma_free (e : str) : bool :=
  forallb (fun c => negb (char_eqb c 0x2C)) e.

(** ** The parse pass *)

(** The rows that the parse pass emits for one entity type. *)
Definition type_rows (model : Parser.ifc_model) (sample_limit : Z)
    (entity_type : str) : list Parser.row :=
  match Parser.by_type model entity_type with
  | Parser.ByTypeError exc => [Parser.blocked_row entity_type exc]
  | Parser.Elements elements =>
      Parser.count_row entity_type (Z.of_nat (List.length elements))
      :: map (Parser.sample_row entity_type)
             (firstn (Z.to_nat sample_limit) elements)
  end.

(** The number of elements of a type; 0 when the lookup raises. *)
Definition found_count (model : Parser.ifc_model) (entity_type : str) : Z :=
  match Parser.by_type model entity_type with
  | Parser.ByTypeError _ => 0%Z
  | Parser.Elements elements => Z.of_nat (List.length elements)
  end.

Definition lookup_fails (model : Parser.ifc_model) (entity_type : str) : bool :=
  match Parser.by_type model entity_type with
  | Parser.ByTypeError _ => true
  | Parser.Elements _ => false
  end.

(** The number of sample rows of a type. *)
Definition sample_count (model : Parser.ifc_model) (sample_limit : Z)
    (entity_type : str) : nat :=
  match Parser.by_type model entity_type with
  | Parser.ByTypeError _ => 0%nat
  | Parser.Elements elements =>
      Nat.min (Z.to_nat (Z.max 1 sample_limit)) (List.length elements)
  end.

Definition sum_Z (l : list Z) : Z := fold_right Z.add 0%Z l.

Definition parse_status (status : string) (r : Parser.row) : bool :=
  str_eqb (Parser.check_status r) (lit status).

(** The entry of an entity type in the table of counts. *)
Definition count_entry (model : Parser.ifc_model) (entity_type : str)
  : list (str * str * str) :=
  match Parser.by_type model entity_type with
  | Parser.ByTypeError _ => []
  | Parser.Elements elements =>
      [(entity_type,
        str_of_Z (Z.of_nat (List.length elements)),
        match elements with
        | [] => lit "WARNING"
        | _ :: _ => lit "PASS"
        end)]
  end.

(** ** Classifier and coercion *)

(** The space with its three text fields in lower case. *)
Definition lowercased (s : space) : space :=
  {| Name := option_map lower (Name s);
     LongName := option_map lower (LongName s);
     ObjectType := option_map lower (ObjectType s);
     GlobalId := GlobalId s;
     id := id s;
     IsDefinedBy := IsDefinedBy s |}.

(** A [bool], [int], [float] or [str]. *)
Definition is_scalar (v : pyval) : bool :=
  match v with
  | VBool _ | VInt _ | VFloat _ | VStr _ => true
  | VNone | VObject | VWrapper _ => false
  end.

Definition is_digits (s : str) : bool := forallb FloatOfStr.is_digit s.

(** ** Calculator and retry loop *)

Definition known_operations : list str :=
  map lit ["add"; "subtract"; "multiply"; "divide"].

(** A call that is answered by the server error 503. *)
Definition is_503 {R} (o : Retry.outcome R) : bool :=
  match o with
  | Retry.ServerError code => (code =? 503)%Z
  | _ => false
  end.

(** How the loop ends at a call that is not answered by 503. *)
Definition ending_of {R} (o : Retry.outcome R) : Retry.ending R :=
  match o with
  | Retry.Response r => Retry.Returns r
  | Retry.ServerError code => Retry.RaisesServerError code
  | Retry.OtherException => Retry.RaisesOther
  end.

(** The delays 1, 2, 4, ... : the first [n] doublings of [first]. *)
Definition doubling (first : Z) (n : nat) : list Z :=
  map (fun k => (first * 2 ^ Z.of_nat k)%Z) (seq 0 n).

(* ================================================================== *)
(** * Lemmas on text                                                  *)
(* ================================================================== *)

Lemma str_eqb_eq (a b : str) : str_eqb a b = true <-> a = b.
Proof.
  revert b; induction a as [|x a IH]; intros [|y b]; simpl; split;
    try congruence; try reflexivity.
  - intros H. apply andb_true_iff in H as [Hx Hr].
    apply N.eqb_eq in Hx. apply IH in Hr. congruence.
  - intros H. inversion H; subst. apply andb_true_iff. split.
    + apply N.eqb_refl.
    + apply IH. reflexivity.
Qed.

Lemma str_eqb_refl (a : str) : str_eqb a a = true.
Proof. apply str_eqb_eq. reflexivity. Qed.

Lemma startswith_spec (s p : str) :
  startswith s p = true <-> exists post, s = p ++ post.
Proof.
  revert s; induction p as [|c p IH]; intros s; simpl.
  - split; [intros _; exists s; reflexivity | reflexivity].
  - destruct s as [|d s].
    + split; [discriminate | intros [post H]; discriminate].
    + split.
      * intros H. apply andb_true_iff in H as [Hc Hr].
        apply N.eqb_eq in Hc. apply IH in Hr as [post ->].
        exists post. subst. reflexivity.
      * intros [post H]. inversion H; subst. apply andb_true_iff. split.
        -- apply N.eqb_refl.
        -- apply IH. exists post. reflexivity.
Qed.

(** [contains] is the substring test. *)
Lemma contains_spec (needle haystack : str) :
  contains needle haystack = true <->
  exists pre post, haystack = pre ++ needle ++ post.
Proof.
  induction haystack as [|c h IH].
  - simpl. rewrite orb_false_r, startswith_spec. split.
    + intros [post H]. exists [], post. exact H.
    + intros [pre [post H]]. destruct pre; simpl in H.
      * exists post. exact H.
      * discriminate.
  - simpl. rewrite orb_true_iff, startswith_spec, IH. split.
    + intros [[post H] | [pre [post H]]].
      * exists [], post. exact H.
      * exists (c :: pre), post. simpl. congruence.
    + intros [pre [post H]]. destruct pre as [|d pre]; simpl in H.
      * left. exists post. exact H.
      * right. inversion H; subst. exists pre, post. reflexivity.
Qed.

Lemma lstrip_clean (s : str) : starts_clean (lstrip s) = true.
Proof.
  induction s as [|c s IH]; simpl; [reflexivity|].
  destruct (py_isspace c) eqn:E; [exact IH | simpl; rewrite E; reflexivity].
Qed.

Lemma lstrip_id (s : str) : starts_clean s = true -> lstrip s = s.
Proof.
  destruct s as [|c s]; simpl; [reflexivity|].
  destruct (py_isspace c); [discriminate | reflexivity].
Qed.

Lemma lstrip_split (s : str) : exists sp, s = sp ++ lstrip s.
Proof.
  induction s as [|c s [sp IH]]; simpl.
  - exists []. reflexivity.
  - destruct (py_isspace c).
    + exists (c :: sp). simpl. congruence.
    + exists []. reflexivity.
Qed.

Lemma rstrip_split (s : str) : exists sp, s = rstrip s ++ sp.
Proof.
  unfold rstrip. destruct (lstrip_split (rev s)) as [sp H].
  exists (rev sp). rewrite <- rev_app_distr, <- H, rev_involutive. reflexivity.
Qed.

Lemma strip_starts (s : str) : starts_clean (strip s) = true.
Proof.
  unfold strip. pose proof (lstrip_clean s) as H.
  destruct (rstrip_split (lstrip s)) as [sp E].
  destruct (rstrip (lstrip s)) as [|c t] eqn:R; [reflexivity|].
  rewrite E in H. exact H.
Qed.

Lemma strip_ends (s : str) : starts_clean (rev (strip s)) = true.
Proof.
  unfold strip, rstrip. rewrite rev_involutive. apply lstrip_clean.
Qed.

Lemma strip_id (s : str) :
  starts_clean s = true -> starts_clean (rev s) = true -> strip s = s.
Proof.
  intros Hs He. unfold strip, rstrip.
  rewrite (lstrip_id s Hs), (lstrip_id _ He). apply rev_involutive.
Qed.

Lemma strip_Forall (P : char -> Prop) (s : str) :
  Forall P s -> Forall P (strip s).
Proof.
  intros H. unfold strip.
  destruct (lstrip_split s) as [sp1 E1].
  destruct (rstrip_split (lstrip s)) as [sp2 E2].
  rewrite E1 in H. apply Forall_app in H as [_ H].
  rewrite E2 in H. apply Forall_app in H as [H _]. exact H.
Qed.

Lemma norm_text_flat_map (x : str) :
  _norm_text (Some x) = flat_map norm_char (strip x).
Proof.
  unfold _norm_text, nfkd, lower. induction (strip x) as [|c s IH]; simpl.
  - reflexivity.
  - rewrite filter_app, IH. reflexivity.
Qed.

Lemma below_256 (P : char -> bool) :
  forallb P (map N.of_nat (seq 0 256)) = true ->
  forall c, c < 0x100 -> P c = true.
Proof.
  intros H c Hc. rewrite forallb_forall in H. apply H.
  apply in_map_iff. exists (N.to_nat c). split.
  - apply N2Nat.id.
  - apply in_seq. lia.
Qed.

Lemma norm_char_stable_all (c : char) :
  c < 0x100 ->
  Forall (fun d => norm_char d = [d]) (norm_char c) /\
  (spacing_diacritic c = true -> norm_char c = [0x20]) /\
  (spacing_diacritic c = false -> py_isspace c = false ->
   norm_char c <> [] /\
   starts_clean (norm_char c) = true /\ starts_clean (rev (norm_char c)) = true).
Proof.
  intros Hc.
  assert (Hall : forallb norm_char_stable (map N.of_nat (seq 0 256)) = true)
    by (vm_compute; reflexivity).
  pose proof (@below_256 _ Hall c Hc) as H.
  unfold norm_char_stable in H.
  apply andb_true_iff in H as [H1 H2]. split; [|split].
  - apply Forall_forall. intros d Hd. rewrite forallb_forall in H1.
    apply str_eqb_eq. apply H1. exact Hd.
  - intros Hd. rewrite Hd in H2. apply str_eqb_eq. exact H2.
  - intros Hd Hs. rewrite Hd, Hs in H2. simpl in H2.
    apply andb_true_iff in H2 as [H2 H3]. apply andb_true_iff in H2 as [H2 H4].
    repeat split; try assumption.
    intros E. rewrite E in H2. discriminate.
Qed.

Lemma flat_map_fixed (f : char -> str) (s : str) :
  Forall (fun d => f d = [d]) s -> flat_map f s = s.
Proof.
  induction 1 as [|d s Hd _ IH]; simpl; [reflexivity|].
  rewrite Hd, IH. reflexivity.
Qed.

Lemma Forall_flat_map {A B} (P : B -> Prop) (f : A -> list B) (l : list A) :
  (forall x, In x l -> Forall P (f x)) -> Forall P (flat_map f l).
Proof.
  induction l as [|x l IH]; intros Hf; simpl.
  - constructor.
  - apply Forall_app. split.
    + apply Hf. left. reflexivity.
    + apply IH. intros y Hy. apply Hf. right. exact Hy.
Qed.

(** The text is [init ++ [last]] when its reverse is [last :: rev init]. *)
Lemma rev_cons_snoc (s r : str) (c : char) : rev s = c :: r -> s = rev r ++ [c].
Proof.
  intros E. apply (f_equal (@rev char)) in E. rewrite rev_involutive in E. exact E.
Qed.

(** A second pass of the normaliser only strips: the code points of a
    normalised Latin-1 text are all left alone. *)
Lemma norm_text_twice (x : str) :
  latin1 x = true ->
  _norm_text (Some (_norm_text (Some x))) = strip (_norm_text (Some x)).
Proof.
  intros Hx.
  assert (Hp : Forall (fun c => c < 0x100) (strip x)).
  { apply strip_Forall. apply Forall_forall. unfold latin1 in Hx.
    rewrite forallb_forall in Hx. intros c Hc. apply N.ltb_lt. exact (Hx c Hc). }
  rewrite (norm_text_flat_map x).
  set (z := flat_map norm_char (strip x)).
  assert (Hfix : Forall (fun d => norm_char d = [d]) z).
  { apply Forall_flat_map. intros c Hc. apply norm_char_stable_all.
    rewrite Forall_forall in Hp. exact (Hp c Hc). }
  rewrite (norm_text_flat_map z). apply flat_map_fixed.
  apply strip_Forall. exact Hfix.
Qed.

(** The normalised text has no whitespace at its ends exactly when the
    stripped input has no spacing diacritic at its ends. *)
Lemma norm_text_edges (x : str) :
  latin1 x = true ->
  (starts_clean (_norm_text (Some x)) = negb (starts_with_diacritic (strip x))) /\
  (starts_clean (rev (_norm_text (Some x)))
   = negb (starts_with_diacritic (rev (strip x)))).
Proof.
  intros Hx.
  assert (Hp : Forall (fun c => c < 0x100) (strip x)).
  { apply strip_Forall. apply Forall_forall. unfold latin1 in Hx.
    rewrite forallb_forall in Hx. intros c Hc. apply N.ltb_lt. exact (Hx c Hc). }
  pose proof (strip_starts x) as Hs. pose proof (strip_ends x) as He.
  rewrite (norm_text_flat_map x). set (w := strip x) in *. split.
  - destruct w as [|c w']; [reflexivity|].
    simpl in Hs. apply negb_true_iff in Hs.
    inversion Hp as [|? ? Hc _]; subst.
    destruct (norm_char_stable_all Hc) as [_ [Hd Hn]].
    cbn [flat_map starts_with_diacritic].
    destruct (spacing_diacritic c) eqn:Ed.
    + rewrite (Hd eq_refl). reflexivity.
    + destruct (Hn eq_refl Hs) as [Hne [Hst _]].
      destruct (norm_char c) as [|d r]; [congruence|]. exact Hst.
  - destruct (rev w) as [|c r] eqn:Er.
    + apply (f_equal (@rev char)) in Er. rewrite rev_involutive in Er.
      rewrite Er. reflexivity.
    + simpl in He. apply negb_true_iff in He.
      pose proof (rev_cons_snoc _ Er) as Ew.
      assert (Hc : c < 0x100).
      { rewrite Ew in Hp. apply Forall_app in Hp as [_ Hp].
        inversion Hp; assumption. }
      destruct (norm_char_stable_all Hc) as [_ [Hd Hn]].
      rewrite Ew, flat_map_app, rev_app_distr. cbn [flat_map starts_with_diacritic].
      rewrite app_nil_r.
      destruct (spacing_diacritic c) eqn:Ed.
      * rewrite (Hd eq_refl). reflexivity.
      * destruct (Hn eq_refl He) as [Hne [_ Hen]].
        destruct (rev (norm_char c)) as [|d r'] eqn:Erc.
        -- apply (f_equal (@rev char)) in Erc. rewrite rev_involutive in Erc.
           simpl in Erc. congruence.
        -- exact Hen.
Qed.

(** On Latin-1 text the normaliser leaves its own output alone exactly when
    the stripped input has no spacing diacritic at either end. *)
Lemma norm_text_idempotent_latin1 (x : str) :
  latin1 x = true ->
  _norm_text (Some (_norm_text (Some x))) = _norm_text (Some x) <->
  edges_plain (Some x) = true.
Proof.
  intros Hx. rewrite (norm_text_twice x Hx).
  destruct (norm_text_edges x Hx) as [Hs He].
  unfold edges_plain. rewrite <- Hs, <- He, andb_true_iff.
  set (z := _norm_text (Some x)). split.
  - intros E. split; rewrite <- E; [apply strip_starts | apply strip_ends].
  - intros [H1 H2]. apply strip_id; assumption.
Qed.

(** ** C6 *)

(** C6, where it fails: the acute accent U+00B4 is normalised to a space,
    and a space to the empty string. *)
Lemma norm_text_not_idempotent :
  _norm_text (Some (_norm_text (Some [0xB4]))) <> _norm_text (Some [0xB4]).
Proof. vm_compute. discriminate. Qed.

(** C6 (as amended).  The normaliser maps an absent input to the empty string
    and the text U+0043 U+0061 U+0066 U+00E9 to what it maps "cafe" to.  On
    an input that is absent or a text of the blocks Basic Latin and Latin-1
    Supplement it is idempotent exactly when the text, without the whitespace
    around it, neither begins nor ends with one of the spacing diacritics
    U+00A8, U+00AF, U+00B4 and U+00B8; such a diacritic inside the text does
    no harm.  (That it returns a string and cannot raise is the type of
    [_norm_text].) *)
Theorem norm_text_properties (x : option str) :
  latin1_field x = true ->
  _norm_text None = lit "" /\
  _norm_text (Some Examples.cafe_accent) = _norm_text (Some (lit "cafe")) /\
  (_norm_text (Some (_norm_text x)) = _norm_text x <-> edges_plain x = true).
Proof.
  intros Hx. split; [reflexivity|]. split; [vm_compute; reflexivity|].
  destruct x as [x|]; [|split; reflexivity].
  apply norm_text_idempotent_latin1. exact Hx.
Qed.

Lemma norm_text_properties_witness :
  latin1_field (Some [0x61; 0xB4; 0x62]) = true /\
  edges_plain (Some [0x61; 0xB4; 0x62]) = true /\
  _norm_text (Some (_norm_text (Some [0x61; 0xB4; 0x62])))
  = _norm_text (Some [0x61; 0xB4; 0x62]).
Proof.
  split; [reflexivity|]. split; [reflexivity|].
  apply (norm_text_properties (Some [0x61; 0xB4; 0x62])); reflexivity.
Defined.

(* ================================================================== *)
(** * The classifier                                                  *)
(* ================================================================== *)

Lemma for_first_keywords (haystack space_type : str) (keywords : list str) :
  for_first (fun keyword =>
    if contains keyword haystack then Some space_type else None) keywords
  = if existsb (fun keyword => contains keyword haystack) keywords
    then Some space_type else None.
Proof.
  induction keywords as [|k ks IH]; simpl; [reflexivity|].
  destruct (contains k haystack); simpl; [reflexivity | exact IH].
Qed.

(** The two nested loops of [_get_space_type] find what the specification
    describes. *)
Lemma get_space_type_refines (space : space) :
  _get_space_type space = classify_spec (haystack_of space).
Proof.
  unfold _get_space_type, classify_spec, type_matches.
  set (h := haystack_of space).
  change ROOM_ORDER with (map fst SPACE_KEYWORDS).
  assert (Hk : forall t kws, In (t, kws) SPACE_KEYWORDS -> keywords_of t = kws).
  { intros t kws Hin. simpl in Hin.
    repeat (destruct Hin as [Hin | Hin]; [inversion Hin; subst; reflexivity|]).
    contradiction. }
  revert Hk. generalize SPACE_KEYWORDS as table.
  induction table as [|[t kws] rest IH]; intros Hk; simpl; [reflexivity|].
  rewrite for_first_keywords, (Hk t kws (or_introl eq_refl)).
  destruct (existsb (fun keyword => contains keyword h) kws); [reflexivity|].
  apply IH. intros t' kws' Hin. apply Hk. right. exact Hin.
Qed.

Lemma get_space_type_in_order (space : space) (t : str) :
  _get_space_type space = Some t -> In t ROOM_ORDER.
Proof.
  rewrite get_space_type_refines. unfold classify_spec. intros H.
  apply find_some in H. apply H.
Qed.

(** Every label the classifier returns has a rule. *)
Lemma classified_has_rule (space : space) (t : str) :
  _get_space_type space = Some t ->
  nonempty (Some t) = Some t /\ exists r, dict_get SPACE_RULES t = Some r.
Proof.
  intros H. apply get_space_type_in_order in H. simpl in H.
  repeat (destruct H as [H | H]; [subst; split; [reflexivity | eexists; reflexivity]|]).
  contradiction.
Qed.

(** ** C4 *)

(** C4, where it fails: the name "Sala bed bath" holds keywords of Bedroom
    and of Bathroom, and one of Living Room, which comes first. *)
Lemma bedroom_and_bathroom_keywords_not_bedroom :
  type_matches (haystack_of Examples.space_sala_bed_bath) (lit "Bedroom") = true /\
  type_matches (haystack_of Examples.space_sala_bed_bath) (lit "Bathroom") = true /\
  _get_space_type Examples.space_sala_bed_bath = Some (lit "Living Room") /\
  _get_space_type Examples.space_sala_bed_bath <> Some (lit "Bedroom").
Proof. vm_compute. repeat split. discriminate. Qed.

(** C4 (as amended).  The classifier returns the first room type, in the order
    Living Room, Bedroom, Kitchen, Bathroom, Corridor, one of whose keywords
    is a substring of the haystack (the normalised name, long name and object
    type joined by spaces), and unknown when no keyword of any type is one.
    The result is one label or unknown.  A haystack with keywords of both
    Bedroom and Bathroom is never classified as Bathroom: it is classified as
    Bedroom unless it also holds a Living Room keyword, and as Living Room
    then. *)
Theorem get_space_type_first_match (space : space) :
  let haystack :=
    join (lit " ") [_norm_text (Name space); _norm_text (LongName space);
                    _norm_text (ObjectType space)] in
  _get_space_type space = find (type_matches haystack) ROOM_ORDER /\
  (_get_space_type space = None <->
   forall t keyword, In t ROOM_ORDER -> In keyword (keywords_of t) ->
     contains keyword haystack = false) /\
  (forall t, _get_space_type space = Some t ->
     exists before after,
       ROOM_ORDER = before ++ t :: after /\
       (exists keyword, In keyword (keywords_of t) /\
                        contains keyword haystack = true) /\
       forall t' keyword, In t' before -> In keyword (keywords_of t') ->
         contains keyword haystack = false) /\
  (type_matches haystack (lit "Bedroom") = true ->
   type_matches haystack (lit "Bathroom") = true ->
   _get_space_type space =
     Some (if type_matches haystack (lit "Living Room")
           then lit "Living Room" else lit "Bedroom")).
Proof.
  intros haystack.
  assert (R : _get_space_type space = find (type_matches haystack) ROOM_ORDER)
    by apply get_space_type_refines.
  assert (Hno : forall t, type_matches haystack t = false <->
                forall keyword, In keyword (keywords_of t) ->
                  contains keyword haystack = false).
  { intros t. unfold type_matches. split.
    - intros H keyword Hin.
      destruct (contains keyword haystack) eqn:E; [|reflexivity].
      assert (existsb (fun k => contains k haystack) (keywords_of t) = true)
        by (apply existsb_exists; exists keyword; split; assumption).
      congruence.
    - intros H. destruct (existsb _ _) eqn:E; [|reflexivity].
      apply existsb_exists in E as [k [Hin Hk]]. rewrite (H k Hin) in Hk.
      discriminate. }
  split; [exact R|]. split; [|split].
  - rewrite R. split.
    + intros H t keyword Ht. apply Hno. exact (find_none _ _ H t Ht).
    + intros H. destruct (find _ _) as [t|] eqn:E; [|reflexivity].
      apply find_some in E as [Hin Hm].
      assert (type_matches haystack t = false)
        by (apply Hno; intros k Hk; exact (H t k Hin Hk)).
      congruence.
  - intros t Ht. rewrite R in Ht. clear R. revert Ht.
    generalize ROOM_ORDER as order.
    induction order as [|u order IH]; simpl; [discriminate|].
    destruct (type_matches haystack u) eqn:E.
    + intros Ht. inversion Ht; subst. exists [], order. split; [reflexivity|].
      split; [|intros ? ? []].
      unfold type_matches in E. apply existsb_exists in E as [k [Hin Hk]].
      exists k. split; assumption.
    + intros Ht. destruct (IH Ht) as [before [after [Eo [Hm Hb]]]].
      exists (u :: before), after. split; [simpl; congruence|].
      split; [exact Hm|]. intros t' k [<- | Hin] Hk.
      * apply (proj1 (Hno u) E). exact Hk.
      * exact (Hb t' k Hin Hk).
  - intros Hbed Hbath. rewrite R. unfold ROOM_ORDER. simpl.
    destruct (type_matches haystack (lit "Living Room")); [reflexivity|].
    rewrite Hbed. reflexivity.
Qed.

Lemma get_space_type_first_match_witness :
  type_matches (haystack_of Examples.space_bed_bath) (lit "Bedroom") = true /\
  type_matches (haystack_of Examples.space_bed_bath) (lit "Bathroom") = true /\
  _get_space_type Examples.space_bed_bath = Some (lit "Bedroom").
Proof.
  split; [reflexivity|]. split; [reflexivity|].
  destruct (get_space_type_first_match Examples.space_bed_bath) as [_ [_ [_ H]]].
  exact (H eq_refl eq_refl).
Defined.

(* ================================================================== *)
(** * Numeric coercion                                                *)
(* ================================================================== *)

(** ** Integers that convert

    An integer below 2^53 in magnitude is a double, so every C integer of 32
    bits converts. *)

Lemma digits2_pos_lower (m : positive) :
  (2 ^ (Zpos (digits2_pos m) - 1) <= Zpos m)%Z.
Proof.
  induction m as [p IH|p IH|]; simpl digits2_pos.
  - rewrite Pos2Z.inj_succ.
    replace (Z.succ (Zpos (digits2_pos p)) - 1)%Z
      with (Z.succ (Zpos (digits2_pos p) - 1)) by lia.
    rewrite Z.pow_succ_r by lia. lia.
  - rewrite Pos2Z.inj_succ.
    replace (Z.succ (Zpos (digits2_pos p)) - 1)%Z
      with (Z.succ (Zpos (digits2_pos p) - 1)) by lia.
    rewrite Z.pow_succ_r by lia. lia.
  - simpl. lia.
Qed.

Lemma digits2_pos_small (m : positive) :
  (Zpos m < 2 ^ 53)%Z -> (Zpos (digits2_pos m) <= 53)%Z.
Proof.
  intros H. destruct (Z_le_gt_dec (Zpos (digits2_pos m)) 53) as [L|G]; [exact L|].
  exfalso. pose proof (digits2_pos_lower m) as B.
  assert (2 ^ 53 <= 2 ^ (Zpos (digits2_pos m) - 1))%Z
    by (apply Z.pow_le_mono_r; lia).
  lia.
Qed.

Lemma digits2_pos_shift (m k : positive) :
  digits2_pos (Pos.iter xO m k) = (digits2_pos m + k)%positive.
Proof.
  induction k as [|k IH] using Pos.peano_ind.
  - simpl. lia.
  - rewrite Pos.iter_succ. simpl. rewrite IH. lia.
Qed.

(** Rounding a mantissa below 2^53 only aligns it: nothing is shifted out. *)
Lemma binary_round_small (s : bool) (m : positive) :
  (Zpos m < 2 ^ 53)%Z -> is_finite (binary_round prec emax s m 0) = true.
Proof.
  intros H. pose proof (digits2_pos_small H) as Hd.
  unfold binary_round.
  assert (Hf : fexp prec emax (Zpos (digits2_pos m) + 0)
               = (Zpos (digits2_pos m) - 53)%Z).
  { unfold fexp, emin, prec, emax. lia. }
  rewrite Hf.
  assert (Hal : exists mz ez,
             shl_align m 0 (Zpos (digits2_pos m) - 53) = (mz, ez) /\
             Zpos (digits2_pos mz) = 53%Z /\ (-52 <= ez <= 0)%Z).
  { unfold shl_align. destruct (Zpos (digits2_pos m) - 53 - 0)%Z as [|k|k] eqn:E.
    - exists m, 0%Z. split; [reflexivity|]. lia.
    - lia.
    - exists (Pos.iter xO m k), (Zpos (digits2_pos m) - 53)%Z.
      split; [reflexivity|]. rewrite digits2_pos_shift. lia. }
  destruct Hal as (mz & ez & -> & Hdz & Hez).
  unfold binary_round_aux, shr_fexp.
  assert (Hz : (fexp prec emax (Zdigits2 (Zpos mz) + ez) - ez = 0)%Z).
  { unfold Zdigits2. rewrite Hdz. unfold fexp, emin, prec, emax. lia. }
  rewrite Hz. simpl shr.
  cbn [shr_m shr_record_of_loc loc_of_shr_record round_nearest_even].
  rewrite Hz. simpl shr. cbn [shr_m shr_record_of_loc].
  assert (Hle : (ez <=? emax - prec)%Z = true)
    by (apply Z.leb_le; unfold emax, prec; lia).
  rewrite Hle. reflexivity.
Qed.

Lemma small_int_converts (z : Z) :
  (Z.abs z < 2 ^ 53)%Z -> int_converts z = true.
Proof.
  intros H. unfold int_converts, of_Z, binary_normalize.
  destruct z as [|m|m]; [reflexivity| |]; apply binary_round_small; exact H.
Qed.

Lemma try_float_ok (v : pyval) (handler : result (option float)) :
  value_ok v = true -> raises handler = false ->
  raises (try_float v handler) = false.
Proof.
  intros Hv Hh. unfold try_float.
  destruct v as [|b|z|f|s| |w]; simpl; try reflexivity; try exact Hh.
  - simpl in Hv. unfold int_converts in Hv. rewrite Hv. reflexivity.
  - destruct (FloatOfStr.parse s); [reflexivity | exact Hh].
Qed.

(** With integers that [float] converts, [_to_float] returns. *)
Lemma to_float_returns (v : pyval) :
  value_ok v = true -> exists r, _to_float v = Ok r.
Proof.
  intros Hv.
  assert (H : raises (_to_float v) = false).
  { unfold _to_float. destruct (is_None v); [reflexivity|].
    apply try_float_ok; [exact Hv|].
    destruct (is_None (getattr_wrappedValue v)) eqn:E; simpl; [reflexivity|].
    apply try_float_ok; [|reflexivity].
    destruct v; simpl in *; try reflexivity. exact Hv. }
  destruct (_to_float v) as [r|e]; [exists r; reflexivity | discriminate].
Qed.

(** What [_to_float] accepts and what it turns into an absent value. *)
Lemma to_float_cases (f : float) (z : Z) (s : str) (w : pyval) :
  _to_float VNone = Ok None /\
  _to_float (VFloat f) = Ok (Some f) /\
  _to_float (VWrapper (VFloat f)) = Ok (Some f) /\
  (int_converts z = true ->
   _to_float (VInt z) = Ok (Some (of_Z z)) /\
   _to_float (VWrapper (VInt z)) = Ok (Some (of_Z z))) /\
  (FloatOfStr.parse s = None ->
   _to_float (VStr s) = Ok None /\ _to_float (VWrapper (VStr s)) = Ok None) /\
  _to_float VObject = Ok None /\
  _to_float (VWrapper VObject) = Ok None /\
  _to_float (VWrapper (VWrapper w)) = Ok None.
Proof.
  repeat split; try reflexivity.
  - unfold _to_float, try_float; simpl. unfold int_converts in H. rewrite H. reflexivity.
  - unfold _to_float, try_float; simpl. unfold int_converts in H. rewrite H. reflexivity.
  - unfold _to_float, try_float; simpl. rewrite H. reflexivity.
  - unfold _to_float, try_float; simpl. rewrite H. reflexivity.
Qed.

(** X23.  [_to_float] raises on an integer that does not convert, bare or wrapped
    once, and on nothing else. *)
Lemma to_float_raises_iff (v : pyval) :
  raises (_to_float v) = true <->
  exists z, int_converts z = false /\ (v = VInt z \/ v = VWrapper (VInt z)).
Proof.
  split.
  - destruct v as [|b|z|f|s| |w]; try (simpl; discriminate).
    + unfold _to_float, try_float; simpl. fold (int_converts z).
      destruct (int_converts z) eqn:E; [discriminate|].
      intros _. exists z. split; [exact E | left; reflexivity].
    + unfold _to_float, try_float; simpl.
      destruct (FloatOfStr.parse s); simpl; discriminate.
    + destruct w as [|b|z|f|s| |w]; try (simpl; discriminate).
      * unfold _to_float, try_float; simpl. fold (int_converts z).
        destruct (int_converts z) eqn:E; [discriminate|].
        intros _. exists z. split; [exact E | right; reflexivity].
      * unfold _to_float, try_float; simpl.
        destruct (FloatOfStr.parse s); simpl; discriminate.
  - intros [z [E [-> | ->]]]; unfold _to_float, try_float; simpl;
      fold (int_converts z); rewrite E; reflexivity.
Qed.

(** ** C5 *)

(** C5, at the input where the code leaves the claim: [float] raises
    [OverflowError] on an integer beyond the range of doubles, [_to_float]
    catches [TypeError] and [ValueError] only, and the exception leaves it,
    for the integer itself and for an object that wraps it. *)
Theorem to_float_raises_on_huge_int :
  _to_float (VInt (10 ^ 400)) = Raise OverflowError /\
  _to_float (VWrapper (VInt (10 ^ 400))) = Raise OverflowError.
Proof. split; vm_compute; reflexivity. Qed.

(* ================================================================== *)
(** * The extractors                                                  *)
(* ================================================================== *)

Lemma for_return_app {A R} (body : A -> result (option R)) (l1 l2 : list A) :
  for_return body (l1 ++ l2) =
  match for_return body l1 with
  | Ok None => for_return body l2
  | other => other
  end.
Proof.
  induction l1 as [|x l1 IH]; simpl; [reflexivity|].
  destruct (body x) as [[r|]|e]; [reflexivity | exact IH | reflexivity].
Qed.

Section ForReturn.

Context {A B R : Type}.

(** Two nested loops are one loop over the concatenation. *)
Lemma for_return_flat_map (inner : B -> result (option R))
    (outer : A -> result (option R)) (f : A -> list B) (l : list A) :
  (forall x, outer x = for_return inner (f x)) ->
  for_return outer l = for_return inner (flat_map f l).
Proof.
  intros H. induction l as [|x l IH]; simpl; [reflexivity|].
  rewrite for_return_app, H.
  destruct (for_return inner (f x)) as [[r|]|e]; [reflexivity | exact IH | reflexivity].
Qed.

Lemma for_return_singleton (body : A -> result (option R)) (x : A) :
  for_return body [x] = body x.
Proof. simpl. destruct (body x) as [[r|]|e]; reflexivity. Qed.

End ForReturn.

Section ExtractLemmas.

Variable pick : quantity -> option (option str * pyval).
Variable names : list str.
Variable keyword : str.

Let run := extract pick names keyword.
Let quantities := quantity_candidates pick names.
Let properties := property_candidates keyword.

(** The extraction, on the two lists of candidates. *)
Lemma extract_on_candidates (s : space) :
  run s =
  (r <- for_return return_converted (quantities s) ;;
   match r with
   | Some returned => Ok returned
   | None =>
       r <- for_return return_if_converted (properties s) ;;
       match r with
       | Some returned => Ok returned
       | None => Ok None
       end
   end).
Proof.
  unfold run, extract, quantities, properties,
    quantity_candidates, property_candidates.
  rewrite (for_return_flat_map return_converted
    (fun prop_def => match prop_def with
       | IfcElementQuantity qs => for_return (quantity_step pick names) qs
       | _ => Ok None end)
    (fun prop_def => match prop_def with
       | IfcElementQuantity qs =>
           flat_map (fun q => match pick q with
             | Some (name, v) => if mem (_norm_text name) names then [v] else []
             | None => [] end) qs
       | _ => [] end)).
  2:{ intros [qs|ps|]; try reflexivity.
      apply for_return_flat_map. intros q. unfold quantity_step.
      destruct (pick q) as [[name v]|]; [|reflexivity].
      destruct (mem (_norm_text name) names); [|reflexivity].
      rewrite for_return_singleton. reflexivity. }
  rewrite (for_return_flat_map return_if_converted
    (fun prop_def => match prop_def with
       | IfcPropertySet ps => for_return (property_step keyword) ps
       | _ => Ok None end)
    (fun prop_def => match prop_def with
       | IfcPropertySet ps =>
           flat_map (fun p =>
             if contains keyword (_norm_text (prop_Name p))
             then [NominalValue p] else []) ps
       | _ => [] end)).
  2:{ intros [qs|ps|]; try reflexivity.
      apply for_return_flat_map. intros p. unfold property_step.
      destruct (contains keyword (_norm_text (prop_Name p))); simpl; [|reflexivity].
      fold (return_if_converted (NominalValue p)).
      destruct (return_if_converted (NominalValue p)) as [[r|]|e]; reflexivity. }
  reflexivity.
Qed.

(** 1) A quantity of the wanted kind and name decides the result. *)
Lemma extract_quantity_first (s : space) (v : pyval) (rest : list pyval) :
  quantities s = v :: rest -> run s = _to_float v.
Proof.
  intros H. rewrite extract_on_candidates, H. simpl. unfold return_converted.
  destruct (_to_float v); reflexivity.
Qed.

Lemma scan_skips (pre : list pyval) (rest : list pyval) :
  Forall (fun u => _to_float u = Ok None) pre ->
  for_return return_if_converted (pre ++ rest) =
  for_return return_if_converted rest.
Proof.
  induction 1 as [|u pre Hu _ IH]; simpl; [reflexivity|].
  unfold return_if_converted at 1. rewrite Hu. simpl. exact IH.
Qed.

(** 2) Without one, the first property that converts decides it. *)
Lemma extract_property_fallback (s : space) (pre post : list pyval)
    (p : pyval) (x : float) :
  quantities s = [] ->
  properties s = pre ++ p :: post ->
  Forall (fun u => _to_float u = Ok None) pre ->
  _to_float p = Ok (Some x) ->
  run s = Ok (Some x).
Proof.
  intros Hq Hp Hpre Hx. rewrite extract_on_candidates, Hq, Hp. simpl.
  rewrite (scan_skips _ Hpre). simpl. unfold return_if_converted.
  rewrite Hx. reflexivity.
Qed.

(** 3) Without either, the value is absent. *)
Lemma extract_absent (s : space) :
  quantities s = [] ->
  Forall (fun u => _to_float u = Ok None) (properties s) ->
  run s = Ok None.
Proof.
  intros Hq Hp. rewrite extract_on_candidates, Hq. simpl.
  rewrite <- (app_nil_r (properties s)), (scan_skips _ Hp). reflexivity.
Qed.

Hypothesis pick_ok : forall q name v,
  pick q = Some (name, v) -> quantity_ok q = true -> value_ok v = true.

Lemma candidates_ok (s : space) :
  space_ok s = true ->
  Forall (fun v => value_ok v = true) (quantities s) /\
  Forall (fun v => value_ok v = true) (properties s).
Proof.
  unfold space_ok, quantities, properties, quantity_candidates, property_candidates.
  intros H. rewrite forallb_forall in H. split.
  - apply Forall_flat_map. intros [qs|ps|] Hd; try constructor.
    specialize (H _ Hd). simpl in H. rewrite forallb_forall in H.
    apply Forall_flat_map. intros q Hin. specialize (H _ Hin).
    destruct (pick q) as [[name v]|] eqn:E; [|constructor].
    destruct (mem (_norm_text name) names); [|constructor].
    constructor; [|constructor]. exact (@pick_ok q name v E H).
  - apply Forall_flat_map. intros [qs|ps|] Hd; try constructor.
    specialize (H _ Hd). simpl in H. rewrite forallb_forall in H.
    apply Forall_flat_map. intros p Hin. specialize (H _ Hin).
    destruct (contains keyword (_norm_text (prop_Name p))); [|constructor].
    constructor; [exact H | constructor].
Qed.

Lemma scan_returns (body : pyval -> result (option (option float)))
    (vals : list pyval) :
  (forall v, value_ok v = true -> raises (body v) = false) ->
  Forall (fun v => value_ok v = true) vals ->
  raises (for_return body vals) = false.
Proof.
  intros Hb. induction 1 as [|v vals Hv _ IH]; simpl; [reflexivity|].
  specialize (Hb v Hv). destruct (body v) as [[r|]|e]; [reflexivity | exact IH | discriminate].
Qed.

(** With integers that [float] converts, the extraction returns. *)
Lemma extract_returns (s : space) :
  space_ok s = true -> exists r, run s = Ok r.
Proof.
  intros Hs. destruct (candidates_ok s Hs) as [Hq Hp].
  assert (H1 : forall v, value_ok v = true -> raises (return_converted v) = false).
  { intros v Hv. unfold return_converted.
    destruct (to_float_returns v Hv) as [r ->]. reflexivity. }
  assert (H2 : forall v, value_ok v = true -> raises (return_if_converted v) = false).
  { intros v Hv. unfold return_if_converted.
    destruct (to_float_returns v Hv) as [[x|] ->]; reflexivity. }
  pose proof (scan_returns _ H1 Hq) as R1. pose proof (scan_returns _ H2 Hp) as R2.
  rewrite extract_on_candidates.
  destruct (for_return return_converted (quantities s)) as [[r|]|e];
    [eexists; reflexivity | | discriminate].
  destruct (for_return return_if_converted (properties s)) as [[r|]|e];
    [eexists; reflexivity | eexists; reflexivity | discriminate].
Qed.

End ExtractLemmas.

Lemma area_quantity_ok (q : quantity) (name : option str) (v : pyval) :
  area_quantity q = Some (name, v) -> quantity_ok q = true -> value_ok v = true.
Proof. destruct q; simpl; intros E H; inversion E; subst; exact H. Qed.

Lemma length_quantity_ok (q : quantity) (name : option str) (v : pyval) :
  length_quantity q = Some (name, v) -> quantity_ok q = true -> value_ok v = true.
Proof. destruct q; simpl; intros E H; inversion E; subst; exact H. Qed.

Lemma extract_area_returns (s : space) :
  space_ok s = true -> exists r, _extract_area_m2 s = Ok r.
Proof. apply extract_returns. exact area_quantity_ok. Qed.

Lemma extract_height_returns (s : space) :
  space_ok s = true -> exists r, _extract_height_m s = Ok r.
Proof. apply extract_returns. exact length_quantity_ok. Qed.

(** ** C2 *)

(** C2.  For every entity, [_extract_area_m2] follows the two steps in order.
    When the entity has a quantity of area kind whose normalised name is
    netfloorarea, grossfloorarea or floorarea, the first of them decides the
    result, whatever the property sets hold.  When it has none, the result is
    the float of the first property whose normalised name contains "area" and
    whose nominal value converts, and it is absent when no such property
    converts.  The same holds of [_extract_height_m] with the quantities of
    length kind, the names height, clearheight, netheight and the keyword
    "height".  With a quantity NetFloorArea = 18.5 and a property
    "Area (gross)" = 99.0 the area is 18.5; with the property alone it is
    99.0. *)
Theorem extract_precedence (s : space) :
  (forall v rest, area_quantities s = v :: rest ->
     _extract_area_m2 s = _to_float v) /\
  (forall pre p post x,
     area_quantities s = [] ->
     area_properties s = pre ++ p :: post ->
     Forall (fun u => _to_float u = Ok None) pre ->
     _to_float p = Ok (Some x) ->
     _extract_area_m2 s = Ok (Some x)) /\
  (area_quantities s = [] ->
   Forall (fun u => _to_float u = Ok None) (area_properties s) ->
   _extract_area_m2 s = Ok None) /\
  (forall v rest, height_quantities s = v :: rest ->
     _extract_height_m s = _to_float v) /\
  (forall pre p post x,
     height_quantities s = [] ->
     height_properties s = pre ++ p :: post ->
     Forall (fun u => _to_float u = Ok None) pre ->
     _to_float p = Ok (Some x) ->
     _extract_height_m s = Ok (Some x)) /\
  (height_quantities s = [] ->
   Forall (fun u => _to_float u = Ok None) (height_properties s) ->
   _extract_height_m s = Ok None) /\
  _extract_area_m2 Examples.space_both = Ok (Some Examples.f_18_5) /\
  _extract_area_m2 Examples.space_pset_only = Ok (Some Examples.f_99_0).
Proof.
  split; [|split; [|split; [|split; [|split; [|split; [|split]]]]]].
  - intros v rest. apply extract_quantity_first.
  - intros pre p post x. apply extract_property_fallback.
  - apply extract_absent.
  - intros v rest. apply extract_quantity_first.
  - intros pre p post x. apply extract_property_fallback.
  - apply extract_absent.
  - vm_compute. reflexivity.
  - vm_compute. reflexivity.
Qed.

Lemma extract_precedence_witness :
  area_quantities Examples.space_both = [VFloat Examples.f_18_5] /\
  area_properties Examples.space_both = [VWrapper (VFloat Examples.f_99_0)] /\
  _extract_area_m2 Examples.space_both = _to_float (VFloat Examples.f_18_5) /\
  height_quantities Examples.space_pset_only_height = [] /\
  height_properties Examples.space_pset_only_height
    = [] ++ VWrapper (VFloat Examples.f_3_0) :: [] /\
  _extract_height_m Examples.space_pset_only_height = Ok (Some Examples.f_3_0).
Proof.
  split; [reflexivity|]. split; [reflexivity|]. split.
  - destruct (extract_precedence Examples.space_both) as [H _].
    exact (H _ _ eq_refl).
  - split; [reflexivity|]. split; [reflexivity|].
    destruct (extract_precedence Examples.space_pset_only_height)
      as [_ [_ [_ [_ [H _]]]]].
    exact (H [] _ [] _ eq_refl eq_refl (Forall_nil _) eq_refl).
Defined.

(** The same two cases for the height: a quantity Height = 2.5 next to a
    property "Ceiling Height" = 3.0, and the property alone. *)
Lemma extract_height_examples :
  _extract_height_m Examples.space_both_height = Ok (Some Examples.f_2_5) /\
  _extract_height_m Examples.space_pset_only_height = Ok (Some Examples.f_3_0).
Proof. split; vm_compute; reflexivity. Qed.

(** ** C3 *)

(** In the second step a candidate that does not convert is passed over. *)
Lemma extract_area_skips_unreadable_property :
  area_quantities Examples.space_label_then_number = [] /\
  area_properties Examples.space_label_then_number
    = [VWrapper (VStr (lit "n/a")); VWrapper (VFloat Examples.f_99_0)] /\
  _to_float (VWrapper (VStr (lit "n/a"))) = Ok None /\
  _extract_area_m2 Examples.space_label_then_number = Ok (Some Examples.f_99_0).
Proof. repeat split; vm_compute; reflexivity. Qed.

(** C3, at the input where the code leaves the claim.  The entity has the
    quantity NetFloorArea without a value, the quantity GrossFloorArea = 20.0
    and the property "Area (gross)" = 99.0.  The first quantity does not
    convert; the two candidates after it do; and the extraction returns
    an absent value: the first step returns at its first candidate.  The
    height extractor does the same on a quantity Height without a value that
    is followed by the property "Ceiling Height" = 3.0. *)
Theorem extract_area_stops_at_unset_quantity :
  area_quantities Examples.space_unset_quantity
    = [VNone; VFloat Examples.f_20_0] /\
  area_properties Examples.space_unset_quantity
    = [VWrapper (VFloat Examples.f_99_0)] /\
  _to_float VNone = Ok None /\
  _to_float (VFloat Examples.f_20_0) = Ok (Some Examples.f_20_0) /\
  _to_float (VWrapper (VFloat Examples.f_99_0)) = Ok (Some Examples.f_99_0) /\
  _extract_area_m2 Examples.space_unset_quantity = Ok None /\
  height_quantities Examples.space_unset_height = [VNone] /\
  height_properties Examples.space_unset_height
    = [VWrapper (VFloat Examples.f_3_0)] /\
  _to_float (VWrapper (VFloat Examples.f_3_0)) = Ok (Some Examples.f_3_0) /\
  _extract_height_m Examples.space_unset_height = Ok None.
Proof. repeat split; vm_compute; reflexivity. Qed.

(* ================================================================== *)
(** * The evaluator                                                   *)
(* ================================================================== *)

(** The list that the four checks build is the one of the specification. *)
Lemma judge_reasons (space_type : option str) (area height : option float) :
  v_reasons (judge space_type area height) = spec_reasons space_type area height.
Proof.
  unfold judge, spec_reasons, type_reasons, area_reasons, height_reasons.
  destruct space_type as [[|c t]|]; cbn [nonempty].
  - change (dict_get SPACE_RULES []) with (@None rule).
    destruct area, height; reflexivity.
  - generalize (dict_get SPACE_RULES (c :: t)). intros [r|].
    + destruct area as [a|], height as [h|]; cbn [v_reasons app];
        repeat match goal with |- context [ltb ?x ?y] => destruct (ltb x y) end;
        reflexivity.
    + destruct area, height; reflexivity.
  - destruct area, height; reflexivity.
Qed.

Lemma judge_is_pass (space_type : option str) (area height : option float) :
  v_is_pass (judge space_type area height) = true <->
  spec_reasons space_type area height = [].
Proof.
  rewrite <- judge_reasons. unfold judge.
  destruct (type_reasons space_type) as [[appended ra] rh].
  cbn [v_is_pass v_reasons].
  match goal with |- Nat.eqb (List.length ?l) 0 = true <-> _ => destruct l end;
    simpl; split; congruence.
Qed.

Lemma lit_pass_fail : lit "pass" <> lit "fail".
Proof. vm_compute. discriminate. Qed.

Lemma space_row_status (s : space) (t : option str) (a h : option float) (v : verdict) :
  check_status (space_row s t a h v) = (if v_is_pass v then lit "pass" else lit "fail") /\
  element_type (space_row s t a h v) = lit "IfcSpace" /\
  comment (space_row s t a h v) =
    Some (join (lit "; ")
            (if v_is_pass v then [lit "Meets minimum area and height requirements."]
             else v_reasons v)).
Proof. repeat split. Qed.

Lemma check_space_record (s : space) (st : counters) :
  space_ok s = true ->
  exists r, space_record s = Ok r /\
    check_space s st =
      Ok {| results := results st ++ [r];
            passed := (passed st + (if is_status "pass" r then 1 else 0))%Z;
            failed := (failed st + (if is_status "fail" r then 1 else 0))%Z |} /\
    element_type r = lit "IfcSpace" /\
    (check_status r = lit "pass" \/ check_status r = lit "fail").
Proof.
  intros Hs.
  destruct (extract_area_returns s Hs) as [area Ha].
  destruct (extract_height_returns s Hs) as [height Hh].
  unfold space_record, check_space. rewrite Ha, Hh. simpl.
  set (v := judge (_get_space_type s) area height).
  exists (space_row s (_get_space_type s) area height v).
  split; [reflexivity|]. unfold is_status.
  destruct (space_row_status s (_get_space_type s) area height v) as [Hst [Hty _]].
  rewrite Hst. split; [|split; [exact Hty|]].
  - destruct (v_is_pass v).
    + change (str_eqb (lit "pass") (lit "fail")) with false.
      change (str_eqb (lit "pass") (lit "pass")) with true.
      cbv iota. rewrite Z.add_0_r. reflexivity.
    + change (str_eqb (lit "fail") (lit "pass")) with false.
      change (str_eqb (lit "fail") (lit "fail")) with true.
      cbv iota. rewrite Z.add_0_r. reflexivity.
  - destruct (v_is_pass v); [left | right]; reflexivity.
Qed.

(** ** C1 *)

(** C1.  For every space that is evaluated, the record's status is "pass"
    exactly when the list of reasons (type not inferred, type without a rule,
    area absent or below its minimum, height absent or below its minimum, in
    that order) is empty after the four checks.  On a pass the comment and the
    logged reasons are the one fixed sentence; on a fail the comment is the
    reasons joined by "; " and the logged reasons are the list itself.  A
    space classified as Bathroom with area 3.0 and height 2.5 fails with the
    comment "Area 3.000 m2 < required 4.000 m2.", which does not mention the
    height. *)
Theorem verdict_pass_iff_no_reasons (s : space) (st : counters) :
  space_ok s = true ->
  exists area height r st' payload,
    _extract_area_m2 s = Ok area /\
    _extract_height_m s = Ok height /\
    check_space s st = Ok st' /\
    results st' = results st ++ [r] /\
    log r = Some (SpaceLog payload) /\
    let reasons := spec_reasons (_get_space_type s) area height in
    (check_status r = lit "pass" <-> reasons = []) /\
    (reasons = [] ->
       comment r = Some (lit "Meets minimum area and height requirements.") /\
       log_reasons payload = [lit "Meets minimum area and height requirements."]) /\
    (reasons <> [] ->
       check_status r = lit "fail" /\
       comment r = Some (join (lit "; ") reasons) /\
       log_reasons payload = reasons) /\
    (_get_space_type s = Some (lit "Bathroom") ->
     area = Some (of_decimal false 30 (-1)) ->
     height = Some (of_decimal false 25 (-1)) ->
       check_status r = lit "fail" /\
       exists c, comment r = Some c /\
         c = lit "Area 3.000 m2 < required 4.000 m2." /\
         contains (lit "Area 3.000 m2 < required 4.000 m2.") c = true /\
         contains (lit "height") (lower c) = false).
Proof.
  intros Hs.
  destruct (extract_area_returns s Hs) as [area Ha].
  destruct (extract_height_returns s Hs) as [height Hh].
  set (t := _get_space_type s).
  set (v := judge t area height).
  set (r := space_row s t area height v).
  assert (Hc : exists st', check_space s st = Ok st' /\ results st' = results st ++ [r]).
  { unfold check_space. rewrite Ha, Hh. simpl. fold t. fold v. fold r.
    destruct (v_is_pass v); eexists; split; reflexivity. }
  destruct Hc as [st' [Hc Hr]].
  assert (Hlog : exists payload, log r = Some (SpaceLog payload) /\
            log_reasons payload =
              if v_is_pass v then [lit "Meets minimum area and height requirements."]
              else v_reasons v).
  { eexists. split; reflexivity. }
  destruct Hlog as [payload [Hlog Hlr]].
  exists area, height, r, st', payload.
  destruct (space_row_status s t area height v) as [Hst [_ Hcm]]. fold r in Hst, Hcm.
  pose proof (judge_is_pass t area height) as Hp. fold v in Hp.
  pose proof (judge_reasons t area height) as Hv. fold v in Hv.
  repeat (split; [assumption|]).
  cbv zeta. split; [|split; [|split]].
  - rewrite Hst, <- Hp. destruct (v_is_pass v); split; intros E;
      first [reflexivity | discriminate E
            | exfalso; apply lit_pass_fail; symmetry; exact E].
  - intros E. apply Hp in E. rewrite Hcm, Hlr, E. split; reflexivity.
  - intros N. destruct (v_is_pass v) eqn:E.
    + exfalso. apply N. apply Hp. reflexivity.
    + rewrite Hst, Hcm, Hlr, Hv. repeat split.
  - intros Ht Harea Hheight.
    assert (E : v_is_pass v = false /\
                v_reasons v = [lit "Area 3.000 m2 < required 4.000 m2."]).
    { subst v. rewrite Ht, Harea, Hheight. vm_compute. split; reflexivity. }
    destruct E as [E1 E2]. rewrite Hst, Hcm, E1, E2.
    split; [reflexivity|]. eexists. split; [reflexivity|].
    split; [reflexivity|]. split; vm_compute; reflexivity.
Qed.

Lemma verdict_pass_iff_no_reasons_witness :
  space_ok Examples.bathroom = true /\
  _get_space_type Examples.bathroom = Some (lit "Bathroom") /\
  exists r st',
    check_space Examples.bathroom {| results := []; passed := 0; failed := 0 |} = Ok st' /\
    results st' = [r] /\
    check_status r = lit "fail" /\
    comment r = Some (lit "Area 3.000 m2 < required 4.000 m2.").
Proof.
  split; [reflexivity|]. split; [reflexivity|].
  destruct (verdict_pass_iff_no_reasons Examples.bathroom
              {| results := []; passed := 0; failed := 0 |} eq_refl)
    as (area & height & r & st' & payload & Ha & Hh & Hc & Hr & _ & _ & _ & _ & H).
  exists r, st'. split; [exact Hc|]. split; [exact Hr|].
  assert (Ea : area = Some (of_decimal false 30 (-1))).
  { assert (E : _extract_area_m2 Examples.bathroom = Ok (Some (of_decimal false 30 (-1))))
      by (vm_compute; reflexivity).
    rewrite E in Ha. inversion Ha. reflexivity. }
  assert (Eh : height = Some (of_decimal false 25 (-1))).
  { assert (E : _extract_height_m Examples.bathroom = Ok (Some (of_decimal false 25 (-1))))
      by (vm_compute; reflexivity).
    rewrite E in Hh. inversion Hh. reflexivity. }
  destruct (H eq_refl Ea Eh) as [H1 [c [H2 [H3 _]]]]. split; [exact H1|].
  rewrite H2, H3. reflexivity.
Defined.

(* ================================================================== *)
(** * The whole check                                                 *)
(* ================================================================== *)

Lemma count_status_app (status : string) (l1 l2 : list row) :
  count_status status (l1 ++ l2) = (count_status status l1 + count_status status l2)%Z.
Proof.
  unfold count_status. rewrite filter_app, length_app. lia.
Qed.

Lemma count_status_one (status : string) (r : row) :
  count_status status [r] = if is_status status r then 1%Z else 0%Z.
Proof. unfold count_status. simpl. destruct (is_status status r); reflexivity. Qed.

(** The loop: one record per space, in order, and the two counters. *)
Lemma loop_records (spaces : list space) (st : counters) :
  forallb space_ok spaces = true ->
  exists rows,
    Forall2 (fun s r => space_record s = Ok r) spaces rows /\
    for_each check_space spaces st =
      Ok {| results := results st ++ rows;
            passed := (passed st + count_status "pass" rows)%Z;
            failed := (failed st + count_status "fail" rows)%Z |}.
Proof.
  revert st. induction spaces as [|s spaces IH]; intros st Hok.
  - exists []. split; [constructor|]. simpl.
    rewrite app_nil_r. unfold count_status. simpl. rewrite !Z.add_0_r.
    destruct st; reflexivity.
  - simpl in Hok. apply andb_true_iff in Hok as [Hs Hrest].
    destruct (check_space_record s st Hs) as [r [Hrec [Hc _]]].
    set (st1 := {| results := results st ++ [r];
                   passed := (passed st + (if is_status "pass" r then 1 else 0))%Z;
                   failed := (failed st + (if is_status "fail" r then 1 else 0))%Z |}) in *.
    destruct (IH st1 Hrest) as [rows [Hrows Hloop]].
    exists (r :: rows). split; [constructor; assumption|].
    simpl. rewrite Hc. simpl. rewrite Hloop. subst st1. simpl.
    rewrite <- app_assoc. simpl.
    change (r :: rows) with ([r] ++ rows). rewrite !count_status_app, !count_status_one.
    rewrite !Z.add_assoc. reflexivity.
Qed.

Lemma record_shape (s : space) (r : row) :
  space_record s = Ok r ->
  element_type r = lit "IfcSpace" /\
  (check_status r = lit "pass" \/ check_status r = lit "fail").
Proof.
  unfold space_record. intros H.
  destruct (_extract_area_m2 s) as [area|]; [|discriminate].
  destruct (_extract_height_m s) as [height|]; [|discriminate].
  simpl in H. inversion H; subst. clear H.
  split; [reflexivity|]. cbn [check_status space_row].
  destruct (v_is_pass _); [left | right]; reflexivity.
Qed.

Lemma records_shape (spaces : list space) (rows : list row) :
  Forall2 (fun s r => space_record s = Ok r) spaces rows ->
  List.length rows = List.length spaces /\
  Forall (fun r => element_type r = lit "IfcSpace" /\
                   (check_status r = lit "pass" \/ check_status r = lit "fail")) rows.
Proof.
  induction 1 as [|s r spaces rows Hr _ [IHl IHf]]; simpl.
  - split; [reflexivity | constructor].
  - split; [congruence|]. constructor; [|exact IHf].
    exact (record_shape s Hr).
Qed.

Lemma pass_plus_fail (rows : list row) :
  Forall (fun r => element_type r = lit "IfcSpace" /\
                   (check_status r = lit "pass" \/ check_status r = lit "fail")) rows ->
  (count_status "pass" rows + count_status "fail" rows)%Z = Z.of_nat (List.length rows).
Proof.
  induction 1 as [|r rows [_ Hr] _ IH].
  - reflexivity.
  - change (r :: rows) with ([r] ++ rows).
    rewrite !count_status_app, !count_status_one, length_app. simpl List.length.
    unfold is_status. destruct Hr as [-> | ->].
    + change (str_eqb (lit "pass") (lit "pass")) with true.
      change (str_eqb (lit "pass") (lit "fail")) with false. lia.
    + change (str_eqb (lit "fail") (lit "pass")) with false.
      change (str_eqb (lit "fail") (lit "fail")) with true. lia.
Qed.

Lemma count_status_cons (status : string) (r : row) (rows : list row) :
  count_status status (r :: rows) =
  ((if is_status status r then 1 else 0) + count_status status rows)%Z.
Proof.
  change (r :: rows) with ([r] ++ rows).
  rewrite count_status_app, count_status_one. reflexivity.
Qed.

Lemma count_zero_iff (status : string) (rows : list row) :
  (count_status status rows =? 0)%Z = negb (existsb (is_status status) rows).
Proof.
  induction rows as [|r rows IH]; [reflexivity|].
  rewrite count_status_cons. cbn [existsb].
  destruct (is_status status r); cbn [orb negb].
  - apply Z.eqb_neq.
    pose proof (Nat2Z.is_nonneg (List.length (filter (is_status status) rows))).
    unfold count_status. lia.
  - rewrite Z.add_0_l. exact IH.
Qed.

(** What the check returns, in full. *)
Lemma check_result (model : file) :
  model_ok model = true ->
  exists rows,
    Forall2 (fun s r => space_record s = Ok r) (by_type_IfcSpace model) rows /\
    let n := Z.of_nat (List.length (by_type_IfcSpace model)) in
    let p := count_status "pass" rows in
    let f := count_status "fail" rows in
    let rate :=
      if (0 <? n)%Z then mul (int_truediv p n) (of_decimal false 1000 (-1))
      else of_decimal false 0 (-1) in
    check_barcelona_space_compliance model =
      Ok (rows ++
          [summary_row n p f rate
             {| total_spaces_input := n;
                total_spaces_checked := n;
                passed_count := p;
                failed_count := f;
                warnings_count := 0;
                compliance_rate_percent := py_round rate 2 |}]).
Proof.
  intros Hok. unfold model_ok in Hok.
  destruct (loop_records (by_type_IfcSpace model)
              {| results := []; passed := 0; failed := 0 |} Hok) as [rows [Hrows Hloop]].
  exists rows. split; [exact Hrows|]. cbv zeta.
  unfold check_barcelona_space_compliance. rewrite Hloop. cbn [bind results passed failed app].
  rewrite !Z.add_0_l.
  destruct (0 <? Z.of_nat (List.length (by_type_IfcSpace model)))%Z eqn:En.
  - unfold py_truediv.
    assert (Ez : (Z.of_nat (List.length (by_type_IfcSpace model)) =? 0)%Z = false).
    { apply Z.eqb_neq. apply Z.ltb_lt in En. lia. }
    rewrite Ez. reflexivity.
  - reflexivity.
Qed.

Lemma summary_last_only (rows : list row) (summary : row) :
  Forall (fun r => element_type r = lit "IfcSpace") rows ->
  element_type summary = lit "Summary" ->
  List.length (filter (fun r => str_eqb (element_type r) (lit "Summary"))
                 (rows ++ [summary])) = 1%nat.
Proof.
  intros Hrows Hs. rewrite filter_app, length_app. simpl. rewrite Hs.
  change (str_eqb (lit "Summary") (lit "Summary")) with true. simpl.
  induction Hrows as [|r rows Hr _ IH]; [reflexivity|].
  simpl. rewrite Hr.
  change (str_eqb (lit "IfcSpace") (lit "Summary")) with false. exact IH.
Qed.

(** ** C7 *)

(** C7.  For every model the check returns the records of the spaces, in
    order, followed by one record of type "Summary", the only one of that
    type.  The status of the summary is "fail" when some space record has
    failed and "pass" otherwise, and its comment tells a model without spaces
    from a model with spaces. *)
Theorem summary_record_last (model : file) :
  model_ok model = true ->
  exists rows summary,
    check_barcelona_space_compliance model = Ok (rows ++ [summary]) /\
    Forall2 (fun s r => space_record s = Ok r) (by_type_IfcSpace model) rows /\
    Forall (fun r => element_type r = lit "IfcSpace") rows /\
    element_type summary = lit "Summary" /\
    List.length (filter (fun r => str_eqb (element_type r) (lit "Summary"))
                   (rows ++ [summary])) = 1%nat /\
    check_status summary =
      (if existsb (is_status "fail") rows then lit "fail" else lit "pass") /\
    comment summary =
      Some (match by_type_IfcSpace model with
            | [] => lit "No IfcSpace elements found"
            | _ :: _ => lit "Computed from provided Barcelona rules"
            end).
Proof.
  intros Hok. destruct (check_result model Hok) as [rows [Hrows Hcheck]].
  cbv zeta in Hcheck.
  destruct (records_shape Hrows) as [Hlen Hshape].
  assert (Hty : Forall (fun r => element_type r = lit "IfcSpace") rows).
  { eapply Forall_impl; [|exact Hshape]. intros r [H _]. exact H. }
  eexists rows, _. split; [exact Hcheck|]. split; [exact Hrows|].
  split; [exact Hty|]. split; [reflexivity|].
  split; [apply summary_last_only; [exact Hty | reflexivity]|].
  cbn [check_status comment summary_row]. split.
  - rewrite count_zero_iff. destruct (existsb (is_status "fail") rows); reflexivity.
  - destruct (by_type_IfcSpace model); reflexivity.
Qed.

Lemma summary_record_last_witness :
  model_ok Examples.model_two = true /\
  exists rows summary,
    check_barcelona_space_compliance Examples.model_two = Ok (rows ++ [summary]) /\
    List.length rows = 2%nat /\
    element_type summary = lit "Summary" /\
    comment summary = Some (lit "Computed from provided Barcelona rules").
Proof.
  split; [reflexivity|].
  destruct (summary_record_last Examples.model_two eq_refl)
    as (rows & summary & Hc & Hrows & _ & Hty & _ & _ & Hcm).
  exists rows, summary. split; [exact Hc|].
  split; [exact (proj1 (records_shape Hrows))|]. split; [exact Hty | exact Hcm].
Defined.

(** ** The rate *)

Lemma float_eqb_eq (x y : float) : float_eqb x y = true -> x = y.
Proof.
  destruct x as [a|a| |a m e], y as [b|b| |b m' e']; simpl; try discriminate.
  - intros H. apply eqb_prop in H. congruence.
  - intros H. apply eqb_prop in H. congruence.
  - reflexivity.
  - intros H. apply andb_true_iff in H as [H He]. apply andb_true_iff in H as [Hs Hm].
    apply eqb_prop in Hs. apply Pos.eqb_eq in Hm. apply Z.eqb_eq in He. congruence.
Qed.

Lemma rate_check_spec (checked passed : Z) :
  rate_check checked passed = true ->
  exists k, rate_of passed checked = of_decimal false (Z.to_N k) (-2) /\
            rounded_percentage passed checked k.
Proof.
  unfold rate_check. destruct (hundredths (rate_of passed checked)) as [k|];
    [|discriminate].
  intros H. apply andb_true_iff in H as [H H4]. apply andb_true_iff in H as [H H3].
  apply andb_true_iff in H as [H1 H2].
  exists k. split; [apply float_eqb_eq; exact H1|].
  unfold rounded_percentage.
  apply Z.leb_le in H2. apply Z.leb_le in H3. apply Z.leb_le in H4. lia.
Qed.

(** Every pair of counts of up to [compared_spaces] spaces, one after the
    other. *)
Lemma rate_compared (checked passed : Z) :
  (0 < checked <= Z.of_nat compared_spaces)%Z -> (0 <= passed <= checked)%Z ->
  rate_check checked passed = true.
Proof.
  intros Hc Hp.
  assert (A : forallb (fun n =>
                forallb (fun k => rate_check (Z.of_nat n) (Z.of_nat k)) (seq 0 (S n)))
                (seq 1 compared_spaces) = true) by (vm_compute; reflexivity).
  rewrite forallb_forall in A.
  assert (I : In (Z.to_nat checked) (seq 1 compared_spaces)) by (apply in_seq; lia).
  specialize (A _ I). rewrite forallb_forall in A.
  assert (J : In (Z.to_nat passed) (seq 0 (S (Z.to_nat checked)))) by (apply in_seq; lia).
  specialize (A _ J). rewrite !Z2Nat.id in A by lia. exact A.
Qed.

Lemma div_eucl_multiple (q : positive) (k : Z) :
  Z.div_eucl (Z.pos q * k) (Z.pos q) = (k, 0%Z).
Proof.
  assert (E : Z.div_eucl (Z.pos q * k) (Z.pos q)
              = ((Z.pos q * k) / Z.pos q, (Z.pos q * k) mod Z.pos q)%Z).
  { unfold Z.div, Z.modulo. destruct (Z.div_eucl (Z.pos q * k) (Z.pos q)). reflexivity. }
  rewrite E, (Z.mul_comm (Z.pos q) k), Z.div_mul, Z.mod_mul by lia. reflexivity.
Qed.

(** A count divided by itself is the float 1.0. *)
Lemma int_truediv_same (n : Z) :
  (0 < n)%Z -> int_truediv n n = of_decimal false 1 0.
Proof.
  intros Hn. destruct n as [|q|q]; try lia.
  unfold int_truediv. cbn [Z.ltb Z.compare Z.abs Z.to_pos].
  unfold SFdiv, SFdiv_core_binary.
  replace (Zdigits2 (Z.pos q) + 0 - (Zdigits2 (Z.pos q) + 0))%Z with 0%Z by lia.
  change (Z.min (fexp prec emax 0) (0 - 0))%Z with (-53)%Z.
  change (0 - 0 - -53)%Z with 53%Z. cbv iota.
  rewrite Z.shiftl_mul_pow2 by lia.
  change (2 ^ 53)%Z with 9007199254740992%Z.
  rewrite div_eucl_multiple.
  assert (L : new_location (Z.pos q) 0 = loc_Exact).
  { unfold new_location, new_location_even, new_location_odd.
    destruct (Z.even (Z.pos q)); reflexivity. }
  rewrite L. vm_compute. reflexivity.
Qed.

(** All spaces pass: 100.0.  No space passes: 0.0. *)
Lemma rate_of_all_or_none (checked : Z) :
  (0 < checked)%Z ->
  rate_of checked checked = of_decimal false 100 0 /\
  rate_of 0 checked = S754_zero false.
Proof.
  intros Hc. unfold rate_of. split.
  - rewrite (int_truediv_same Hc). vm_compute. reflexivity.
  - destruct checked as [|q|q]; try lia. reflexivity.
Qed.

(** ** C8 *)

(** C8.  For a model without spaces the check returns, without a division
    error, the summary alone: its rate is the float 0.0 and its comment is
    "No IfcSpace elements found".  For a model with spaces the rate is
    [round(passed / checked * 100.0, 2)], where [passed] counts the space
    records that passed and [checked] the spaces.  That is 100.0 when every
    space passes and 0.0 when none does; and for up to [compared_spaces]
    spaces it is the double of a number of hundredths within half a hundredth
    of the exact quotient [100 * passed / checked]. *)
Theorem compliance_rate (model : file) :
  model_ok model = true ->
  exists rows summary payload,
    check_barcelona_space_compliance model = Ok (rows ++ [summary]) /\
    Forall2 (fun s r => space_record s = Ok r) (by_type_IfcSpace model) rows /\
    element_type summary = lit "Summary" /\
    log summary = Some (SummaryLog payload) /\
    (by_type_IfcSpace model = [] ->
       rows = [] /\
       compliance_rate_percent payload = S754_zero false /\
       comment summary = Some (lit "No IfcSpace elements found")) /\
    (by_type_IfcSpace model <> [] ->
       let passed := count_status "pass" rows in
       let checked := Z.of_nat (List.length (by_type_IfcSpace model)) in
       compliance_rate_percent payload =
         py_round (mul (int_truediv passed checked) (of_decimal false 1000 (-1))) 2 /\
       (passed = checked -> compliance_rate_percent payload = of_decimal false 100 0) /\
       (passed = 0%Z -> compliance_rate_percent payload = S754_zero false) /\
       ((List.length (by_type_IfcSpace model) <= compared_spaces)%nat ->
        exists k,
          compliance_rate_percent payload = of_decimal false (Z.to_N k) (-2) /\
          rounded_percentage passed checked k)).
Proof.
  intros Hok. destruct (check_result model Hok) as [rows [Hrows Hcheck]].
  cbv zeta in Hcheck.
  eexists rows, _, _. split; [exact Hcheck|]. split; [exact Hrows|].
  split; [reflexivity|]. split; [reflexivity|].
  cbn [compliance_rate_percent comment summary_row]. split.
  - intros E. rewrite E in *. inversion Hrows; subst. repeat split.
  - intros N. cbv zeta.
    destruct (records_shape Hrows) as [Hlen Hshape].
    pose proof (pass_plus_fail Hshape) as Hsum. rewrite Hlen in Hsum.
    set (passed := count_status "pass" rows) in *.
    set (checked := Z.of_nat (List.length (by_type_IfcSpace model))) in *.
    assert (Hf : (0 <= count_status "fail" rows)%Z) by (unfold count_status; lia).
    assert (Hp : (0 <= passed)%Z) by (subst passed; unfold count_status; lia).
    assert (Hc : (0 < checked)%Z).
    { subst checked. destruct (by_type_IfcSpace model); [congruence|].
      simpl List.length. lia. }
    assert (E : (0 <? checked)%Z = true) by (apply Z.ltb_lt; exact Hc).
    rewrite E. fold (rate_of passed checked).
    destruct (rate_of_all_or_none Hc) as [Hall Hnone].
    split; [reflexivity|]. split; [|split].
    + intros ->. exact Hall.
    + intros ->. exact Hnone.
    + intros Hn. apply rate_check_spec. apply rate_compared; subst checked; lia.
Qed.

Lemma compliance_rate_witness :
  model_ok Examples.model_two = true /\
  by_type_IfcSpace Examples.model_two <> [] /\
  exists rows summary payload k,
    check_barcelona_space_compliance Examples.model_two = Ok (rows ++ [summary]) /\
    log summary = Some (SummaryLog payload) /\
    compliance_rate_percent payload = of_decimal false (Z.to_N k) (-2) /\
    rounded_percentage (count_status "pass" rows) 2 k.
Proof.
  split; [reflexivity|]. split; [discriminate|].
  destruct (compliance_rate Examples.model_two eq_refl)
    as (rows & summary & payload & Hc & _ & _ & Hl & _ & Hn).
  destruct (Hn ltac:(discriminate)) as (_ & _ & _ & Hk).
  destruct (Hk ltac:(vm_compute; lia)) as (k & Hr & Hs).
  exists rows, summary, payload, k.
  split; [exact Hc|]. split; [exact Hl|]. split; [exact Hr | exact Hs].
Defined.

(** On the two example spaces, one of which passes, the rate is 50.0. *)
Lemma compliance_rate_of_two :
  match check_barcelona_space_compliance Examples.model_two with
  | Ok [_; _; summary] =>
      match log summary with
      | Some (SummaryLog payload) =>
          passed_count payload = 1%Z /\
          compliance_rate_percent payload = of_decimal false 500 (-1)
      | _ => False
      end
  | _ => False
  end.
Proof. vm_compute. split; reflexivity. Qed.

(** ** C9 *)

(** C9.  For every model with N spaces the check returns N + 1 records.  The
    status of every space record is "pass" or "fail", none is "warning",
    "blocked" or "log".  In the payload of the summary the passed and failed
    counts add up to the number of spaces checked, and the warnings count is
    0. *)
Theorem record_count_and_counters (model : file) :
  model_ok model = true ->
  exists rows summary payload,
    check_barcelona_space_compliance model = Ok (rows ++ [summary]) /\
    List.length (rows ++ [summary]) = S (List.length (by_type_IfcSpace model)) /\
    Forall2 (fun s r => space_record s = Ok r) (by_type_IfcSpace model) rows /\
    Forall (fun r =>
      (check_status r = lit "pass" \/ check_status r = lit "fail") /\
      check_status r <> lit "warning" /\
      check_status r <> lit "blocked" /\
      check_status r <> lit "log") rows /\
    element_type summary = lit "Summary" /\
    log summary = Some (SummaryLog payload) /\
    (passed_count payload + failed_count payload = total_spaces_checked payload)%Z /\
    total_spaces_checked payload = Z.of_nat (List.length (by_type_IfcSpace model)) /\
    passed_count payload = count_status "pass" rows /\
    failed_count payload = count_status "fail" rows /\
    warnings_count payload = 0%Z.
Proof.
  intros Hok. destruct (check_result model Hok) as [rows [Hrows Hcheck]].
  cbv zeta in Hcheck.
  destruct (records_shape Hrows) as [Hlen Hshape].
  eexists rows, _, _. split; [exact Hcheck|].
  split; [rewrite length_app; simpl; lia|]. split; [exact Hrows|]. split.
  - eapply Forall_impl; [|exact Hshape]. intros r [_ Hs]. split; [exact Hs|].
    destruct Hs as [-> | ->]; repeat split; vm_compute; discriminate.
  - split; [reflexivity|]. split; [reflexivity|].
    cbn [passed_count failed_count total_spaces_checked warnings_count].
    split; [|repeat split].
    rewrite (pass_plus_fail Hshape), Hlen. reflexivity.
Qed.

Lemma record_count_and_counters_witness :
  model_ok Examples.model_two = true /\
  exists records,
    check_barcelona_space_compliance Examples.model_two = Ok records /\
    List.length records = 3%nat.
Proof.
  split; [reflexivity|].
  destruct (record_count_and_counters Examples.model_two eq_refl)
    as (rows & summary & payload & Hc & Hl & _).
  exists (rows ++ [summary]). split; [exact Hc | exact Hl].
Defined.

(* ================================================================== *)
(** * The renderer                                                    *)
(* ================================================================== *)

Import Render.

Lemma clip_short (value : option str) (width : Z) :
  (Z.of_nat (List.length (_to_text value)) <= width)%Z ->
  _clip value width = _to_text value.
Proof.
  intros H. unfold _clip. apply Z.leb_le in H. rewrite H. reflexivity.
Qed.

Lemma clip_long (value : option str) (width : Z) :
  (3 <= width)%Z ->
  (width < Z.of_nat (List.length (_to_text value)))%Z ->
  _clip value width = firstn (Z.to_nat (width - 3)) (_to_text value) ++ lit "..." /\
  Z.of_nat (List.length (_clip value width)) = width.
Proof.
  intros Hw Hl. unfold _clip, slice_to.
  assert (E1 : (Z.of_nat (List.length (_to_text value)) <=? width)%Z = false)
    by (apply Z.leb_gt; exact Hl).
  assert (E2 : (width - 3 <? 0)%Z = false) by (apply Z.ltb_ge; lia).
  rewrite E1, E2. split; [reflexivity|].
  rewrite length_app, length_firstn. change (List.length (lit "...")) with 3%nat. lia.
Qed.

(** ** The section on the store *)

(** The store can be written: after [row[key] = value] the dict at that
    address is the updated one, and the dicts at other addresses are as
    before. *)
Lemma setitem_get {R} (a b : Store.address) (update : R -> R) (h : Store.heap R) :
  let h' := snd (Store.setitem a update h) in
  h' a = update (h a) /\ (b <> a -> h' b = h b).
Proof.
  cbn. split.
  - rewrite Nat.eqb_refl. reflexivity.
  - intros Hb. apply Nat.eqb_neq in Hb. rewrite Hb. reflexivity.
Qed.

(** A comprehension whose condition only reads is [filter]. *)
Lemma select_reads {R A} (cond : A -> Store.M R bool) (p : A -> bool)
    (xs : list A) (h : Store.heap R) :
  (forall x, cond x h = (p x, h)) -> Store.select cond xs h = (filter p xs, h).
Proof.
  intros Hc. induction xs as [|x xs IH]; [reflexivity|].
  cbn [Store.select filter]. unfold Store.bind. rewrite Hc, IH. reflexivity.
Qed.

(** A loop whose body only reads is a fold. *)
Lemma for_loop_reads {R A S} (body : S -> A -> Store.M R S) (f : S -> A -> S)
    (xs : list A) (acc : S) (h : Store.heap R) :
  (forall acc x, body acc x h = (f acc x, h)) ->
  Store.for_loop xs body acc h = (fold_left f xs acc, h).
Proof.
  intros Hb. revert acc. induction xs as [|x xs IH]; intros acc; [reflexivity|].
  cbn [Store.for_loop fold_left]. unfold Store.bind. rewrite Hb. apply IH.
Qed.

(** [if xs: ... else: ...] with two branches that only read. *)
Lemma branch_reads {R A B C} (l : list A) (c1 c2 : Store.M R B)
    (k : B -> Store.M R C) (v1 v2 : B) (h : Store.heap R) :
  c1 h = (v1, h) -> c2 h = (v2, h) ->
  (let (a, h') := match l with [] => c1 | _ :: _ => c2 end h in k a h')
  = k (match l with [] => v1 | _ :: _ => v2 end) h.
Proof. intros H1 H2. destruct l; [rewrite H1 | rewrite H2]; reflexivity. Qed.

Lemma filter_of_map {A B} (p : B -> bool) (f : A -> B) (l : list A) :
  filter p (map f l) = map f (filter (fun x => p (f x)) l).
Proof.
  induction l as [|x l IH]; [reflexivity|]. simpl.
  destruct (p (f x)); simpl; rewrite IH; reflexivity.
Qed.

Lemma fold_left_of_map {A B S} (g : S -> B -> S) (f : A -> B) (l : list A) (acc : S) :
  fold_left g (map f l) acc = fold_left (fun acc x => g acc (f x)) l acc.
Proof.
  revert acc. induction l as [|x l IH]; intros acc; [reflexivity|]. simpl. apply IH.
Qed.

Lemma fold_left_append {A B} (g : A -> list B) (l : list A) (lines : list B) :
  fold_left (fun lines x => lines ++ g x) l lines = lines ++ flat_map g l.
Proof.
  revert lines. induction l as [|x l IH]; intros lines; simpl.
  - rewrite app_nil_r. reflexivity.
  - rewrite IH, <- app_assoc. reflexivity.
Qed.

Lemma flat_map_of_map {A B C} (g : B -> list C) (f : A -> B) (l : list A) :
  flat_map g (map f l) = flat_map (fun x => g (f x)) l.
Proof.
  induction l as [|x l IH]; [reflexivity|]. simpl. rewrite IH. reflexivity.
Qed.

Lemma fold_left_enumerate {A B} (g : Z -> B -> str) (f : A -> B) (l : list A)
    (start : Z) (lines : list str) :
  fold_left (fun lines '(idx, x) => lines ++ [g idx (f x)]) (enumerate start l) lines
  = lines ++ map (fun '(idx, y) => g idx y) (enumerate start (map f l)).
Proof.
  revert start lines. induction l as [|x l IH]; intros start lines; simpl.
  - rewrite app_nil_r. reflexivity.
  - rewrite IH, <- app_assoc. reflexivity.
Qed.

Lemma match_of_map {A B C} (f : A -> B) (l : list A) (x y : C) :
  match map f l with [] => x | _ :: _ => y end = match l with [] => x | _ :: _ => y end.
Proof. destruct l; reflexivity. Qed.

(** Run on a store, the section returns the lines that it makes of the
    records which the addresses hold, and the store itself. *)
Lemma build_compliance_section_reads (results : list Store.address)
    (h : Store.heap row) :
  Store._build_compliance_section results h
  = (fst (_build_compliance_section (map h results)), h).
Proof.
  unfold _build_compliance_section. cbv zeta. cbn [fst].
  rewrite !filter_of_map.
  set (summary_rows := filter (fun a => str_eqb (element_type (h a)) (lit "Summary")) results).
  set (space_rows := filter (fun a => str_eqb (element_type (h a)) (lit "IfcSpace")) results).
  set (failed_or_warn := filter _ space_rows).
  rewrite (fold_left_of_map (fun counts r => dict_incr counts (status_key r)) h space_rows []).
  rewrite length_map, !match_of_map, !flat_map_of_map.
  unfold Store._build_compliance_section, Store.bind.
  rewrite (@select_reads _ _ _ (fun a => str_eqb (element_type (h a)) (lit "Summary")))
    by (intros a; reflexivity).
  rewrite (@select_reads _ _ _ (fun a => str_eqb (element_type (h a)) (lit "IfcSpace")))
    by (intros a; reflexivity).
  fold summary_rows. fold space_rows.
  rewrite (@for_loop_reads _ _ _ _ (fun counts a => dict_incr counts (status_key (h a))))
    by (intros counts a; reflexivity).
  set (counts := fold_left _ space_rows []).
  erewrite branch_reads; cycle 1.
  { reflexivity. }
  { apply for_loop_reads with (f := fun lines '(idx, a) => lines ++ [space_line idx (h a)]).
    intros lines [idx a]. reflexivity. }
  rewrite (fold_left_enumerate space_line h).
  rewrite (@select_reads _ _ _
             (fun a => mem (lower (_to_text (Some (check_status (h a)))))
                           (map lit ["fail"; "warning"; "blocked"])))
    by (intros a; reflexivity).
  fold failed_or_warn.
  set (lines3 := match space_rows with [] => _ | _ :: _ => _ end).
  erewrite branch_reads; cycle 1.
  { reflexivity. }
  { apply for_loop_reads with
      (f := fun lines a =>
              lines ++
              (lit "- [" ++ upper (_to_text (Some (check_status (h a)))) ++ lit "] "
               ++ _to_text (Some (element_name (h a))))
              :: match nonempty (comment (h a)) with
                 | Some _ => [lit "  reasons: " ++ _to_text (comment (h a))]
                 | None => []
                 end).
    intros lines a. reflexivity. }
  rewrite fold_left_append.
  set (lines5 := match failed_or_warn with [] => _ | _ :: _ => _ end).
  erewrite branch_reads; cycle 1.
  { reflexivity. }
  { apply for_loop_reads with
      (f := fun lines a =>
              lines ++
              (lit "- " ++ _to_text (Some (element_name (h a))) ++ lit ": "
               ++ _to_text (Some (actual_value (h a))))
              :: match nonempty (comment (h a)) with
                 | Some _ => [lit "  comment: " ++ _to_text (comment (h a))]
                 | None => []
                 end).
    intros lines a. reflexivity. }
  rewrite fold_left_append.
  unfold Store.ret. f_equal.
Qed.

Section ParseStoreReads.
Import Parser.

(** The same for the parse section. *)
Lemma build_parse_section_reads (results : list Store.address) (h : Store.heap row) :
  ParseStore._build_parse_section results h
  = (_build_parse_section (map h results), h).
Proof.
  unfold _build_parse_section. cbv zeta.
  rewrite !filter_of_map.
  set (summary_rows := filter (fun a => str_eqb (element_type (h a)) (lit "Summary")) results).
  set (detail_rows := filter (fun a => negb (str_eqb (element_type (h a)) (lit "Summary"))) results).
  set (noteworthy := filter _ results).
  rewrite (fold_left_of_map (fun counts r => dict_incr counts (status_key r)) h results []).
  unfold entity_count_rows.
  rewrite !length_map, !match_of_map, !flat_map_of_map.
  unfold ParseStore._build_parse_section, Store.bind.
  rewrite (@select_reads _ _ _ (fun a => str_eqb (element_type (h a)) (lit "Summary")))
    by (intros a; reflexivity).
  rewrite (@select_reads _ _ _ (fun a => negb (str_eqb (element_type (h a)) (lit "Summary"))))
    by (intros a; reflexivity).
  fold summary_rows. fold detail_rows.
  rewrite (@for_loop_reads _ _ _ _ (fun counts a => dict_incr counts (status_key (h a))))
    by (intros counts a; reflexivity).
  set (counts := fold_left _ results []).
  rewrite (@for_loop_reads _ _ _ _
             (fun rows a =>
                rows ++
                (let name := _to_text (Some (element_name (h a))) in
                 if negb (endswith name (lit " Count")) then []
                 else [(slice_to name (- Z.of_nat (List.length (lit " Count"))),
                        _to_text (Some (actual_value (h a))),
                        upper (_to_text (Some (check_status (h a)))))]))).
  2:{ intros rows a. cbv zeta. unfold Store.get.
      destruct (negb (endswith (_to_text (Some (element_name (h a)))) (lit " Count")));
        [rewrite app_nil_r|]; reflexivity. }
  rewrite fold_left_append. cbn [app].
  set (entity_rows := flat_map _ summary_rows).
  set (lines3 := match entity_rows with [] => _ | _ :: _ => _ end ++ _).
  erewrite branch_reads; cycle 1.
  { reflexivity. }
  { apply for_loop_reads with (f := fun lines '(idx, a) => lines ++ [detail_line idx (h a)]).
    intros lines [idx a]. reflexivity. }
  rewrite (fold_left_enumerate detail_line h).
  rewrite (@select_reads _ _ _
             (fun a => mem (lower (_to_text (Some (check_status (h a)))))
                           (map lit ["warning"; "fail"; "blocked"])))
    by (intros a; reflexivity).
  fold noteworthy.
  set (lines5 := match detail_rows with [] => _ | _ :: _ => _ end).
  erewrite branch_reads; cycle 1.
  { reflexivity. }
  { apply for_loop_reads with (f := fun lines a => lines ++ noteworthy_lines (h a)).
    intros lines a. reflexivity. }
  rewrite fold_left_append.
  unfold Store.ret. f_equal.
Qed.
End ParseStoreReads.

Lemma display_widths_range (width : Z) :
  In width Store.display_widths -> (8 <= width <= 34)%Z.
Proof.
  unfold Store.display_widths. cbn [In].
  intros [H | [H | [H | [H | [H | [H | [H | [H | [H | []]]]]]]]]]; subst; lia.
Qed.

(** ** C10 *)

(** C10.  For every value and every width that the sections pass to [_clip],
    the clipped cell is the text of the value when the text is at most as
    long as the width, and otherwise the first width minus 3 characters of
    the text followed by "...", of length exactly the width.  Rendering only
    reads the records: run on any store of records, the compliance section
    and the parse section return their lines and leave every record of the
    store as it was. *)
Theorem clip_display_only (value : option str) (width : Z)
    (results : list Store.address) (h : Store.heap row)
    (parse_results : list Store.address) (parse_h : Store.heap Parser.row) :
  In width Store.display_widths ->
  ((Z.of_nat (List.length (_to_text value)) <= width)%Z ->
     _clip value width = _to_text value) /\
  ((width < Z.of_nat (List.length (_to_text value)))%Z ->
     _clip value width = firstn (Z.to_nat (width - 3)) (_to_text value) ++ lit "..." /\
     Z.of_nat (List.length (_clip value width)) = width) /\
  Store._build_compliance_section results h
  = (fst (_build_compliance_section (map h results)), h) /\
  ParseStore._build_parse_section parse_results parse_h
  = (Parser._build_parse_section (map parse_h parse_results), parse_h).
Proof.
  intros Hw. apply display_widths_range in Hw.
  split; [apply clip_short|]. split; [apply clip_long; lia|].
  split; [apply build_compliance_section_reads | apply build_parse_section_reads].
Qed.

Lemma clip_display_only_witness :
  let record :=
    _result None (lit "IfcSpace") (lit "A room with a name of more than 26 characters")
      None (lit "fail") (lit "space_type=unknown, area_m2=None, height_m=None")
      (lit "min_area_m2=None, min_height_m=None") None None in
  let h : Store.heap row := fun _ => record in
  In 26%Z Store.display_widths /\
  _clip (Some (element_name record)) 26 = lit "A room with a name of m..." /\
  snd (Store._build_compliance_section [0%nat] h) = h.
Proof.
  intros record h.
  assert (Hw : In 26%Z Store.display_widths) by (cbn; tauto).
  destruct (@clip_display_only (Some (element_name record)) 26 [0%nat] h []
              (fun _ => Parser._result None [] [] None [] [] [] None None) Hw)
    as [_ [H1 [H2 _]]].
  split; [exact Hw|]. split.
  - destruct H1 as [E _]; [vm_compute; reflexivity|]. rewrite E. reflexivity.
  - rewrite H2. reflexivity.
Defined.

(* ================================================================== *)
(** * The entity types of the parse pass                              *)
(* ================================================================== *)

Section ParserProperties.

Import Parser.

Lemma strip_strip (s : str) : strip (strip s) = strip s.
Proof. apply strip_id; [apply strip_starts | apply strip_ends]. Qed.

Lemma clean_name_spec (e : str) :
  clean_name e = true <-> e <> [] /\ strip e = e.
Proof.
  unfold clean_name. rewrite andb_true_iff, str_eqb_eq.
  destruct e; simpl; split; intros [H1 H2]; split; congruence.
Qed.

Lemma stripped_nonempty_clean (chunks : list str) :
  forallb clean_name (stripped_nonempty chunks) = true.
Proof.
  unfold stripped_nonempty. apply forallb_forall. intros e He.
  apply filter_In in He as [Hin Hne]. apply in_map_iff in Hin as [x [<- _]].
  unfold clean_name. rewrite Hne, strip_strip, str_eqb_refl. reflexivity.
Qed.

Lemma stripped_nonempty_fixed (names : list str) :
  forallb clean_name names = true -> stripped_nonempty names = names.
Proof.
  unfold stripped_nonempty. induction names as [|e names IH]; [reflexivity|].
  simpl. intros H. apply andb_true_iff in H as [He Hn].
  apply clean_name_spec in He as [Hne Hs]. rewrite Hs.
  destruct e; [congruence|]. simpl. rewrite (IH Hn). reflexivity.
Qed.

Lemma normalize_entity_types_all_clean (entity_types : entity_types_arg) :
  _normalize_entity_types entity_types <> [] /\
  forallb clean_name (_normalize_entity_types entity_types) = true.
Proof.
  assert (D : DEFAULT_ENTITY_TYPES <> [] /\ forallb clean_name DEFAULT_ENTITY_TYPES = true)
    by (split; [discriminate | vm_compute; reflexivity]).
  assert (O : forall chunks,
            or_default (stripped_nonempty chunks) <> [] /\
            forallb clean_name (or_default (stripped_nonempty chunks)) = true).
  { intros chunks. pose proof (stripped_nonempty_clean chunks) as H.
    unfold or_default. destruct (stripped_nonempty chunks); [exact D|].
    split; [discriminate | exact H]. }
  destruct entity_types; simpl; auto.
Qed.

(** X1.  Whatever it is given ([None], a string, an
    iterable, another object), [_normalize_entity_types] returns a list that
    is not empty, and each of its names is not empty and has no whitespace at
    its start or end. *)
Theorem normalize_entity_types_clean (entity_types : entity_types_arg) :
  _normalize_entity_types entity_types <> [] /\
  Forall (fun name => name <> [] /\ strip name = name)
         (_normalize_entity_types entity_types).
Proof.
  destruct (normalize_entity_types_all_clean entity_types) as [Hne Hc].
  split; [exact Hne|]. apply Forall_forall. intros e He.
  apply clean_name_spec. rewrite forallb_forall in Hc. exact (Hc e He).
Qed.

(** X2.  The list that [_normalize_entity_types] returns is a fixed point:
    given back as an iterable it is returned unchanged. *)
Theorem normalize_entity_types_idempotent (entity_types : entity_types_arg) :
  _normalize_entity_types (TypesIterable (_normalize_entity_types entity_types))
  = _normalize_entity_types entity_types.
Proof.
  destruct (normalize_entity_types_all_clean entity_types) as [Hne Hc].
  simpl. rewrite (@stripped_nonempty_fixed _ Hc).
  destruct (_normalize_entity_types entity_types); [congruence | reflexivity].
Qed.

Lemma split_comma_free (e : str) :
  comma_free e = true -> split 0x2C e = [e].
Proof.
  induction e as [|c e IH]; [reflexivity|]. simpl. intros H.
  apply andb_true_iff in H as [Hc He]. apply negb_true_iff in Hc.
  rewrite Hc, (IH He). reflexivity.
Qed.

Lemma split_app_comma (e rest : str) :
  comma_free e = true -> split 0x2C (e ++ 0x2C :: rest) = e :: split 0x2C rest.
Proof.
  induction e as [|c e IH]; simpl.
  - intros _. reflexivity.
  - intros H. apply andb_true_iff in H as [Hc He]. apply negb_true_iff in Hc.
    rewrite Hc, (IH He). reflexivity.
Qed.

Lemma split_join_comma (names : list str) :
  names <> [] -> forallb comma_free names = true ->
  split 0x2C (join (lit ",") names) = names.
Proof.
  induction names as [|e names IH]; [congruence|]. intros _ H.
  simpl in H. apply andb_true_iff in H as [He Hn].
  destruct names as [|e' names'].
  - simpl. apply split_comma_free. exact He.
  - change (join (lit ",") (e :: e' :: names'))
      with (e ++ 0x2C :: join (lit ",") (e' :: names')).
    rewrite (@split_app_comma e _ He), IH; [reflexivity | discriminate | exact Hn].
Qed.

Lemma split_join_comma_space (names : list str) :
  forallb comma_free names = true ->
  split 0x2C (join (lit ", ") names) =
  match names with
  | [] => [[]]
  | e :: rest => e :: map (cons 0x20) rest
  end.
Proof.
  induction names as [|e names IH]; [reflexivity|]. intros H.
  simpl in H. apply andb_true_iff in H as [He Hn].
  destruct names as [|e' names'].
  - simpl. apply split_comma_free. exact He.
  - change (join (lit ", ") (e :: e' :: names'))
      with (e ++ 0x2C :: 0x20 :: join (lit ", ") (e' :: names')).
    rewrite (@split_app_comma e _ He). f_equal.
    specialize (IH Hn). simpl map.
    change (0x20 :: join (lit ", ") (e' :: names'))
      with ([0x20] ++ join (lit ", ") (e' :: names')).
    assert (G : forall s chunk chunks, split 0x2C s = chunk :: chunks ->
                split 0x2C ([0x20] ++ s) = (0x20 :: chunk) :: chunks).
    { intros s chunk chunks E. simpl. rewrite E. reflexivity. }
    apply G. exact IH.
Qed.

Lemma stripped_nonempty_spaced (names : list str) :
  forallb clean_name names = true ->
  stripped_nonempty (map (cons 0x20) names) = names.
Proof.
  intros H. rewrite <- (@stripped_nonempty_fixed _ H) at 2.
  unfold stripped_nonempty. rewrite map_map. reflexivity.
Qed.

(** X3.  A list of names written as one string, separated by "," or by ", ",
    is read back as that list: for names that are not empty, have no
    whitespace at their ends and hold no comma. *)
Theorem normalize_entity_types_round_trip (names : list str) :
  names <> [] ->
  forallb clean_name names = true ->
  forallb comma_free names = true ->
  _normalize_entity_types (TypesStr (join (lit ",") names)) = names /\
  _normalize_entity_types (TypesStr (join (lit ", ") names)) = names.
Proof.
  intros Hne Hc Hf. simpl. split.
  - rewrite (@split_join_comma _ Hne Hf), (@stripped_nonempty_fixed _ Hc).
    destruct names; [congruence | reflexivity].
  - rewrite (@split_join_comma_space _ Hf).
    destruct names as [|e rest]; [congruence|].
    simpl in Hc. apply andb_true_iff in Hc as [He Hr].
    change (e :: map (cons 0x20) rest) with ([e] ++ map (cons 0x20) rest).
    unfold stripped_nonempty. rewrite map_app, filter_app.
    fold (stripped_nonempty [e]). fold (stripped_nonempty (map (cons 0x20) rest)).
    rewrite (@stripped_nonempty_spaced _ Hr).
    rewrite (@stripped_nonempty_fixed [e]); [reflexivity|].
    simpl. rewrite He. reflexivity.
Qed.

Lemma normalize_entity_types_round_trip_witness :
  map lit ["IfcWall"; "IfcDoor"] <> [] /\
  _normalize_entity_types (TypesStr (lit "IfcWall, IfcDoor"))
  = map lit ["IfcWall"; "IfcDoor"].
Proof.
  split; [discriminate|].
  apply (normalize_entity_types_round_trip (names := map lit ["IfcWall"; "IfcDoor"]));
    [discriminate | reflexivity | reflexivity].
Defined.

(* ================================================================== *)
(** * The parse pass                                                  *)
(* ================================================================== *)

Lemma fold_parse_type (model : ifc_model) (limit : Z) (types : list str)
    (rows : list row) (total : Z) :
  fold_left (parse_type model limit) types (rows, total) =
  (rows ++ flat_map (type_rows model limit) types,
   (total + sum_Z (map (found_count model) types))%Z).
Proof.
  revert rows total. induction types as [|t types IH]; intros rows total;
    cbn [fold_left flat_map map].
  - unfold sum_Z. simpl. rewrite app_nil_r, Z.add_0_r. reflexivity.
  - destruct (parse_type model limit (rows, total) t) as [rows' total'] eqn:E.
    rewrite IH. unfold parse_type in E. unfold type_rows, found_count.
    unfold sum_Z. cbn [fold_right]. fold (sum_Z (map (found_count model) types)).
    destruct (by_type model t) as [elements|exc]; inversion E; subst;
      rewrite <- !app_assoc; simpl; f_equal; lia.
Qed.

(** The result of the pass, row by row. *)
Lemma check_ifc_parse_rows (model : ifc_model) (entity_types : entity_types_arg)
    (sample_limit : Z) :
  let types := _normalize_entity_types entity_types in
  check_ifc_parse model entity_types sample_limit =
  schema_row model
  :: flat_map (type_rows model (Z.max 1 sample_limit)) types
  ++ [overall_row (sum_Z (map (found_count model) types)) (List.length types)].
Proof.
  intros types. unfold check_ifc_parse. fold types.
  rewrite fold_parse_type. simpl. reflexivity.
Qed.

Lemma found_count_nonneg (model : ifc_model) (t : str) :
  (0 <= found_count model t)%Z.
Proof. unfold found_count. destruct (by_type model t); lia. Qed.

Lemma sum_found_positive (model : ifc_model) (types : list str) :
  (0 < sum_Z (map (found_count model) types))%Z <->
  exists t, In t types /\ (0 < found_count model t)%Z.
Proof.
  induction types as [|t types IH]; simpl.
  - split; [lia | intros [t [[] _]]].
  - pose proof (found_count_nonneg model t) as Ht.
    assert (Hs : (0 <= sum_Z (map (found_count model) types))%Z).
    { clear. induction types as [|u types IH]; simpl; [lia|].
      pose proof (found_count_nonneg model u). lia. }
    split.
    + intros H. destruct (Z_lt_le_dec 0 (found_count model t)) as [L|L].
      * exists t. split; [left; reflexivity | exact L].
      * assert (H' : (0 < sum_Z (map (found_count model) types))%Z) by lia.
        apply IH in H' as [u [Hin Hu]]. exists u. split; [right; exact Hin | exact Hu].
    + intros [u [[<- | Hin] Hu]]; [lia|].
      assert (0 < sum_Z (map (found_count model) types))%Z
        by (apply IH; exists u; split; assumption).
      lia.
Qed.

Lemma type_rows_blocked (model : ifc_model) (limit : Z) (t : str) :
  List.length (filter (parse_status "blocked") (type_rows model limit t)) =
  if lookup_fails model t then 1%nat else 0%nat.
Proof.
  unfold type_rows, lookup_fails. destruct (by_type model t) as [elements|exc].
  - cbn [filter]. unfold parse_status at 1. unfold count_row. cbn [check_status].
    assert (E : str_eqb (if (0 <? Z.of_nat (List.length elements))%Z
                         then lit "pass" else lit "warning") (lit "blocked") = false)
      by (destruct (0 <? _)%Z; reflexivity).
    rewrite E. induction (firstn (Z.to_nat limit) elements) as [|e es IH];
      [reflexivity | exact IH].
  - reflexivity.
Qed.

Lemma type_rows_statuses (model : ifc_model) (limit : Z) (t : str) :
  Forall (fun r => check_status r = lit "log" \/ check_status r = lit "pass" \/
                   check_status r = lit "warning" \/ check_status r = lit "blocked")
         (type_rows model limit t).
Proof.
  unfold type_rows. destruct (by_type model t) as [elements|exc].
  - constructor.
    + unfold count_row. cbn [check_status]. destruct (0 <? _)%Z; auto.
    + apply Forall_forall. intros r Hr. apply in_map_iff in Hr as [e [<- _]].
      left. reflexivity.
  - constructor; [|constructor]. right. right. right. reflexivity.
Qed.

(** X4.  A lookup that raises costs its own type one "blocked" row and nothing
    else: the pass goes on, the number of blocked rows is the number of
    requested types whose lookup raises, each of them has its row with the
    text of the exception as log, and no row has another status than "log",
    "pass", "warning" or "blocked". *)
Theorem parse_blocked_rows (model : ifc_model) (entity_types : entity_types_arg)
    (sample_limit : Z) :
  let types := _normalize_entity_types entity_types in
  let rows := check_ifc_parse model entity_types sample_limit in
  List.length (filter (parse_status "blocked") rows)
    = List.length (filter (lookup_fails model) types) /\
  (forall t exc, In t types -> by_type model t = ByTypeError exc ->
     In (blocked_row t exc) rows /\ log (blocked_row t exc) = Some exc) /\
  Forall (fun r => check_status r = lit "log" \/ check_status r = lit "pass" \/
                   check_status r = lit "warning" \/ check_status r = lit "blocked")
         rows.
Proof.
  intros types rows. subst rows. rewrite check_ifc_parse_rows. fold types.
  split; [|split].
  - cbn [filter]. change (parse_status "blocked" (schema_row model)) with false.
    cbv iota. rewrite filter_app, length_app.
    assert (E : List.length (filter (parse_status "blocked")
                  [overall_row (sum_Z (map (found_count model) types)) (List.length types)])
                = 0%nat).
    { cbn [filter]. unfold parse_status, overall_row. cbn [check_status].
      destruct (0 <? _)%Z; reflexivity. }
    rewrite E, Nat.add_0_r. clear E.
    induction types as [|t ts IH]; [reflexivity|].
    cbn [flat_map filter]. rewrite filter_app, length_app, type_rows_blocked, IH.
    destruct (lookup_fails model t); reflexivity.
  - intros t exc Hin Hb. split; [|reflexivity].
    right. apply in_or_app. left. apply in_flat_map. exists t. split; [exact Hin|].
    unfold type_rows. rewrite Hb. left. reflexivity.
  - constructor; [left; reflexivity|]. apply Forall_app. split.
    + apply Forall_flat_map. intros t _. apply type_rows_statuses.
    + constructor; [|constructor]. unfold overall_row. cbn [check_status].
      destruct (0 <? _)%Z; auto.
Qed.

(** X5.  The last row of the pass is the row "Overall Parse".  Its status is
    "pass" when some requested type has at least one element and "warning"
    otherwise, and its count is the sum of the counts of the requested
    types, a type whose lookup raises counting 0. *)
Theorem parse_overall_row (model : ifc_model) (entity_types : entity_types_arg)
    (sample_limit : Z) :
  let types := _normalize_entity_types entity_types in
  let total := sum_Z (map (found_count model) types) in
  exists before last,
    check_ifc_parse model entity_types sample_limit = before ++ [last] /\
    element_name last = lit "Overall Parse" /\
    actual_value last =
      str_of_Z total ++ lit " parsed entities across "
      ++ str_of_Z (Z.of_nat (List.length types)) ++ lit " types" /\
    (check_status last = lit "pass" \/ check_status last = lit "warning") /\
    (check_status last = lit "pass" <->
     exists t e elements, In t types /\ by_type model t = Elements (e :: elements)).
Proof.
  intros types total. rewrite check_ifc_parse_rows. fold types. fold total.
  exists (schema_row model :: flat_map (type_rows model (Z.max 1 sample_limit)) types),
         (overall_row total (List.length types)).
  split; [reflexivity|]. split; [reflexivity|]. split; [reflexivity|].
  unfold overall_row. cbn [check_status].
  assert (P : (0 < total)%Z <->
              exists t e elements, In t types /\ by_type model t = Elements (e :: elements)).
  { unfold total. rewrite sum_found_positive. split.
    - intros [t [Hin Hp]]. unfold found_count in Hp.
      destruct (by_type model t) as [[|e es]|exc] eqn:E; simpl in Hp; try lia.
      exists t, e, es. split; assumption.
    - intros [t [e [es [Hin E]]]]. exists t. split; [exact Hin|].
      unfold found_count. rewrite E. simpl List.length. lia. }
  destruct (0 <? total)%Z eqn:E.
  - split; [left; reflexivity|]. split; [intros _|reflexivity].
    apply P. apply Z.ltb_lt. exact E.
  - split; [right; reflexivity|]. split.
    + intros H. exfalso. revert H. vm_compute. discriminate.
    + intros H. apply P in H. apply Z.ltb_lt in H. congruence.
Qed.

(** X6.  The pass returns one schema row, for each requested type one summary row
    and at most [max(1, sample_limit)] sample rows, and one overall row.  A
    [sample_limit] of 0 or less is taken as 1. *)
Theorem parse_row_count (model : ifc_model) (entity_types : entity_types_arg)
    (sample_limit : Z) :
  let types := _normalize_entity_types entity_types in
  List.length (check_ifc_parse model entity_types sample_limit) =
    (2 + list_sum (map (fun t => (1 + sample_count model sample_limit t)%nat) types))%nat /\
  (forall t, sample_count model sample_limit t <= Z.to_nat (Z.max 1 sample_limit))%nat /\
  ((sample_limit <= 1)%Z ->
   forall t e elements, by_type model t = Elements (e :: elements) ->
     sample_count model sample_limit t = 1%nat).
Proof.
  intros types. split; [|split].
  - rewrite check_ifc_parse_rows. fold types. cbn [List.length].
    rewrite length_app. cbn [List.length].
    assert (E : List.length (flat_map (type_rows model (Z.max 1 sample_limit)) types)
                = list_sum (map (fun t => (1 + sample_count model sample_limit t)%nat) types)).
    { induction types as [|t ts IH]; [reflexivity|].
      cbn [flat_map map list_sum]. rewrite length_app, IH. f_equal.
      unfold type_rows, sample_count. destruct (by_type model t) as [elements|exc].
      - cbn [List.length]. rewrite length_map, length_firstn. reflexivity.
      - reflexivity. }
    rewrite E. lia.
  - intros t. unfold sample_count. destruct (by_type model t); lia.
  - intros Hl t e elements E. unfold sample_count. rewrite E.
    assert (M : Z.max 1 sample_limit = 1%Z) by lia. rewrite M.
    simpl. reflexivity.
Qed.

Lemma flat_map_filter {A B} (p : A -> bool) (f : A -> list B) (l : list A) :
  flat_map f (filter p l) = flat_map (fun x => if p x then f x else []) l.
Proof.
  induction l as [|x l IH]; [reflexivity|]. simpl.
  destruct (p x); simpl; rewrite IH; reflexivity.
Qed.

Lemma flat_map_flat_map {A B C} (f : A -> list B) (g : B -> list C) (l : list A) :
  flat_map g (flat_map f l) = flat_map (fun x => flat_map g (f x)) l.
Proof.
  induction l as [|x l IH]; [reflexivity|]. simpl.
  rewrite flat_map_app, IH. reflexivity.
Qed.

Lemma flat_map_nil {A B} (f : A -> list B) (l : list A) :
  (forall x, In x l -> f x = []) -> flat_map f l = [].
Proof.
  induction l as [|x l IH]; intros H; [reflexivity|]. simpl.
  rewrite (H x (or_introl eq_refl)), IH; [reflexivity|].
  intros y Hy. apply H. right. exact Hy.
Qed.

Lemma endswith_count (t : str) : endswith (t ++ lit " Count") (lit " Count") = true.
Proof.
  unfold endswith. rewrite rev_app_distr. apply startswith_spec.
  exists (rev t). reflexivity.
Qed.

Lemma endswith_parse (t : str) : endswith (t ++ lit " Parse") (lit " Count") = false.
Proof. unfold endswith. rewrite rev_app_distr. reflexivity. Qed.

Lemma slice_off_count (t : str) :
  Render.slice_to (t ++ lit " Count") (- Z.of_nat (List.length (lit " Count"))) = t.
Proof.
  unfold Render.slice_to. rewrite length_app.
  change (List.length (lit " Count")) with 6%nat.
  replace (- Z.of_nat 6 <? 0)%Z with true by reflexivity.
  replace (Z.to_nat (Z.of_nat (List.length t + 6) + - Z.of_nat 6))
    with (List.length t + 0)%nat by lia.
  rewrite firstn_app_2. simpl. apply app_nil_r.
Qed.

(** X7.  The table of counts of the parse section, built from the rows of the
    pass, is the list of the requested types that could be looked up, in the
    order of the request, each with its count and with "PASS" or "WARNING":
    the type is read back from the name "<type> Count" of its row.  This
    needs that "Summary" is not itself a requested type. *)
Theorem parse_count_table (model : ifc_model) (entity_types : entity_types_arg)
    (sample_limit : Z) :
  ~ In (lit "Summary") (_normalize_entity_types entity_types) ->
  entity_count_rows
    (filter (fun r => str_eqb (element_type r) (lit "Summary"))
            (check_ifc_parse model entity_types sample_limit))
  = flat_map (count_entry model) (_normalize_entity_types entity_types).
Proof.
  intros Hs. rewrite check_ifc_parse_rows. cbv zeta.
  set (types := _normalize_entity_types entity_types) in *.
  unfold entity_count_rows. rewrite flat_map_filter.
  set (g := fun r : row => if str_eqb (element_type r) (lit "Summary") then _ else _).
  cbn [flat_map]. rewrite flat_map_app.
  assert (G1 : g (schema_row model) = []) by reflexivity.
  assert (G2 : forall total n, g (overall_row total n) = []) by reflexivity.
  rewrite G1. cbn [flat_map]. rewrite G2, !app_nil_r. cbn [app].
  rewrite flat_map_flat_map.
  assert (T : forall t, In t types ->
            flat_map g (type_rows model (Z.max 1 sample_limit) t) = count_entry model t).
  { intros t Hin.
    assert (Ht : str_eqb t (lit "Summary") = false).
    { destruct (str_eqb t (lit "Summary")) eqn:E; [|reflexivity].
      apply str_eqb_eq in E. subst t. contradiction. }
    unfold type_rows, count_entry. destruct (by_type model t) as [elements|exc].
    - cbn [flat_map]. rewrite flat_map_nil.
      + rewrite app_nil_r. subst g. unfold count_row.
        cbn [element_type element_name actual_value check_status Render._to_text].
        change (str_eqb (lit "Summary") (lit "Summary")) with true. cbv iota.
        rewrite endswith_count. cbn [negb]. rewrite slice_off_count.
        destruct elements as [|e es]; reflexivity.
      + intros r Hr. apply in_map_iff in Hr as [e [<- _]].
        subst g. cbn [element_type sample_row]. rewrite Ht. reflexivity.
    - cbn [flat_map]. subst g. unfold blocked_row.
      cbn [element_type element_name Render._to_text].
      change (str_eqb (lit "Summary") (lit "Summary")) with true. cbv iota.
      rewrite endswith_parse. reflexivity. }
  clear Hs. induction types as [|t ts IH]; [reflexivity|].
  cbn [flat_map]. rewrite T by (left; reflexivity). f_equal.
  apply IH. intros u Hu. apply T. right. exact Hu.
Qed.

Lemma parse_count_table_witness :
  ~ In (lit "Summary") (_normalize_entity_types (TypesStr (lit "IfcWall, IfcDoor"))) /\
  entity_count_rows
    (filter (fun r => str_eqb (element_type r) (lit "Summary"))
       (check_ifc_parse
          {| schema := Some (lit "IFC4");
             by_type := fun t =>
               if str_eqb t (lit "IfcWall")
               then Elements [{| e_GlobalId := None; e_Name := Some (lit "W1");
                                 e_LongName := None; e_id := Some 12%Z |}]
               else Elements [] |}
          (TypesStr (lit "IfcWall, IfcDoor")) 3))
  = [(lit "IfcWall", lit "1", lit "PASS"); (lit "IfcDoor", lit "0", lit "WARNING")].
Proof.
  assert (H : ~ In (lit "Summary")
                (_normalize_entity_types (TypesStr (lit "IfcWall, IfcDoor")))).
  { vm_compute. intros [H | [H | []]]; discriminate H. }
  split; [exact H|].
  rewrite (@parse_count_table _ _ 3 H). reflexivity.
Defined.

End ParserProperties.

(* ================================================================== *)
(** * The tables of the report                                        *)
(* ================================================================== *)

Lemma dict_get_incr_same (d : list (str * Z)) (k : str) :
  dict_get (Render.dict_incr d k) k =
  Some (match dict_get d k with Some n => n + 1 | None => 1 end)%Z.
Proof.
  induction d as [|[k' v] d IH]; simpl.
  - rewrite str_eqb_refl. reflexivity.
  - destruct (str_eqb k' k) eqn:E; simpl; rewrite E; [reflexivity | exact IH].
Qed.

Lemma dict_get_incr_other (d : list (str * Z)) (k k' : str) :
  str_eqb k k' = false ->
  dict_get (Render.dict_incr d k) k' = dict_get d k'.
Proof.
  intros Hk. induction d as [|[k0 v] d IH]; simpl.
  - rewrite Hk. reflexivity.
  - destruct (str_eqb k0 k) eqn:E; simpl.
    + apply str_eqb_eq in E. subst k0. rewrite Hk. reflexivity.
    + destruct (str_eqb k0 k'); [reflexivity | exact IH].
Qed.

Lemma tally_from {A} (key : A -> str) (rows : list A) (d : list (str * Z)) (k : str) :
  dict_get (fold_left (fun counts r => Render.dict_incr counts (key r)) rows d) k =
  match List.length (filter (fun r => str_eqb (key r) k) rows) with
  | O => dict_get d k
  | S n => Some (match dict_get d k with Some v => v | None => 0 end
                 + Z.of_nat (S n))%Z
  end.
Proof.
  revert d. induction rows as [|r rows IH]; intros d; [reflexivity|].
  cbn [fold_left filter]. rewrite IH.
  destruct (str_eqb (key r) k) eqn:E.
  - apply str_eqb_eq in E. rewrite E, dict_get_incr_same. cbn [List.length].
    destruct (List.length (filter (fun r0 => str_eqb (key r0) k) rows));
      destruct (dict_get d k); f_equal; lia.
  - rewrite (@dict_get_incr_other d _ _ E). reflexivity.
Qed.

(** X8.  The status counts of both report sections are exact: after the rows are
    tallied, looking a status up gives the number of rows with that status
    key, and gives nothing when there is none, so that the table has no row
    for it. *)
Theorem status_counts_exact {A} (key : A -> str) (rows : list A) (status : str) :
  dict_get (fold_left (fun counts r => Render.dict_incr counts (key r)) rows []) status =
  match List.length (filter (fun r => str_eqb (key r) status) rows) with
  | O => None
  | S n => Some (Z.of_nat (S n))
  end.
Proof.
  rewrite tally_from. simpl dict_get.
  destruct (List.length _); [reflexivity|]. f_equal.
Qed.

Lemma length_ljust (w : nat) (s : str) :
  List.length (Render.ljust w s) = Nat.max w (List.length s).
Proof. unfold Render.ljust. rewrite length_app, repeat_length. lia. Qed.

Lemma length_rjust (w : nat) (s : str) :
  List.length (Render.rjust w s) = Nat.max w (List.length s).
Proof.
  unfold Render.rjust. rewrite length_app, repeat_length.
  unfold char in *. lia.
Qed.

Lemma clip_length_le (value : option str) (w : nat) :
  (3 <= w)%nat -> (List.length (Render._clip value (Z.of_nat w)) <= w)%nat.
Proof.
  intros Hw.
  destruct (Z_le_gt_dec (Z.of_nat (List.length (Render._to_text value))) (Z.of_nat w))
    as [L|G].
  - rewrite (@clip_short value _ L). lia.
  - assert (H3 : (3 <= Z.of_nat w)%Z) by lia.
    assert (Hl : (Z.of_nat w < Z.of_nat (List.length (Render._to_text value)))%Z) by lia.
    destruct (@clip_long value _ H3 Hl) as [_ E]. lia.
Qed.

Lemma cell_width (value : option str) (w : nat) :
  (3 <= w)%nat ->
  List.length (Render.ljust w (Render._clip value (Z.of_nat w))) = w.
Proof.
  intros Hw. rewrite length_ljust. pose proof (@clip_length_le value w Hw). lia.
Qed.

Lemma index_width (idx : Z) :
  (0 <= idx <= 999)%Z -> List.length (Render.rjust 3 (str_of_Z idx)) = 3%nat.
Proof.
  intros H. rewrite length_rjust.
  assert (A : forallb (fun n => Nat.leb (List.length (str_of_Z (Z.of_nat n))) 3)
                (seq 0 1000) = true) by (vm_compute; reflexivity).
  rewrite forallb_forall in A.
  assert (I : In (Z.to_nat idx) (seq 0 1000)) by (apply in_seq; lia).
  specialize (A _ I). rewrite Z2Nat.id in A by lia.
  apply Nat.leb_le in A. lia.
Qed.

(** X9.  The rows of the two tables of the report have a fixed width, whatever the
    records hold: 101 characters for a space of the compliance section and
    100 for a sampled element of the parse section, as long as the row number
    has at most three digits.  Long values are clipped, short ones padded. *)
Theorem table_lines_fixed_width (idx : Z) (r : row) (d : Parser.row) :
  (0 <= idx <= 999)%Z ->
  List.length (Render.space_line idx r) = 101%nat /\
  List.length (Parser.detail_line idx d) = 100%nat.
Proof.
  intros H. unfold Render.space_line, Parser.detail_line.
  rewrite !length_app, (@index_width idx H).
  change 26%Z with (Z.of_nat 26). change 8%Z with (Z.of_nat 8).
  change 34%Z with (Z.of_nat 34). change 18%Z with (Z.of_nat 18).
  change 24%Z with (Z.of_nat 24). change 17%Z with (Z.of_nat 17).
  rewrite !cell_width by lia.
  change (List.length (lit " ")) with 1%nat. split; reflexivity.
Qed.

Lemma table_lines_fixed_width_witness :
  (0 <= 7 <= 999)%Z /\
  List.length
    (Render.space_line 7
       (_result None (lit "IfcSpace") (lit "A room with a name of more than 26 characters")
          None (lit "fail") (lit "space_type=unknown, area_m2=None, height_m=None")
          (lit "min_area_m2=None, min_height_m=None") None None)) = 101%nat.
Proof.
  split; [lia|].
  refine (proj1 (@table_lines_fixed_width 7 _
            (Parser._result None [] [] None [] [] [] None None) _)). lia.
Defined.

(** X10.  Every space record whose status is "fail", "warning" or "blocked" (in any
    case of letters) is listed in the details of the compliance section with
    its whole name, and with its whole comment when it has one: the clipping
    of the table does not reach the details. *)
Theorem compliance_details_complete (results : list row) (r : row) :
  In r results ->
  element_type r = lit "IfcSpace" ->
  mem (lower (check_status r)) (map lit ["fail"; "warning"; "blocked"]) = true ->
  let lines := fst (Render._build_compliance_section results) in
  In (lit "- [" ++ Render.upper (check_status r) ++ lit "] " ++ element_name r) lines /\
  (forall c, nonempty (comment r) = Some c -> In (lit "  reasons: " ++ c) lines).
Proof.
  intros Hin Hty Hst.
  unfold Render._build_compliance_section. cbv zeta. cbn [fst].
  set (space_rows := filter (fun r0 => str_eqb (element_type r0) (lit "IfcSpace")) results).
  set (f := fun r0 : row => _ :: _).
  assert (Hs : In r space_rows).
  { apply filter_In. split; [exact Hin|]. rewrite Hty. reflexivity. }
  set (failed := filter _ space_rows).
  assert (Hf : In r failed).
  { apply filter_In. split; [exact Hs | exact Hst]. }
  assert (Hl : forall line, In line (f r) ->
            forall before : list str,
              In line (match failed with
                       | _ :: _ => before ++ flat_map f failed
                       | [] => before ++ [lit "All checked spaces are compliant."]
                       end)).
  { intros line Hline before.
    destruct failed as [|x rest] eqn:E; [contradiction|].
    apply in_or_app. right. apply in_flat_map. exists r. split; assumption. }
  assert (Hc : forall c, nonempty (comment r) = Some c ->
            In (lit "  reasons: " ++ c) (f r)).
  { intros c Hc. right. subst f. cbv beta.
    destruct (comment r) as [[|x c']|]; simpl in Hc; inversion Hc; subst.
    left. reflexivity. }
  split; [|intros c Hcm];
    (apply in_or_app; left;
     match goal with
     | |- In _ (match ?s with [] => _ | _ :: _ => _ end) => destruct s
     end;
     apply in_or_app; left; apply in_or_app; left; apply Hl).
  - left. reflexivity.
  - left. reflexivity.
  - apply Hc. exact Hcm.
  - apply Hc. exact Hcm.
Qed.

Lemma compliance_details_complete_witness :
  let r := _result None (lit "IfcSpace")
             (lit "A room with a name of more than 26 characters") None (lit "fail")
             (lit "") (lit "") (Some (lit "Area not found.; Height not found.")) None in
  In (lit "- [FAIL] A room with a name of more than 26 characters")
     (fst (Render._build_compliance_section [r])) /\
  In (lit "  reasons: Area not found.; Height not found.")
     (fst (Render._build_compliance_section [r])).
Proof.
  intros r.
  destruct (@compliance_details_complete [r] r (or_introl eq_refl) eq_refl eq_refl)
    as [H1 H2].
  split; [exact H1 | exact (H2 _ eq_refl)].
Defined.

Section ParserReport.

Import Parser.

(** X11.  Every row of the parse pass whose status is "warning", "fail" or "blocked"
    is listed in the last part of the parse section: with its status, type
    and name, with its comment when it has one and with its log when it has
    one.  So the text of an exception that blocked a type reaches the
    report. *)
Theorem parse_flagged_complete (results : list row) (r : row) :
  In r results ->
  mem (lower (check_status r)) (map lit ["warning"; "fail"; "blocked"]) = true ->
  let lines := _build_parse_section results in
  In (lit "- [" ++ Render.upper (check_status r) ++ lit "] " ++ element_type r
      ++ lit " | " ++ element_name r) lines /\
  (forall c, nonempty (comment r) = Some c -> In (lit "  comment: " ++ c) lines) /\
  (forall l, nonempty (log r) = Some l -> In (lit "  log    : " ++ l) lines).
Proof.
  intros Hin Hst.
  unfold _build_parse_section. cbv zeta.
  set (noteworthy := filter (fun r0 => mem _ _) results).
  assert (Hn : In r noteworthy) by (apply filter_In; split; assumption).
  assert (Hfinal : forall line, In line (noteworthy_lines r) ->
            forall before : list str,
              In line ((match noteworthy with
                        | _ :: _ => before ++ flat_map noteworthy_lines noteworthy
                        | [] => before ++ [lit "No warnings, failures, or blocked items."]
                        end) ++ [lit ""])).
  { intros line Hline before. apply in_or_app. left.
    destruct noteworthy as [|x rest] eqn:E; [contradiction|].
    apply in_or_app. right. apply in_flat_map. exists r. split; assumption. }
  split; [|split].
  - apply Hfinal. left. reflexivity.
  - intros c Hc. apply Hfinal. right. apply in_or_app. left.
    destruct (comment r) as [[|x c']|]; simpl in Hc; inversion Hc; subst.
    left. reflexivity.
  - intros l Hlog. apply Hfinal. right. apply in_or_app. right.
    destruct (log r) as [[|x l']|]; simpl in Hlog; inversion Hlog; subst.
    left. reflexivity.
Qed.

Lemma parse_flagged_complete_witness :
  let model := {| schema := None;
                  by_type := fun _ => ByTypeError (lit "Entity not in schema") |} in
  In (lit "- [BLOCKED] Summary | IfcWall Parse")
     (_build_parse_section (check_ifc_parse model (TypesStr (lit "IfcWall")) 3)) /\
  In (lit "  log    : Entity not in schema")
     (_build_parse_section (check_ifc_parse model (TypesStr (lit "IfcWall")) 3)).
Proof.
  intros model.
  assert (Hin : In (blocked_row (lit "IfcWall") (lit "Entity not in schema"))
                   (check_ifc_parse model (TypesStr (lit "IfcWall")) 3)).
  { vm_compute. right. left. reflexivity. }
  destruct (@parse_flagged_complete _ _ Hin eq_refl) as [H1 [_ H3]].
  split; [exact H1 | exact (H3 _ eq_refl)].
Defined.

End ParserReport.

(* ================================================================== *)
(** * More on the evaluator                                           *)
(* ================================================================== *)

(** What the first check makes of a classified and of an unclassified
    space: the branch "Unrecognized space type" is not among them. *)
Lemma type_reasons_of_classifier (s : space) :
  (_get_space_type s = None /\
   type_reasons (_get_space_type s) = ([lit "Could not infer space type"], None, None)) \/
  (exists t rule,
     _get_space_type s = Some t /\ dict_get SPACE_RULES t = Some rule /\
     type_reasons (_get_space_type s) = ([], Some (min_area rule), Some (min_height rule))).
Proof.
  destruct (_get_space_type s) as [t|] eqn:E.
  - right. destruct (classified_has_rule s E) as [Hn [rule Hr]].
    exists t, rule. split; [reflexivity|]. split; [exact Hr|].
    unfold type_reasons. rewrite Hn, Hr. reflexivity.
  - left. split; reflexivity.
Qed.

(** X12.  Every label that the classifier can return has a rule: for every space
    the first check either reports that the type could not be inferred, and
    then there are no thresholds and the space cannot pass, or it reports
    nothing and supplies both thresholds of the rule.  The reason
    "Unrecognized space type" is never given. *)
Theorem thresholds_iff_classified (s : space) (area height : option float) :
  let v := judge (_get_space_type s) area height in
  (_get_space_type s = None /\
   v_required_area v = None /\ v_required_height v = None /\
   v_is_pass v = false /\
   exists rest, v_reasons v = lit "Could not infer space type" :: rest) \/
  (exists t rule,
     _get_space_type s = Some t /\ dict_get SPACE_RULES t = Some rule /\
     v_required_area v = Some (min_area rule) /\
     v_required_height v = Some (min_height rule) /\
     v_reasons v = area_reasons area (Some (min_area rule))
                   ++ height_reasons height (Some (min_height rule))).
Proof.
  intros v. subst v. unfold judge.
  destruct (type_reasons_of_classifier s) as [[E T] | [t [rule [E [R T]]]]]; rewrite T.
  - left. split; [exact E|]. cbn [v_required_area v_required_height v_is_pass v_reasons app].
    repeat split. eexists. reflexivity.
  - right. exists t, rule. repeat split; assumption.
Qed.

Lemma reasons_empty_iff (rule : rule) (area height : option float) :
  area_reasons area (Some (min_area rule))
  ++ height_reasons height (Some (min_height rule)) = [] <->
  exists a h, area = Some a /\ height = Some h /\
    ltb a (min_area rule) = false /\ ltb h (min_height rule) = false.
Proof.
  unfold area_reasons, height_reasons. split.
  - destruct area as [a|]; [|discriminate].
    destruct (ltb a (min_area rule)) eqn:Ea; [discriminate|].
    destruct height as [h|]; [|discriminate].
    destruct (ltb h (min_height rule)) eqn:Eh; [discriminate|].
    intros _. exists a, h. repeat split; assumption.
  - intros [a [h [-> [-> [Ea Eh]]]]]. rewrite Ea, Eh. reflexivity.
Qed.

(** X13.  A space passes exactly when it is classified, its area and its height are
    both found, and neither is below the minimum of the rule of its type. *)
Theorem space_passes_iff (s : space) :
  space_ok s = true ->
  exists r area height,
    space_record s = Ok r /\
    _extract_area_m2 s = Ok area /\
    _extract_height_m s = Ok height /\
    (check_status r = lit "pass" \/ check_status r = lit "fail") /\
    (check_status r = lit "pass" <->
     exists t rule a h,
       _get_space_type s = Some t /\ dict_get SPACE_RULES t = Some rule /\
       area = Some a /\ height = Some h /\
       ltb a (min_area rule) = false /\ ltb h (min_height rule) = false).
Proof.
  intros Hs.
  destruct (extract_area_returns s Hs) as [area Ha].
  destruct (extract_height_returns s Hs) as [height Hh].
  unfold space_record. rewrite Ha, Hh. cbn [bind].
  eexists _, area, height. split; [reflexivity|]. split; [reflexivity|].
  split; [reflexivity|].
  set (v := judge (_get_space_type s) area height).
  destruct (space_row_status s (_get_space_type s) area height v) as [Hst _].
  rewrite Hst.
  assert (P : v_is_pass v = true <-> v_reasons v = []).
  { subst v. rewrite judge_is_pass, judge_reasons. reflexivity. }
  split; [destruct (v_is_pass v); [left | right]; reflexivity|].
  assert (S : (if v_is_pass v then lit "pass" else lit "fail") = lit "pass"
              <-> v_is_pass v = true).
  { destruct (v_is_pass v); split; intros H;
      first [reflexivity | discriminate H
            | exfalso; apply lit_pass_fail; symmetry; exact H]. }
  rewrite S, P.
  destruct (type_reasons_of_classifier s) as [[E T] | [t [rule [E [R T]]]]].
  - assert (Hr : exists rest, v_reasons v = lit "Could not infer space type" :: rest).
    { subst v. unfold judge. rewrite T. eexists. reflexivity. }
    destruct Hr as [rest Hr]. rewrite Hr. split; [discriminate|].
    intros [t [rule [a [h [Ht _]]]]]. congruence.
  - assert (Hr : v_reasons v = area_reasons area (Some (min_area rule))
                               ++ height_reasons height (Some (min_height rule))).
    { subst v. unfold judge. rewrite T. reflexivity. }
    rewrite Hr, reasons_empty_iff. split.
    + intros [a [h H]]. exists t, rule, a, h. tauto.
    + intros [t' [rule' [a [h [Ht [Hrule H]]]]]].
      assert (t' = t) by congruence. subst t'.
      assert (rule' = rule) by congruence. subst rule'.
      exists a, h. exact H.
Qed.

Lemma space_passes_iff_witness :
  space_ok Examples.bedroom = true /\
  exists r, space_record Examples.bedroom = Ok r /\ check_status r = lit "pass".
Proof.
  split; [reflexivity|].
  destruct (space_passes_iff Examples.bedroom eq_refl)
    as (r & area & height & Hr & Ha & Hh & _ & Hp).
  exists r. split; [exact Hr|]. apply Hp.
  assert (Ea : _extract_area_m2 Examples.bedroom = Ok (Some Examples.f_18_5))
    by (vm_compute; reflexivity).
  assert (Eh : _extract_height_m Examples.bedroom = Ok (Some Examples.f_3_0))
    by (vm_compute; reflexivity).
  rewrite Ea in Ha. rewrite Eh in Hh. inversion Ha. inversion Hh.
  exists (lit "Bedroom"),
         {| min_height := of_decimal false 26 (-1); min_area := of_decimal false 90 (-1) |},
         Examples.f_18_5, Examples.f_3_0.
  repeat split.
Defined.

(** X14.  A space without any linked property definition has no area and no
    height: it fails, and its comment ends with the two reasons
    "Area not found." and "Height not found.", after the reason of the type
    when the type could not be inferred. *)
Theorem space_without_definitions (s : space) :
  _iter_property_defs s = [] ->
  exists r,
    space_record s = Ok r /\
    _extract_area_m2 s = Ok None /\
    _extract_height_m s = Ok None /\
    check_status r = lit "fail" /\
    comment r =
      Some (join (lit "; ")
              (match _get_space_type s with
               | None => [lit "Could not infer space type"]
               | Some _ => []
               end ++ [lit "Area not found."; lit "Height not found."])).
Proof.
  intros Hd.
  assert (Ha : _extract_area_m2 s = Ok None).
  { unfold _extract_area_m2, extract. rewrite Hd. reflexivity. }
  assert (Hh : _extract_height_m s = Ok None).
  { unfold _extract_height_m, extract. rewrite Hd. reflexivity. }
  unfold space_record. rewrite Ha, Hh. cbn [bind].
  eexists. split; [reflexivity|]. split; [reflexivity|]. split; [reflexivity|].
  set (v := judge (_get_space_type s) None None).
  destruct (space_row_status s (_get_space_type s) None None v) as [Hst [_ Hcm]].
  rewrite Hst, Hcm.
  assert (V : v_is_pass v = false /\
              v_reasons v =
                match _get_space_type s with
                | None => [lit "Could not infer space type"]
                | Some _ => []
                end ++ [lit "Area not found."; lit "Height not found."]).
  { subst v. unfold judge.
    destruct (type_reasons_of_classifier s) as [[E T] | [t [rule [E [R T]]]]];
      rewrite T, E; split; reflexivity. }
  destruct V as [V1 V2]. rewrite V1, V2. split; reflexivity.
Qed.

Lemma space_without_definitions_witness :
  _iter_property_defs Examples.space_bed_bath = [] /\
  exists r,
    space_record Examples.space_bed_bath = Ok r /\
    check_status r = lit "fail" /\
    comment r = Some (lit "Area not found.; Height not found.").
Proof.
  split; [reflexivity|].
  destruct (space_without_definitions Examples.space_bed_bath eq_refl)
    as (r & Hr & _ & _ & Hs & Hc).
  exists r. split; [exact Hr|]. split; [exact Hs | exact Hc].
Defined.

(* ================================================================== *)
(** * More on the classifier, the extractors and the coercion         *)
(* ================================================================== *)

Lemma lower_char_outside (c : char) : 0x100 <= c -> lower_char c = c.
Proof.
  intros H. unfold lower_char.
  assert (E1 : (c <=? 0x5A) = false) by (apply N.leb_gt; lia).
  assert (E2 : (c <=? 0xDE) = false) by (apply N.leb_gt; lia).
  rewrite E1, E2, !andb_false_r. reflexivity.
Qed.

Lemma isspace_lower_char (c : char) : py_isspace (lower_char c) = py_isspace c.
Proof.
  destruct (N.lt_ge_cases c 0x100) as [L|G].
  - assert (A : forallb (fun c => Bool.eqb (py_isspace (lower_char c)) (py_isspace c))
                  (map N.of_nat (seq 0 256)) = true) by (vm_compute; reflexivity).
    apply eqb_prop. exact (@below_256 _ A c L).
  - rewrite (lower_char_outside G). reflexivity.
Qed.

Lemma lower_char_twice (c : char) : lower_char (lower_char c) = lower_char c.
Proof.
  destruct (N.lt_ge_cases c 0x100) as [L|G].
  - assert (A : forallb (fun c => N.eqb (lower_char (lower_char c)) (lower_char c))
                  (map N.of_nat (seq 0 256)) = true) by (vm_compute; reflexivity).
    apply N.eqb_eq. exact (@below_256 _ A c L).
  - rewrite !(lower_char_outside G). reflexivity.
Qed.

Lemma lstrip_lower (s : str) : lstrip (lower s) = lower (lstrip s).
Proof.
  unfold lower. induction s as [|c s IH]; [reflexivity|].
  simpl. rewrite isspace_lower_char. destruct (py_isspace c); [exact IH | reflexivity].
Qed.

Lemma strip_lower (s : str) : strip (lower s) = lower (strip s).
Proof.
  unfold strip, rstrip. rewrite lstrip_lower.
  unfold lower at 1. rewrite <- map_rev. fold (lower (rev (lstrip s))).
  rewrite lstrip_lower. unfold lower. rewrite map_rev. reflexivity.
Qed.

Lemma norm_text_lower (x : option str) :
  _norm_text (option_map lower x) = _norm_text x.
Proof.
  destruct x as [x|]; [|reflexivity]. simpl. rewrite strip_lower.
  assert (E : lower (lower (strip x)) = lower (strip x)).
  { unfold lower. rewrite map_map. apply map_ext. intros c. apply lower_char_twice. }
  rewrite E. reflexivity.
Qed.

(** X15.  The classifier does not see the case of letters: a space whose name, long
    name and object type are text of Basic Latin and Latin-1 Supplement is
    classified like the space with these fields in lower case. *)
Theorem get_space_type_ignores_case (s : space) :
  latin1_field (Name s) = true ->
  latin1_field (LongName s) = true ->
  latin1_field (ObjectType s) = true ->
  _get_space_type (lowercased s) = _get_space_type s.
Proof.
  intros _ _ _. unfold _get_space_type, haystack_of, lowercased.
  cbn [Name LongName ObjectType]. rewrite !norm_text_lower. reflexivity.
Qed.

Lemma get_space_type_ignores_case_witness :
  latin1_field (Name (Examples.space_named (lit "MASTER BEDROOM") [])) = true /\
  _get_space_type (Examples.space_named (lit "master bedroom") [])
  = _get_space_type (Examples.space_named (lit "MASTER BEDROOM") []).
Proof.
  split; [reflexivity|].
  exact (@get_space_type_ignores_case
           (Examples.space_named (lit "MASTER BEDROOM") []) eq_refl eq_refl eq_refl).
Defined.

Lemma for_return_found {A R} (body : A -> result (option R)) (l : list A) (r : R) :
  for_return body l = Ok (Some r) -> exists x, In x l /\ body x = Ok (Some r).
Proof.
  induction l as [|x l IH]; simpl; [discriminate|].
  destruct (body x) as [[r'|]|e] eqn:E.
  - intros H. inversion H; subst. exists x. split; [left; reflexivity | exact E].
  - intros H. destruct (IH H) as [y [Hy Hb]]. exists y. split; [right; exact Hy | exact Hb].
  - discriminate.
Qed.

Lemma extract_found (pick : quantity -> option (option str * pyval))
    (names : list str) (keyword : str) (s : space) (x : float) :
  extract pick names keyword s = Ok (Some x) ->
  exists v, In v (quantity_candidates pick names s ++ property_candidates keyword s) /\
            _to_float v = Ok (Some x).
Proof.
  rewrite extract_on_candidates.
  destruct (for_return return_converted (quantity_candidates pick names s))
    as [[r|]|e] eqn:E1; cbn [bind]; [| |discriminate].
  - intros H. inversion H; subst. apply for_return_found in E1 as [v [Hin Hv]].
    exists v. split; [apply in_or_app; left; exact Hin|].
    unfold return_converted in Hv. destruct (_to_float v) as [r|e]; [|discriminate].
    simpl in Hv. inversion Hv; subst. reflexivity.
  - destruct (for_return return_if_converted (property_candidates keyword s))
      as [[r|]|e] eqn:E2; cbn [bind]; [| discriminate | discriminate].
    intros H. inversion H; subst. apply for_return_found in E2 as [v [Hin Hv]].
    exists v. split; [apply in_or_app; right; exact Hin|].
    unfold return_if_converted in Hv. destruct (_to_float v) as [[y|]|e];
      simpl in Hv; inversion Hv; subst. reflexivity.
Qed.

(** X16.  The extractors make nothing up: an area that [_extract_area_m2] returns
    is the float of a value that the space holds, in a quantity of area kind
    with one of the three names or in a property named after the area; and
    the same for the height. *)
Theorem extracted_value_is_stored (s : space) (x : float) :
  (_extract_area_m2 s = Ok (Some x) ->
   exists v, In v (area_quantities s ++ area_properties s) /\
             _to_float v = Ok (Some x)) /\
  (_extract_height_m s = Ok (Some x) ->
   exists v, In v (height_quantities s ++ height_properties s) /\
             _to_float v = Ok (Some x)).
Proof. split; apply extract_found. Qed.

(** X17.  One wrapper is looked through and a second one is not: wrapping a bool,
    an int, a float or a str once does not change what [_to_float] makes of
    it, and wrapping it twice makes it absent. *)
Theorem to_float_unwraps_once (w : pyval) :
  is_scalar w = true ->
  _to_float (VWrapper w) = _to_float w /\
  _to_float (VWrapper (VWrapper w)) = Ok None.
Proof.
  intros H. split; [|reflexivity].
  destruct w as [|b|z|f|s| |w]; try discriminate H; unfold _to_float, try_float; simpl.
  - reflexivity.
  - destruct (is_finite (of_Z z)); reflexivity.
  - reflexivity.
  - destruct (FloatOfStr.parse s); reflexivity.
Qed.

Lemma to_float_unwraps_once_witness :
  is_scalar (VStr (lit "12.5")) = true /\
  _to_float (VWrapper (VStr (lit "12.5"))) = _to_float (VStr (lit "12.5")).
Proof.
  split; [reflexivity|].
  exact (proj1 (@to_float_unwraps_once (VStr (lit "12.5")) eq_refl)).
Defined.

(* ================================================================== *)
(** * The decimals of the report                                      *)
(* ================================================================== *)

Lemma uint_digits_are_digits (u : Decimal.uint) : is_digits (uint_digits u) = true.
Proof. induction u; simpl; try rewrite IHu; reflexivity. Qed.

Lemma str_of_N_digits (n : N) : is_digits (str_of_N n) = true /\ str_of_N n <> [].
Proof.
  split; [apply uint_digits_are_digits|].
  unfold str_of_N. destruct n as [|p]; [discriminate|].
  simpl. pose proof (DecimalPos.Unsigned.to_uint_nonnil p) as H.
  destruct (Pos.to_uint p); [congruence | | | | | | | | | |]; discriminate.
Qed.

Lemma three_digits (n : N) : n < 1000 -> List.length (zfill 3 (str_of_N n)) = 3%nat.
Proof.
  intros H.
  assert (A : forallb (fun k => Nat.eqb (List.length (zfill 3 (str_of_N (N.of_nat k)))) 3)
                (seq 0 1000) = true) by (vm_compute; reflexivity).
  rewrite forallb_forall in A.
  assert (I : In (N.to_nat n) (seq 0 1000)) by (apply in_seq; lia).
  specialize (A _ I). rewrite N2Nat.id in A. apply Nat.eqb_eq. exact A.
Qed.

Lemma zfill_digits (w : nat) (s : str) :
  is_digits s = true -> is_digits (zfill w s) = true.
Proof.
  intros H. unfold zfill, is_digits in *. apply forallb_forall. intros c Hc.
  apply in_app_or in Hc as [Hc|Hc].
  - apply repeat_spec in Hc. subst c. reflexivity.
  - rewrite forallb_forall in H. apply H. exact Hc.
Qed.

Lemma fixed_digits_shape (v : Z) :
  exists whole frac,
    fixed_digits 3 v = whole ++ lit "." ++ frac /\
    is_digits whole = true /\ whole <> [] /\
    is_digits frac = true /\ List.length frac = 3%nat.
Proof.
  unfold fixed_digits. change (10 ^ Z.of_nat 3)%Z with 1000%Z.
  eexists _, _. split; [reflexivity|].
  destruct (str_of_N_digits (Z.to_N (v / 1000))) as [D1 N1].
  destruct (str_of_N_digits (Z.to_N (v mod 1000))) as [D2 _].
  split; [exact D1|]. split; [exact N1|]. split; [apply zfill_digits; exact D2|].
  apply three_digits. pose proof (Z.mod_pos_bound v 1000). lia.
Qed.

(** X18.  A finite measurement is always shown with an optional minus sign, at
    least one digit, a point and exactly three decimals; an absent one as
    "None". *)
Theorem format_decimal_shape (x : float) :
  is_finite x = true ->
  _format_decimal None 3 = lit "None" /\
  exists sign whole frac,
    _format_decimal (Some x) 3 = sign ++ whole ++ lit "." ++ frac /\
    (sign = [] \/ sign = lit "-") /\
    is_digits whole = true /\ whole <> [] /\
    is_digits frac = true /\ List.length frac = 3%nat.
Proof.
  intros H. split; [reflexivity|]. unfold _format_decimal, format_fixed.
  destruct x as [s|s| |s m e]; try discriminate H.
  - destruct (fixed_digits_shape 0) as [whole [frac [E R]]].
    exists (if s then lit "-" else []), whole, frac. rewrite E.
    split; [reflexivity|]. split; [destruct s; auto | exact R].
  - destruct (fixed_digits_shape (scaled_round 3 m e)) as [whole [frac [E R]]].
    exists (if s then lit "-" else []), whole, frac. rewrite E.
    split; [reflexivity|]. split; [destruct s; auto | exact R].
Qed.

Lemma format_decimal_shape_witness :
  is_finite Examples.f_18_5 = true /\
  exists sign whole frac,
    _format_decimal (Some Examples.f_18_5) 3 = sign ++ whole ++ lit "." ++ frac /\
    List.length frac = 3%nat.
Proof.
  split; [reflexivity|].
  destruct (@format_decimal_shape Examples.f_18_5 eq_refl)
    as [_ [sign [whole [frac [E [_ [_ [_ [_ L]]]]]]]]].
  exists sign, whole, frac. split; assumption.
Defined.

(* ================================================================== *)
(** * The calculator                                                  *)
(* ================================================================== *)

Section CalculatorProperties.

Import Calculator.

Lemma known_operation_cases (op : str) :
  mem op known_operations = true ->
  op = lit "add" \/ op = lit "subtract" \/ op = lit "multiply" \/ op = lit "divide".
Proof.
  unfold mem, known_operations. cbn [map existsb]. rewrite !orb_true_iff, !str_eqb_eq.
  intros [H | [H | [H | [H | H]]]]; auto. discriminate.
Qed.

Lemma unknown_operation (op : str) :
  mem op known_operations = false -> dict_get operations op = None.
Proof.
  unfold mem, known_operations. cbn [map existsb]. rewrite !orb_false_iff.
  intros [H1 [H2 [H3 [H4 _]]]].
  assert (F : forall k, str_eqb op k = false -> str_eqb k op = false).
  { intros k E. destruct (str_eqb k op) eqn:E'; [|reflexivity].
    apply str_eqb_eq in E'. subst k. rewrite str_eqb_refl in E. discriminate. }
  unfold operations. cbn [dict_get].
  rewrite (F _ H1), (F _ H2), (F _ H3), (F _ H4). reflexivity.
Qed.

(** X19.  [calculate] answers with an error in two cases only: an operation other
    than "add", "subtract", "multiply" and "divide", and a division by a
    divisor equal to zero (0.0 or -0.0).  In every other case it answers with
    a result; a division by NaN is one of them, and no division by zero is
    ever carried out. *)
Theorem calculate_errors (op : str) (a b : float) :
  (mem op known_operations = false ->
     calculate op a b = Error (lit "Unknown operation: " ++ op)) /\
  (op = lit "divide" -> SFeqb b (S754_zero false) = true ->
     calculate op a b = Error (lit "Division by zero")) /\
  (mem op known_operations = true ->
   (op = lit "divide" -> SFeqb b (S754_zero false) = false) ->
     exists x, calculate op a b = Result x) /\
  calculate (lit "divide") a S754_nan = Result S754_nan.
Proof.
  split; [|split; [|split]].
  - intros H. unfold calculate. rewrite (unknown_operation _ H). reflexivity.
  - intros -> Hb. unfold calculate. cbn. unfold nonzero. rewrite Hb. reflexivity.
  - intros H Hd. apply known_operation_cases in H as [-> | [-> | [-> | ->]]];
      unfold calculate; cbn; try (eexists; reflexivity).
    unfold nonzero. rewrite (Hd eq_refl). eexists. reflexivity.
  - unfold calculate. cbn. destruct a; reflexivity.
Qed.

Lemma SFadd_comm (x y : float) : SFadd prec emax x y = SFadd prec emax y x.
Proof.
  destruct x as [sx|sx| |sx mx ex], y as [sy|sy| |sy my ey]; simpl; try reflexivity.
  - destruct sx, sy; reflexivity.
  - destruct sx, sy; reflexivity.
  - rewrite Z.min_comm, Z.add_comm. reflexivity.
Qed.

Lemma SFmul_comm (x y : float) : SFmul prec emax x y = SFmul prec emax y x.
Proof.
  destruct x as [sx|sx| |sx mx ex], y as [sy|sy| |sy my ey]; simpl;
    try reflexivity; try (rewrite xorb_comm; reflexivity).
  rewrite xorb_comm, Pos.mul_comm, Z.add_comm. reflexivity.
Qed.

(** X20.  Addition and multiplication do not depend on the order of the operands,
    for all floats, the infinities, the zeros and NaN included. *)
Theorem calculate_commutes (a b : float) :
  calculate (lit "add") a b = calculate (lit "add") b a /\
  calculate (lit "multiply") a b = calculate (lit "multiply") b a.
Proof.
  unfold calculate. cbn. rewrite (SFadd_comm a b), (SFmul_comm a b). split; reflexivity.
Qed.

End CalculatorProperties.

(* ================================================================== *)
(** * The retry loop                                                  *)
(* ================================================================== *)

Section RetryProperties.

Import Retry.

Variable R : Type.
Variable respond : nat -> outcome R.
Variable attempts : Z.

Lemma doubling_succ (first : Z) (n : nat) :
  first :: doubling (first * 2) n = doubling first (S n).
Proof.
  unfold doubling. cbn [seq map]. rewrite Z.mul_1_r. f_equal.
  rewrite <- seq_shift, map_map. apply map_ext. intros k.
  rewrite Nat2Z.inj_succ, Z.pow_succ_r by lia. lia.
Qed.

Lemma sum_doubling (n : nat) : sum_Z (doubling 1 n) = (2 ^ Z.of_nat n - 1)%Z.
Proof.
  induction n as [|n IH]; [reflexivity|].
  unfold doubling in *. rewrite seq_S, map_app. cbn [map Nat.add].
  assert (A : forall l x, sum_Z (l ++ [x]) = (sum_Z l + x)%Z).
  { induction l as [|y l IHl]; intros x; simpl; [lia|]. rewrite IHl. lia. }
  rewrite A, IH, Nat2Z.inj_succ, Z.pow_succ_r by lia. lia.
Qed.

(** The loop from a call that is not answered by 503, reached after [k]
    answers 503. *)
Lemma retry_from_stops (k : nat) :
  forall (remaining : nat) (attempt delay : Z) (t : trace),
    (k < remaining)%nat ->
    Z.of_nat remaining = (attempts - attempt + 1)%Z ->
    (forall j, (j < k)%nat -> is_503 (respond (calls t + j)) = true) ->
    is_503 (respond (calls t + k)) = false ->
    retry_from respond attempts remaining attempt delay t =
      (ending_of (respond (calls t + k)),
       {| calls := S (calls t + k); slept := slept t ++ doubling delay k |}).
Proof.
  induction k as [|k IH]; intros remaining attempt delay t Hk Hr Hpre Hlast.
  - destruct remaining as [|rem]; [lia|]. cbn [retry_from].
    rewrite Nat.add_0_r in *. unfold doubling. cbn [seq map]. rewrite app_nil_r.
    destruct (respond (calls t)) as [r|code|]; try reflexivity.
    simpl in Hlast. rewrite Hlast. reflexivity.
  - destruct remaining as [|rem]; [lia|]. cbn [retry_from].
    pose proof (Hpre 0%nat ltac:(lia)) as H0. rewrite Nat.add_0_r in H0.
    destruct (respond (calls t)) as [r|code|] eqn:E; try discriminate H0.
    simpl in H0. rewrite H0.
    assert (Ea : (attempt =? attempts)%Z = false) by (apply Z.eqb_neq; lia).
    rewrite Ea. cbn [negb orb calls slept].
    rewrite (IH rem (attempt + 1)%Z (delay * 2)%Z
               {| calls := S (calls t); slept := slept t ++ [delay] |}).
    + cbn [calls slept]. rewrite <- app_assoc. cbn [app]. rewrite doubling_succ.
      replace (S (calls t) + k)%nat with (calls t + S k)%nat by lia. reflexivity.
    + lia.
    + lia.
    + intros j Hj. cbn [calls].
      replace (S (calls t) + j)%nat with (calls t + S j)%nat by lia.
      apply Hpre. lia.
    + cbn [calls]. replace (S (calls t) + k)%nat with (calls t + S k)%nat by lia.
      exact Hlast.
Qed.

(** One turn of the loop at an answer 503 that is not the last attempt. *)
Lemma retry_from_again (remaining : nat) (attempt delay : Z) (t : trace) :
  respond (calls t) = ServerError 503 ->
  attempt <> attempts ->
  retry_from respond attempts (S remaining) attempt delay t =
    retry_from respond attempts remaining (attempt + 1)%Z (delay * 2)%Z
      {| calls := S (calls t); slept := slept t ++ [delay] |}.
Proof.
  intros H0 Ha. apply Z.eqb_neq in Ha.
  change (retry_from respond attempts (S remaining) attempt delay t)
    with (match respond (calls t) with
          | Response r => (Returns r, {| calls := S (calls t); slept := slept t |})
          | OtherException => (RaisesOther, {| calls := S (calls t); slept := slept t |})
          | ServerError code =>
              if negb (code =? 503)%Z || (attempt =? attempts)%Z
              then (RaisesServerError code, {| calls := S (calls t); slept := slept t |})
              else retry_from respond attempts remaining (attempt + 1)%Z (delay * 2)%Z
                     {| calls := S (calls t); slept := slept t ++ [delay] |}
          end).
  rewrite H0, Ha. reflexivity.
Qed.

(** The loop when every call that is left is answered by 503. *)
Lemma retry_from_gives_up (remaining : nat) :
  forall (attempt delay : Z) (t : trace),
    Z.of_nat (S remaining) = (attempts - attempt + 1)%Z ->
    (forall j, (j <= remaining)%nat -> respond (calls t + j) = ServerError 503) ->
    retry_from respond attempts (S remaining) attempt delay t =
      (RaisesServerError 503,
       {| calls := S (calls t + remaining);
          slept := slept t ++ doubling delay remaining |}).
Proof.
  induction remaining as [|rem IH]; intros attempt delay t Hr Hall.
  - cbn [retry_from]. pose proof (Hall 0%nat ltac:(lia)) as H0.
    rewrite Nat.add_0_r in *. rewrite H0.
    assert (Ea : (attempt =? attempts)%Z = true) by (apply Z.eqb_eq; lia).
    rewrite Ea. cbn. unfold doubling. cbn [seq map]. rewrite app_nil_r. reflexivity.
  - pose proof (Hall 0%nat ltac:(lia)) as H0. rewrite Nat.add_0_r in H0.
    rewrite (@retry_from_again (S rem) attempt delay t H0) by lia.
    rewrite (IH (attempt + 1)%Z (delay * 2)%Z
               {| calls := S (calls t); slept := slept t ++ [delay] |}).
    + cbn [calls slept]. rewrite <- app_assoc. cbn [app]. rewrite doubling_succ.
      replace (S (calls t) + rem)%nat with (calls t + S rem)%nat by lia. reflexivity.
    + lia.
    + intros j Hj. cbn [calls].
      replace (S (calls t) + j)%nat with (calls t + S j)%nat by lia.
      apply Hall. lia.
Qed.

(** X21.  While the server answers 503 the loop calls again, sleeping 1, 2, 4, ...
    seconds between the calls.  At the first call that is answered otherwise,
    if it is among the first [attempts] calls, the loop ends: it returns a
    response, and it raises any other error at once, without a further call.
    Before that call it has slept [2^k - 1] seconds, [k] being the number of
    answers 503. *)
Theorem retry_stops_at_first_answer (k : nat) :
  (Z.of_nat k < attempts)%Z ->
  (forall j, (j < k)%nat -> is_503 (respond j) = true) ->
  is_503 (respond k) = false ->
  _generate_with_retry respond attempts =
    (ending_of (respond k), {| calls := S k; slept := doubling 1 k |}) /\
  sum_Z (doubling 1 k) = (2 ^ Z.of_nat k - 1)%Z.
Proof.
  intros Hk Hpre Hlast. split; [|apply sum_doubling].
  unfold _generate_with_retry.
  rewrite (@retry_from_stops k (Z.to_nat attempts) 1%Z 1%Z {| calls := 0; slept := [] |});
    cbn [calls slept app]; try assumption; try reflexivity; lia.
Qed.

(** X22.  When all of the [attempts] calls are answered by 503, the loop makes
    exactly that many calls, sleeps after each but the last, [2^(attempts-1)
    - 1] seconds in all, and raises the last error 503 again.  With
    [attempts] of 0 or less it makes no call and raises the RuntimeError. *)
Theorem retry_gives_up (n : nat) :
  (attempts = Z.of_nat (S n) ->
   (forall j, (j <= n)%nat -> respond j = ServerError 503) ->
   _generate_with_retry respond attempts =
     (RaisesServerError 503, {| calls := S n; slept := doubling 1 n |}) /\
   sum_Z (doubling 1 n) = (2 ^ (attempts - 1) - 1)%Z) /\
  ((attempts <= 0)%Z ->
   _generate_with_retry respond attempts =
     (RaisesRuntimeError, {| calls := 0; slept := [] |})).
Proof.
  split.
  - intros Ha Hall. split.
    + unfold _generate_with_retry. rewrite Ha, Nat2Z.id.
      rewrite <- Ha.
      rewrite (@retry_from_gives_up n 1%Z 1%Z {| calls := 0; slept := [] |});
        cbn [calls slept app]; try assumption; try reflexivity; lia.
    + rewrite sum_doubling. f_equal. f_equal. lia.
  - intros Ha. unfold _generate_with_retry.
    assert (E : Z.to_nat attempts = 0%nat) by lia. rewrite E. reflexivity.
Qed.

End RetryProperties.

Lemma retry_stops_at_first_answer_witness :
  let respond := fun k : nat =>
    match k with
    | 0%nat | 1%nat => Retry.ServerError 503
    | _ => Retry.Response (lit "ok")
    end in
  (Z.of_nat 2 < 5)%Z /\
  Retry._generate_with_retry respond 5 =
    (Retry.Returns (lit "ok"), {| Retry.calls := 3; Retry.slept := [1%Z; 2%Z] |}).
Proof.
  intros respond. split; [reflexivity|].
  refine (proj1 (@retry_stops_at_first_answer _ respond 5 2 eq_refl _ eq_refl)).
  intros [|[|j]] Hj; [reflexivity | reflexivity | lia].
Defined.

Lemma retry_gives_up_witness :
  let respond := fun _ : nat => @Retry.ServerError str 503 in
  3%Z = Z.of_nat 3 /\
  Retry._generate_with_retry respond 3 =
    (Retry.RaisesServerError 503, {| Retry.calls := 3; Retry.slept := [1%Z; 2%Z] |}).
Proof.
  intros respond. split; [reflexivity|].
  exact (proj1 (proj1 (@retry_gives_up str respond 3 2) eq_refl (fun j _ => eq_refl))).
Defined.

Lemma calculate_errors_witness :
  SFeqb (S754_zero true) (S754_zero false) = true /\
  Calculator.calculate (lit "divide") Examples.f_3_0 (S754_zero true)
  = Calculator.Error (lit "Division by zero").
Proof.
  split; [reflexivity|].
  exact (proj1 (proj2 (calculate_errors (lit "divide") Examples.f_3_0 (S754_zero true)))
           eq_refl eq_refl).
Defined.

Lemma extracted_value_is_stored_witness :
  _extract_area_m2 Examples.bedroom = Ok (Some Examples.f_18_5) /\
  exists v, In v (area_quantities Examples.bedroom ++ area_properties Examples.bedroom) /\
            _to_float v = Ok (Some Examples.f_18_5).
Proof.
  assert (H : _extract_area_m2 Examples.bedroom = Ok (Some Examples.f_18_5))
    by (vm_compute; reflexivity).
  split; [exact H|].
  exact (proj1 (@extracted_value_is_stored Examples.bedroom Examples.f_18_5) H).
Defined.

(* ================================================================== *)
(** * From the check to the report                                    *)
(* ================================================================== *)

Lemma count_lines_fold (counts : list (str * Z)) (statuses : list str) (lines : list str) :
  fold_left (fun lines status =>
      match dict_get counts status with
      | Some count =>
          lines ++ [Render.ljust 12 (Render.upper status) ++ lit " "
                    ++ Render.rjust 8 (str_of_Z count)]
      | None => lines
      end) statuses lines
  = lines ++ flat_map (fun status =>
      match dict_get counts status with
      | Some count =>
          [Render.ljust 12 (Render.upper status) ++ lit " "
           ++ Render.rjust 8 (str_of_Z count)]
      | None => []
      end) statuses.
Proof.
  revert lines. induction statuses as [|status statuses IH]; intros lines.
  - simpl. rewrite app_nil_r. reflexivity.
  - cbn [fold_left flat_map]. rewrite IH.
    destruct (dict_get counts status); [rewrite <- app_assoc | ]; reflexivity.
Qed.

Lemma filter_space_rows (rows : list row) (summary : row) :
  Forall (fun r => element_type r = lit "IfcSpace" /\
                   (check_status r = lit "pass" \/ check_status r = lit "fail")) rows ->
  element_type summary = lit "Summary" ->
  filter (fun r => str_eqb (element_type r) (lit "IfcSpace")) (rows ++ [summary]) = rows /\
  filter (fun r => str_eqb (element_type r) (lit "Summary")) (rows ++ [summary]) = [summary].
Proof.
  intros Hrows Hs. rewrite !filter_app. cbn [filter]. rewrite Hs.
  change (str_eqb (lit "Summary") (lit "IfcSpace")) with false.
  change (str_eqb (lit "Summary") (lit "Summary")) with true. cbv iota.
  rewrite app_nil_r.
  induction Hrows as [|r rows [Hr _] _ [IH1 IH2]]; [split; reflexivity|].
  cbn [filter app]. rewrite Hr.
  change (str_eqb (lit "IfcSpace") (lit "IfcSpace")) with true.
  change (str_eqb (lit "IfcSpace") (lit "Summary")) with false. cbv iota.
  rewrite IH1. split; [reflexivity | exact IH2].
Qed.

Lemma status_key_count (status : string) (rows : list row) :
  status = "pass"%string \/ status = "fail"%string ->
  Forall (fun r => element_type r = lit "IfcSpace" /\
                   (check_status r = lit "pass" \/ check_status r = lit "fail")) rows ->
  filter (fun r => str_eqb (Render.status_key r) (lit status)) rows
  = filter (is_status status) rows.
Proof.
  intros Hst Hrows. induction Hrows as [|r rows [_ Hr] _ IH]; [reflexivity|].
  cbn [filter]. rewrite IH.
  assert (E : str_eqb (Render.status_key r) (lit status) = is_status status r).
  { unfold Render.status_key, is_status.
    destruct Hr as [-> | ->]; destruct Hst as [-> | ->]; reflexivity. }
  rewrite E. reflexivity.
Qed.

Lemma tally_of_records (status : string) (rows : list row) :
  status = "pass"%string \/ status = "fail"%string ->
  Forall (fun r => element_type r = lit "IfcSpace" /\
                   (check_status r = lit "pass" \/ check_status r = lit "fail")) rows ->
  (0 < count_status status rows)%Z ->
  dict_get (fold_left (fun counts r => Render.dict_incr counts (Render.status_key r)) rows [])
           (lit status)
  = Some (count_status status rows).
Proof.
  intros Hst Hrows Hpos. rewrite tally_from, (status_key_count Hst Hrows).
  unfold count_status in *.
  destruct (List.length (filter (is_status status) rows)); [lia|]. reflexivity.
Qed.

(** X24.  The report repeats what the check found.  For a model whose values all
    convert, the compliance section built from the records of the check gives
    the number of spaces of the model as "Total space checks", has a line
    "PASS" (a line "FAIL") with the count of the summary record whenever that
    count is not zero, and lists the summary record with its whole value. *)
Theorem report_agrees_with_check (model : file) :
  model_ok model = true ->
  exists rows rate payload,
    let n := Z.of_nat (List.length (by_type_IfcSpace model)) in
    let p := count_status "pass" rows in
    let f := count_status "fail" rows in
    let summary := summary_row n p f rate payload in
    let lines := fst (Render._build_compliance_section (rows ++ [summary])) in
    check_barcelona_space_compliance model = Ok (rows ++ [summary]) /\
    passed_count payload = p /\ failed_count payload = f /\
    nth 2 lines [] = lit "Total space checks: " ++ str_of_Z n /\
    ((0 < p)%Z ->
     In (Render.ljust 12 (lit "PASS") ++ lit " " ++ Render.rjust 8 (str_of_Z p)) lines) /\
    ((0 < f)%Z ->
     In (Render.ljust 12 (lit "FAIL") ++ lit " " ++ Render.rjust 8 (str_of_Z f)) lines) /\
    In (lit "- Barcelona Space Compliance Summary: " ++ actual_value summary) lines.
Proof.
  intros Hok. destruct (check_result model Hok) as [rows [Hrows Hcheck]].
  cbv zeta in Hcheck.
  destruct (records_shape Hrows) as [Hlen Hshape].
  eexists rows, _, _. cbv zeta. split; [exact Hcheck|].
  split; [reflexivity|]. split; [reflexivity|].
  set (n := Z.of_nat (List.length (by_type_IfcSpace model))).
  set (p := count_status "pass" rows). set (f := count_status "fail" rows).
  set (summary := summary_row n p f _ _).
  destruct (@filter_space_rows rows summary Hshape eq_refl) as [Hsp Hsum].
  unfold Render._build_compliance_section. cbv zeta. cbn [fst].
  rewrite Hsp, Hsum, count_lines_fold.
  set (counts := fold_left _ rows []).
  set (count_line := fun status : str => match dict_get counts status with
                                         | Some _ => _ | None => _ end).
  set (detail := fun r : row => _ :: match nonempty (comment r) with
                                     | Some _ => [lit "  reasons: " ++ _] | None => _ end).
  assert (Hcount : forall status, status = "pass"%string \/ status = "fail"%string ->
            (0 < count_status status rows)%Z ->
            In (Render.ljust 12 (Render.upper (lit status)) ++ lit " "
                ++ Render.rjust 8 (str_of_Z (count_status status rows)))
               (flat_map count_line
                  (map lit ["pass"; "fail"; "warning"; "blocked"; "log"; "unknown"]))).
  { intros status Hst Hpos. apply in_flat_map. exists (lit status). split.
    - destruct Hst as [-> | ->]; [left | right; left]; reflexivity.
    - subst count_line. cbv beta. subst counts.
      rewrite (tally_of_records Hst Hshape Hpos). left. reflexivity. }
  split; [|split; [|split]].
  - assert (Hn : Z.of_nat (List.length rows) = n) by (subst n; rewrite Hlen; reflexivity).
    rewrite Hn. clearbody summary counts count_line detail n.
    clear. destruct rows; destruct (filter _ _); reflexivity.
  - intros Hp.
    assert (H : In (Render.ljust 12 (lit "PASS") ++ lit " " ++ Render.rjust 8 (str_of_Z p))
                   (flat_map count_line
                      (map lit ["pass"; "fail"; "warning"; "blocked"; "log"; "unknown"])))
      by exact (Hcount "pass"%string (or_introl eq_refl) Hp).
    clearbody summary counts count_line detail n p f. clear - H.
    apply in_or_app; left. cbv iota. do 2 (apply in_or_app; left).
    destruct (filter _ rows); do 2 (apply in_or_app; left);
      destruct rows; do 2 (apply in_or_app; left); apply in_or_app; right; exact H.
  - intros Hf.
    assert (H : In (Render.ljust 12 (lit "FAIL") ++ lit " " ++ Render.rjust 8 (str_of_Z f))
                   (flat_map count_line
                      (map lit ["pass"; "fail"; "warning"; "blocked"; "log"; "unknown"])))
      by exact (Hcount "fail"%string (or_intror eq_refl) Hf).
    clearbody summary counts count_line detail n p f. clear - H.
    apply in_or_app; left. cbv iota. do 2 (apply in_or_app; left).
    destruct (filter _ rows); do 2 (apply in_or_app; left);
      destruct rows; do 2 (apply in_or_app; left); apply in_or_app; right; exact H.
  - apply in_or_app; left. cbv iota. apply in_or_app; right. left. reflexivity.
Qed.

Lemma report_agrees_with_check_witness :
  model_ok Examples.model_two = true /\
  exists records,
    check_barcelona_space_compliance Examples.model_two = Ok records /\
    nth 2 (fst (Render._build_compliance_section records)) []
    = lit "Total space checks: 2".
Proof.
  split; [reflexivity|].
  destruct (report_agrees_with_check Examples.model_two eq_refl)
    as (rows & rate & payload & Hc & _ & _ & Hn & _).
  eexists. split; [exact Hc | exact Hn].
Defined.
